(** * aiobufpro: the HTTP/WebSocket protocol core, embedded and verified

    A shallow embedding of the per-connection engine of the server:
    - [utils.py]: server headers and the WebSocket accept key;
    - [parsers/http.py]: the incremental request-line and header parser;
    - [parsers/websocket.py]: the frame decoder and the frame encoder;
    - [connections.py]: the ASGI connection state machine;
    - [protocol.py]: the buffered protocol that owns the transport.

    Python objects are records, mutation is state passing, and a raised
    exception is a value of [exn] returned next to the state reached when it
    was raised. *)

From Stdlib Require Import List NArith ZArith Lia Bool.
From Stdlib Require Import Strings.Byte Strings.Ascii Strings.String.
Import ListNotations.

Local Open Scope N_scope.

(** ** Python values used by the code *)

(** [bytes] and [bytearray] objects are lists of bytes, [str] objects are
    strings, one character per code point (all the [str] values the core
    makes come from [decode("ascii")] and [decode("latin-1")]). *)
Abbreviation bytes := (list byte).

(** A [bytes] literal. *)
Definition B (s : string) : bytes := list_byte_of_string s.

(** The byte of a value in [range(256)]. *)
Definition byte_of_N (n : N) : byte :=
  match Byte.of_N n with Some b => b | None => x00 end.

(** The exceptions the core can raise.  [WebSocketError] is the only exception
    class the repository defines; [PyException] is a plain
    [raise Exception(message)]; the others are built in. *)
Inductive WebSocketCloseCode :=
| NORMAL | GOING_AWAY | PROTOCOL_ERROR | UNSUPPORTED_DATA | INVALID_DATA
| POLICY_VIOLATION | TOO_BIG | MISSING_EXTENSION | INTERNAL_SERVER_ERROR.


Inductive exn :=
| ValueError | TypeError | UnboundLocalError | IndexError | AttributeError
| KeyError | UnicodeDecodeError | UnicodeEncodeError | AssertionError
| NotImplementedError
| PyException (message : string)
| WebSocketError (code : WebSocketCloseCode) (message : string).

(** The outcome of a call: the exception raised, or the value returned. *)
Definition result (A : Type) : Type := (exn + A)%type.
Definition Ok {A} (a : A) : result A := inr a.
Definition Raise {A} (e : exn) : result A := inl e.

Definition rbind {A C} (r : result A) (k : A -> result C) : result C :=
  match r with inl e => inl e | inr a => k a end.

(** *** Slices, [strip], [split], [lower], [in] *)

(** [l[start:stop]] with Python's rules: a negative index counts from the
    end, and both ends are clamped to the sequence. *)
Definition norm_index (len i : Z) : Z :=
  let j := if (i <? 0)%Z then (i + len)%Z else i in
  Z.max 0 (Z.min len j).

Definition pyslice {A} (l : list A) (start stop : option Z) : list A :=
  let len := Z.of_nat (List.length l) in
  let lo := match start with Some i => norm_index len i | None => 0%Z end in
  let hi := match stop with Some i => norm_index len i | None => len end in
  firstn (Z.to_nat (hi - lo)) (skipn (Z.to_nat lo) l).

Definition len {A} (l : list A) : Z := Z.of_nat (List.length l).

(** ASCII whitespace, the default set of [bytes.strip()]. *)
Definition bytes_isspace (b : byte) : bool :=
  let n := Byte.to_N b in
  (n =? 32) || ((9 <=? n) && (n <=? 13)).

(** [str.isspace] below code point 256: the ASCII whitespace, the
    separators 0x1c-0x1f, NEL and the no-break space. *)
Definition str_isspace (c : ascii) : bool :=
  let n := N_of_ascii c in
  (n =? 32) || ((9 <=? n) && (n <=? 13)) || ((28 <=? n) && (n <=? 31))
  || (n =? 133) || (n =? 160).

Fixpoint lstrip {A} (sp : A -> bool) (l : list A) : list A :=
  match l with
  | [] => []
  | x :: t => if sp x then lstrip sp t else l
  end.

Definition rstrip {A} (sp : A -> bool) (l : list A) : list A :=
  rev (lstrip sp (rev l)).

Definition strip {A} (sp : A -> bool) (l : list A) : list A :=
  rstrip sp (lstrip sp l).

Definition bytes_strip (b : bytes) : bytes := strip bytes_isspace b.

Definition str_strip (s : string) : string :=
  string_of_list_ascii (strip str_isspace (list_ascii_of_string s)).

(** [s.split(" ")]: the fields between single spaces, empty fields kept. *)
Fixpoint split_space (cur : list ascii) (l : list ascii) : list string :=
  match l with
  | [] => [string_of_list_ascii (rev cur)]
  | c :: t =>
      if Ascii.eqb c " "%char
      then string_of_list_ascii (rev cur) :: split_space [] t
      else split_space (c :: cur) t
  end.

Definition str_split_space (s : string) : list string :=
  split_space [] (list_ascii_of_string s).

(** [bytes.lower()]: the ASCII capitals only. *)
Definition byte_lower (b : byte) : byte :=
  let n := Byte.to_N b in
  if (65 <=? n) && (n <=? 90)
  then match Byte.of_N (n + 32) with Some c => c | None => b end
  else b.

Definition bytes_lower (b : bytes) : bytes := map byte_lower b.

Definition bytes_eqb (a b : bytes) : bool :=
  if list_eq_dec Byte.byte_eq_dec a b then true else false.

Fixpoint starts_with (p l : bytes) : bool :=
  match p, l with
  | [], _ => true
  | _ :: _, [] => false
  | x :: p', y :: l' => Byte.eqb x y && starts_with p' l'
  end.

(** [sub in l] on bytes. *)
Fixpoint bytes_in (sub l : bytes) : bool :=
  starts_with sub l ||
  match l with
  | [] => false
  | _ :: t => bytes_in sub t
  end.

(** *** Integers as text *)

Definition digit_char (d : N) : ascii :=
  if d <? 10 then ascii_of_N (48 + d) else ascii_of_N (87 + d).

Fixpoint digits_acc (base : N) (fuel : nat) (n : N) (acc : string) : string :=
  match fuel with
  | O => acc
  | S f =>
      let acc' := String (digit_char (n mod base)) acc in
      if n / base =? 0 then acc' else digits_acc base f (n / base) acc'
  end.

(** The numeral of [n] in [base] (2, 10 or 16), lower-case, no prefix. *)
Definition numeral (base n : N) : string :=
  digits_acc base (S (N.to_nat (N.size n))) n EmptyString.

(** [s.zfill(w)] for a numeral without sign. *)
Definition zfill (w : nat) (s : string) : string :=
  string_of_list_ascii
    (repeat "0"%char (w - String.length s) ++ list_ascii_of_string s).

(** [f"{n:08b}"] for an [int] that is not negative (the elements of a
    bytearray are in 0..255): at least eight binary digits. *)
Definition format_08b (n : N) : string := zfill 8 (numeral 2 n).

(** [f"{n:04}"]: decimal, at least four digits. *)
Definition format_04 (n : N) : string := zfill 4 (numeral 10 n).

(** [int(s, 2)] on a string of decimal digits: the digits 0 and 1 are
    binary digits, any other digit and the empty string raise [ValueError]. *)
Fixpoint int_base2_acc (l : list ascii) (acc : N) : result N :=
  match l with
  | [] => Ok acc
  | c :: t =>
      if Ascii.eqb c "0"%char then int_base2_acc t (2 * acc)
      else if Ascii.eqb c "1"%char then int_base2_acc t (2 * acc + 1)
      else Raise ValueError
  end.

Definition int_base2 (s : string) : result N :=
  match list_ascii_of_string s with
  | [] => Raise ValueError
  | l => int_base2_acc l 0
  end.

(** [s[i:j]] on a [str]. *)
Definition str_slice (s : string) (i j : Z) : string :=
  string_of_list_ascii (pyslice (list_ascii_of_string s) (Some i) (Some j)).

(** [bytes([...])]: every element must be in [range(256)]. *)
Fixpoint bytes_of_ints (l : list N) : result bytes :=
  match l with
  | [] => Ok []
  | n :: t =>
      match Byte.of_N n with
      | None => Raise ValueError
      | Some b => rbind (bytes_of_ints t) (fun r => Ok (b :: r))
      end
  end.

(** ** The hash and the encoding of the standard library *)

(** [hashlib.sha1(m).digest()], after FIPS 180-4: 32-bit words as [N] with
    the wrap-around written out. *)
Module Sha1.

Definition mask32 : N := 4294967295.
Definition add32 (a b : N) : N := (a + b) mod 4294967296.
Definition not32 (a : N) : N := N.lxor a mask32.
Definition rotl (n x : N) : N :=
  N.lor (N.land (N.shiftl x n) mask32) (N.shiftr x (32 - n)).

(** Big-endian bytes of a number, [k] of them. *)
Fixpoint be_bytes (k : nat) (n : N) : list N :=
  match k with
  | O => []
  | S k' => (N.shiftr n (8 * N.of_nat k')) mod 256 :: be_bytes k' n
  end.

Definition be_word (l : list N) : N :=
  fold_left (fun acc b => acc * 256 + b) l 0.

Definition pad (m : list N) : list N :=
  let l := N.of_nat (List.length m) in
  let zeros := (119 - l mod 64) mod 64 in
  m ++ [128] ++ repeat 0 (N.to_nat zeros) ++ be_bytes 8 (8 * l).

Fixpoint chunks {A} (fuel size : nat) (l : list A) : list (list A) :=
  match fuel with
  | O => []
  | S f =>
      match l with
      | [] => []
      | _ => firstn size l :: chunks f size (skipn size l)
      end
  end.

(** The message schedule, newest word first. *)
Fixpoint schedule (n : nat) (w : list N) : list N :=
  match n with
  | O => w
  | S n' =>
      let x := N.lxor (N.lxor (nth 2 w 0) (nth 7 w 0))
                      (N.lxor (nth 13 w 0) (nth 15 w 0)) in
      schedule n' (rotl 1 x :: w)
  end.

Definition round_f (t : nat) (b c d : N) : N :=
  if (t <? 20)%nat then N.lor (N.land b c) (N.land (not32 b) d)
  else if (t <? 40)%nat then N.lxor (N.lxor b c) d
  else if (t <? 60)%nat
       then N.lor (N.lor (N.land b c) (N.land b d)) (N.land c d)
  else N.lxor (N.lxor b c) d.

Definition round_k (t : nat) : N :=
  if (t <? 20)%nat then 1518500249
  else if (t <? 40)%nat then 1859775393
  else if (t <? 60)%nat then 2400959708
  else 3395469782.

Definition hstate : Type := (N * N * N * N * N)%type.

Definition round (st : hstate * nat) (w : N) : hstate * nat :=
  let '((a, b, c, d, e), t) := st in
  let tmp := add32 (add32 (add32 (add32 (rotl 5 a) (round_f t b c d)) e)
                          (round_k t)) w in
  ((tmp, a, rotl 30 b, c, d), S t).

Definition compress (h : hstate) (block : list N) : hstate :=
  let w16 := map be_word (chunks 16 4 block) in
  let w := rev (schedule 64 (rev w16)) in
  let '(h0, h1, h2, h3, h4) := h in
  let '((a, b, c, d, e), _) := fold_left round w (h, O) in
  (add32 h0 a, add32 h1 b, add32 h2 c, add32 h3 d, add32 h4 e).

Definition init : hstate :=
  (1732584193, 4023233417, 2562383102, 271733878, 3285377520).

Definition digest_ints (m : list N) : list N :=
  let p := pad m in
  let '(h0, h1, h2, h3, h4) :=
    fold_left compress (chunks (S (List.length p)) 64 p) init in
  be_bytes 4 h0 ++ be_bytes 4 h1 ++ be_bytes 4 h2 ++ be_bytes 4 h3
    ++ be_bytes 4 h4.

Definition digest (m : bytes) : bytes :=
  map byte_of_N (digest_ints (map Byte.to_N m)).

End Sha1.

(** [base64.b64encode], after RFC 4648: the standard alphabet, [=] padding. *)
Module Base64.

Definition alphabet : bytes :=
  B "ABCDEFGHIJKLMNOPQRSTUVWXYZabcdefghijklmnopqrstuvwxyz0123456789+/".

Definition sextet (n : N) : byte := nth (N.to_nat n) alphabet x00.

Definition pad_char : byte := "="%byte.

Fixpoint b64encode (m : bytes) : bytes :=
  match m with
  | [] => []
  | [a] =>
      let x := Byte.to_N a in
      [sextet (x / 4); sextet ((x mod 4) * 16); pad_char; pad_char]
  | [a; b] =>
      let x := Byte.to_N a in
      let y := Byte.to_N b in
      [sextet (x / 4); sextet ((x mod 4) * 16 + y / 16);
       sextet ((y mod 16) * 4); pad_char]
  | a :: b :: c :: t =>
      let x := Byte.to_N a in
      let y := Byte.to_N b in
      let z := Byte.to_N c in
      sextet (x / 4) :: sextet ((x mod 4) * 16 + y / 16)
        :: sextet ((y mod 16) * 4 + z / 64) :: sextet (z mod 64)
        :: b64encode t
  end.

End Base64.

(** ** utils.py *)

Definition WEBSOCKET_ACCEPT_GUID : string :=
  "258EAFA5-E914-47DA-95CA-C5AB0DC85B11".

(** [WEBSOCKET_ACCEPT_GUID.encode()]: the GUID is ASCII. *)
Definition guid_bytes : bytes := B WEBSOCKET_ACCEPT_GUID.

Definition get_websocket_accept_key (sec_websocket_key : bytes) : bytes :=
  let header_key := bytes_strip sec_websocket_key in
  let accept_key := header_key ++ guid_bytes in
  let accept_key_hash := Sha1.digest accept_key in
  let accept_key_response := Base64.b64encode accept_key_hash in
  accept_key_response.

(** *** What the core takes from the standard library

    The functions of the Python standard library that the core calls and
    whose code is outside the repository are an interface; the theorems hold
    for every implementation of it. *)
Class PyLib := {
  (** [urllib.parse.urlparse(target)]: the [path] and the [query] of the
      result, or the [ValueError] it raises. *)
  urlparse : string -> result (string * string);
  (** [http.HTTPStatus(status).phrase.encode()], [None] where the
      constructor raises [ValueError]. *)
  http_phrase : Z -> option bytes;
  (** [formatdate(time.time(), usegmt=True).encode()], the clock rendered. *)
  date_now : bytes;
  (** [int(value.decode())] on a header value. *)
  int_of_decoded : bytes -> result Z
}.

(** ** State and exceptions

    A method that mutates [self] and may raise is a function from the state
    before to the state after and the outcome: what was assigned before a
    [raise] stays assigned. *)
Definition M (S A : Type) : Type := S -> S * result A.

Definition ret {S A} (a : A) : M S A := fun s => (s, Ok a).
Definition raise {S A} (e : exn) : M S A := fun s => (s, Raise e).
Definition lift {S A} (r : result A) : M S A := fun s => (s, r).
Definition bind {S A C} (m : M S A) (k : A -> M S C) : M S C :=
  fun s =>
    match m s with
    | (s', inl e) => (s', inl e)
    | (s', inr a) => k a s'
    end.
Definition gets {S A} (f : S -> A) : M S A := fun s => (s, Ok (f s)).
Definition modify {S} (f : S -> S) : M S unit := fun s => (f s, Ok tt).

Declare Scope py_scope.
Delimit Scope py_scope with py.
Notation "x <- m ;; k" := (bind m (fun x => k))
  (at level 100, m at next level, right associativity) : py_scope.
Notation "m ;; k" := (bind m (fun _ => k))
  (at level 100, right associativity) : py_scope.
Notation "'when' c 'then' m" := (if c then m else ret tt)
  (at level 100, c at level 99, right associativity) : py_scope.
Open Scope py_scope.

(** ** parsers/http.py *)

Module HTTPParserState.
Inductive t := PARSING_REQUEST | PARSING_HEADERS | PARSING_COMPLETE.
Definition eqb (a b : t) : bool :=
  match a, b with
  | PARSING_REQUEST, PARSING_REQUEST
  | PARSING_HEADERS, PARSING_HEADERS
  | PARSING_COMPLETE, PARSING_COMPLETE => true
  | _, _ => false
  end.
End HTTPParserState.

Module HTTPParser.
Import HTTPParserState.

Record t := mk {
  state : HTTPParserState.t;
  http_method : option string;
  http_version : option string;
  path : option string;
  query_string : option string;
  headers : list (bytes * bytes);
  parsing_data : option bytes;
  parsing_header : bytes;
  parsing_sep_pos : option Z;
  next_sep_pos : option Z;
  next_header : bytes;
  raw_headers : bytes;
  upgrade_header : option (bytes * bytes);
  should_upgrade : option bool
}.

(** [__init__] *)
Definition init : t :=
  {| state := PARSING_REQUEST; http_method := None; http_version := None;
     path := None; query_string := None; headers := [];
     parsing_data := None; parsing_header := []; parsing_sep_pos := None;
     next_sep_pos := None; next_header := []; raw_headers := [];
     upgrade_header := None; should_upgrade := None |}.

(** Attribute assignment, [self.x = v]. *)
Definition set_state v p :=
  mk v (http_method p) (http_version p) (path p) (query_string p)
     (headers p) (parsing_data p) (parsing_header p) (parsing_sep_pos p)
     (next_sep_pos p) (next_header p) (raw_headers p) (upgrade_header p)
     (should_upgrade p).
Definition set_http_method v p :=
  mk (state p) v (http_version p) (path p) (query_string p)
     (headers p) (parsing_data p) (parsing_header p) (parsing_sep_pos p)
     (next_sep_pos p) (next_header p) (raw_headers p) (upgrade_header p)
     (should_upgrade p).
Definition set_http_version v p :=
  mk (state p) (http_method p) v (path p) (query_string p)
     (headers p) (parsing_data p) (parsing_header p) (parsing_sep_pos p)
     (next_sep_pos p) (next_header p) (raw_headers p) (upgrade_header p)
     (should_upgrade p).
Definition set_path v p :=
  mk (state p) (http_method p) (http_version p) v (query_string p)
     (headers p) (parsing_data p) (parsing_header p) (parsing_sep_pos p)
     (next_sep_pos p) (next_header p) (raw_headers p) (upgrade_header p)
     (should_upgrade p).
Definition set_query_string v p :=
  mk (state p) (http_method p) (http_version p) (path p) v
     (headers p) (parsing_data p) (parsing_header p) (parsing_sep_pos p)
     (next_sep_pos p) (next_header p) (raw_headers p) (upgrade_header p)
     (should_upgrade p).
Definition set_headers v p :=
  mk (state p) (http_method p) (http_version p) (path p) (query_string p)
     v (parsing_data p) (parsing_header p) (parsing_sep_pos p)
     (next_sep_pos p) (next_header p) (raw_headers p) (upgrade_header p)
     (should_upgrade p).
Definition set_parsing_data v p :=
  mk (state p) (http_method p) (http_version p) (path p) (query_string p)
     (headers p) v (parsing_header p) (parsing_sep_pos p)
     (next_sep_pos p) (next_header p) (raw_headers p) (upgrade_header p)
     (should_upgrade p).
Definition set_parsing_header v p :=
  mk (state p) (http_method p) (http_version p) (path p) (query_string p)
     (headers p) (parsing_data p) v (parsing_sep_pos p)
     (next_sep_pos p) (next_header p) (raw_headers p) (upgrade_header p)
     (should_upgrade p).
Definition set_parsing_sep_pos v p :=
  mk (state p) (http_method p) (http_version p) (path p) (query_string p)
     (headers p) (parsing_data p) (parsing_header p) v
     (next_sep_pos p) (next_header p) (raw_headers p) (upgrade_header p)
     (should_upgrade p).
Definition set_next_sep_pos v p :=
  mk (state p) (http_method p) (http_version p) (path p) (query_string p)
     (headers p) (parsing_data p) (parsing_header p) (parsing_sep_pos p)
     v (next_header p) (raw_headers p) (upgrade_header p)
     (should_upgrade p).
Definition set_next_header v p :=
  mk (state p) (http_method p) (http_version p) (path p) (query_string p)
     (headers p) (parsing_data p) (parsing_header p) (parsing_sep_pos p)
     (next_sep_pos p) v (raw_headers p) (upgrade_header p)
     (should_upgrade p).
Definition set_raw_headers v p :=
  mk (state p) (http_method p) (http_version p) (path p) (query_string p)
     (headers p) (parsing_data p) (parsing_header p) (parsing_sep_pos p)
     (next_sep_pos p) (next_header p) v (upgrade_header p)
     (should_upgrade p).
Definition set_upgrade_header v p :=
  mk (state p) (http_method p) (http_version p) (path p) (query_string p)
     (headers p) (parsing_data p) (parsing_header p) (parsing_sep_pos p)
     (next_sep_pos p) (next_header p) (raw_headers p) v
     (should_upgrade p).
Definition set_should_upgrade v p :=
  mk (state p) (http_method p) (http_version p) (path p) (query_string p)
     (headers p) (parsing_data p) (parsing_header p) (parsing_sep_pos p)
     (next_sep_pos p) (next_header p) (raw_headers p) (upgrade_header p)
     v.

(** The [is_complete] property. *)
Definition is_complete (p : t) : bool := eqb (state p) PARSING_COMPLETE.
End HTTPParser.

Definition CRLF : bytes := [x0d; x0a].

Definition is_none {A} (o : option A) : bool :=
  match o with None => true | Some _ => false end.

(** [b.decode("ascii")] *)
Definition decode_ascii (b : bytes) : result string :=
  if forallb (fun x => Byte.to_N x <? 128) b
  then Ok (string_of_list_byte b)
  else Raise UnicodeDecodeError.

Section ParseHeaders.
Context {lib : PyLib}.
Import HTTPParserState.

(** The first line feed: the request line is complete (lines 148-160). *)
Definition parse_request_line (_parsing_header : bytes)
  : M HTTPParser.t unit :=
  line <- lift (decode_ascii _parsing_header) ;;
  match str_split_space (str_strip line) with
  | [http_method; path; http_version] =>
      modify (HTTPParser.set_http_method (Some http_method)) ;;
      modify (HTTPParser.set_http_version (Some http_version)) ;;
      _parsed_path <- lift (urlparse path) ;;
      modify (HTTPParser.set_path (Some (fst _parsed_path))) ;;
      modify (HTTPParser.set_query_string (Some (snd _parsed_path))) ;;
      modify (HTTPParser.set_state PARSING_HEADERS)
  | _ => raise ValueError
  end.

(** The header completed by the previous line feed is cut at its colon
    and appended to [headers] (lines 167-201). *)
Definition append_next_header : M HTTPParser.t unit :=
  _next_header <- gets HTTPParser.next_header ;;
  (when negb (bytes_eqb _next_header []) then (
     _next_sep_pos <- gets HTTPParser.next_sep_pos ;;
     match _next_sep_pos with
     | None => raise TypeError
     | Some sep =>
         let current_header :=
           pyslice _next_header None (Some (sep - 1)%Z) in
         let current_value :=
           pyslice _next_header (Some (sep + 1)%Z)
                   (Some (len _next_header - 2)%Z) in
         let header := (current_header, current_value) in
         should_upgrade <- gets HTTPParser.should_upgrade ;;
         upgrade_header <- gets HTTPParser.upgrade_header ;;
         match should_upgrade with
         | None =>
             (when bytes_eqb (bytes_lower current_header) (B "connection")
              then (
                if negb (bytes_in (B "upgrade") (bytes_lower current_value))
                then modify (HTTPParser.set_should_upgrade (Some false))
                else modify (HTTPParser.set_should_upgrade (Some true))))
         | Some flag =>
             (when flag && is_none upgrade_header then (
                when bytes_eqb (bytes_lower current_header) (B "upgrade")
                then modify (HTTPParser.set_upgrade_header (Some header))))
         end ;;
         modify (fun p =>
                   HTTPParser.set_headers (HTTPParser.headers p ++ [header]) p)
     end)).

(** A line feed while the headers are read (lines 162-222). *)
Definition finish_header (_parsing_header : bytes) : M HTTPParser.t unit :=
  append_next_header ;;
  (when bytes_eqb _parsing_header CRLF then (
     _next_header <- gets HTTPParser.next_header ;;
     modify (HTTPParser.set_next_header (_next_header ++ _parsing_header)) ;;
     modify (HTTPParser.set_state PARSING_COMPLETE))) ;;
  _parsing_sep_pos <- gets HTTPParser.parsing_sep_pos ;;
  modify (HTTPParser.set_next_sep_pos _parsing_sep_pos) ;;
  modify (HTTPParser.set_next_header _parsing_header) ;;
  modify (HTTPParser.set_parsing_sep_pos None).

(** One turn of the loop on [b = data[i : i + 1]] (lines 113-230). *)
Definition parse_byte (b : bytes) : M HTTPParser.t unit :=
  parsing_header <- gets HTTPParser.parsing_header ;;
  let _parsing_header := parsing_header ++ b in
  (when bytes_eqb b (B ":") then (
     _parsing_sep_pos <- gets HTTPParser.parsing_sep_pos ;;
     state <- gets HTTPParser.state ;;
     when is_none _parsing_sep_pos && negb (eqb state PARSING_REQUEST)
     then modify (HTTPParser.set_parsing_sep_pos
                    (Some (len _parsing_header))))) ;;
  if bytes_eqb b [x0a] then (
    state <- gets HTTPParser.state ;;
    (if negb (eqb state PARSING_HEADERS)
     then parse_request_line _parsing_header
     else finish_header _parsing_header) ;;
    modify (HTTPParser.set_parsing_header []))
  else modify (HTTPParser.set_parsing_header _parsing_header).

(** [for i in range(data_len)], with the counter [data_len] that the body
    decrements; the range was fixed when the loop began. *)
Fixpoint parse_loop (data : bytes) (range : list nat) (data_len : Z)
  : M HTTPParser.t Z :=
  match range with
  | [] => ret data_len
  | i :: rest =>
      let b := pyslice data (Some (Z.of_nat i)) (Some (Z.of_nat i + 1)%Z) in
      let data_len := (data_len - 1)%Z in
      parse_byte b ;;
      parse_loop data rest data_len
  end.

Definition parse_headers (data : bytes) : M HTTPParser.t unit :=
  modify (fun p =>
            HTTPParser.set_raw_headers (HTTPParser.raw_headers p ++ data) p) ;;
  _parsing_data <- gets HTTPParser.parsing_data ;;
  let data :=
    match _parsing_data with
    | Some pending => pending ++ data
    | None => data
    end in
  let data_len := len data in
  data_len <- parse_loop data (seq 0 (Z.to_nat data_len)) data_len ;;
  when (0 <? data_len)%Z
  then modify (HTTPParser.set_parsing_data (Some data)).

End ParseHeaders.

(** ** parsers/websocket.py: the module-level helpers and the encoder *)

Declare Scope res_scope.
Delimit Scope res_scope with res.
Notation "x <- m ;; k" := (rbind m (fun x => k))
  (at level 100, m at next level, right associativity) : res_scope.

Fixpoint mapM {A C} (f : A -> result C) (l : list A) : result (list C) :=
  match l with
  | [] => Ok []
  | x :: t => (y <- f x ;; r <- mapM f t ;; Ok (y :: r))%res
  end.

(** [int(s[x])]: the decimal digit at index [x]. *)
Definition int_at (s : string) (x : nat) : result N :=
  match nth_error (list_ascii_of_string s) x with
  | None => Raise IndexError
  | Some c =>
      let n := N_of_ascii c in
      if (48 <=? n) && (n <=? 57) then Ok (n - 48) else Raise ValueError
  end.

Definition xor (bytes_one bytes_two : N) : result N :=
  (let bitstr_one := format_08b bytes_one in
   let bitstr_two := format_08b bytes_two in
   bits <- mapM (fun x =>
                   a <- int_at bitstr_one x ;;
                   b <- int_at bitstr_two x ;;
                   Ok (if a + b =? 1 then "1"%char else "0"%char))
                (seq 0 8) ;;
   let result_bitstr := string_of_list_ascii bits in
   int_base2 result_bitstr)%res.

Definition HEAD_FRAME_INDEXES : list (Z * Z) :=
  [(0, 1); (1, 2); (2, 3); (3, 4); (4, 8)]%Z.
Definition MASK_AND_PAYLOAD_LEN_FRAME_INDEXES : list (Z * Z) :=
  [(0, 1); (1, 8)]%Z.

Module WebSocketParserState.
Inductive t := INITIAL_BYTES | PAYLOAD_LENGTH | MASKING_KEY.
Definition eqb (a b : t) : bool :=
  match a, b with
  | INITIAL_BYTES, INITIAL_BYTES
  | PAYLOAD_LENGTH, PAYLOAD_LENGTH
  | MASKING_KEY, MASKING_KEY => true
  | _, _ => false
  end.
End WebSocketParserState.

Module WebSocketOpcode.
Inductive t := TEXT | BINARY | CLOSE | PING | PONG.
Definition value (o : t) : N :=
  match o with
  | TEXT => 1 | BINARY => 2 | CLOSE => 8 | PING => 9 | PONG => 10
  end.
(** [WebSocketOpcode(n)], the lookup by value. *)
Definition of_value (n : N) : result t :=
  match n with
  | 1 => Ok TEXT | 2 => Ok BINARY | 8 => Ok CLOSE | 9 => Ok PING
  | 10 => Ok PONG
  | _ => Raise ValueError
  end.
Definition eqb (a b : t) : bool := value a =? value b.
End WebSocketOpcode.

(** [get_frame_values]: the generator, drawn in full by the unpacking
    assignment of the caller. *)
Definition get_frame_values (data : N) (indexes : list (Z * Z))
  : result (list N) :=
  let bitstr := format_08b data in
  mapM (fun i => int_base2 (str_slice bitstr (fst i) (snd i))) indexes.

(** A [str] that the application hands over: the sequence of its code
    points.  A code point is in [range(0x110000)]; a [str] can hold a lone
    surrogate (U+D800 to U+DFFF), which no encoding to UTF-8 accepts. *)
Definition pystr : Type := list N.

Definition is_code_point (c : N) : bool := c <? 1114112.

Definition is_str (s : pystr) : bool := forallb is_code_point s.

Definition is_surrogate (c : N) : bool := (55296 <=? c) && (c <=? 57343).

(** The text of a literal of ASCII characters. *)
Definition text_of (s : string) : pystr :=
  map N_of_ascii (list_ascii_of_string s).

(** The UTF-8 form of one code point: one to four bytes by its size, the
    leading byte carrying the count, each later byte six bits. *)
Definition utf8 (c : N) : result bytes :=
  if c <? 128 then Ok [byte_of_N c]
  else if c <? 2048
  then Ok [byte_of_N (192 + c / 64); byte_of_N (128 + c mod 64)]
  else if is_surrogate c then Raise UnicodeEncodeError
  else if c <? 65536
  then Ok [byte_of_N (224 + c / 4096); byte_of_N (128 + (c / 64) mod 64);
           byte_of_N (128 + c mod 64)]
  else if is_code_point c
  then Ok [byte_of_N (240 + c / 262144);
           byte_of_N (128 + (c / 4096) mod 64);
           byte_of_N (128 + (c / 64) mod 64); byte_of_N (128 + c mod 64)]
  else Raise ValueError.

(** [str.encode()]: UTF-8 with the error handler "strict", so the first
    lone surrogate raises [UnicodeEncodeError].  (The last case of [utf8] is
    for numbers that are no code point: no [str] holds one, [chr] of it is a
    [ValueError].) *)
Definition str_encode (s : pystr) : result bytes :=
  rbind (mapM utf8 s) (fun encoded => Ok (List.concat encoded)).

(** The payload argument of the encoder, [Union[str, bytes]]. *)
Inductive Payload := PStr (s : pystr) | PBytes (b : bytes).

Definition get_frame_content (payload_data : Payload)
           (opcode : WebSocketOpcode.t) (fin rsv1 rsv2 rsv3 : N)
  : result bytes :=
  (payload_data <- match payload_data with
                   | PStr s => str_encode s
                   | PBytes b => Ok b
                   end ;;
   let payload_len := N.of_nat (List.length payload_data) in
   let opcode := format_04 (WebSocketOpcode.value opcode) in
   header <- int_base2 (numeral 10 fin ++ numeral 10 rsv1 ++ numeral 10 rsv2
                          ++ numeral 10 rsv3 ++ opcode) ;;
   head <- bytes_of_ints [header; payload_len] ;;
   let content := head ++ payload_data in
   Ok content)%res.

(** ** The objects of a connection *)

(** An ASGI message is a dict keyed by ["type"]; each constructor is one
    type and carries the keys the handlers read.  A key read with
    [message.get] is an [option], absent when [None]. *)
Inductive Message :=
| http_request (body : bytes)
| http_disconnect
| websocket_connect (order : Z)
| websocket_receive (text : option string) (bytes_ : option bytes)
| http_response_start (status : Z) (headers : option (list (bytes * bytes)))
| http_response_body (body : option bytes) (more_body : option bool).

Module ASGIConnectionState.
Inductive t := REQUEST | RESPONSE | STREAMING | CLOSED.
Definition eqb (a b : t) : bool :=
  match a, b with
  | REQUEST, REQUEST | RESPONSE, RESPONSE | STREAMING, STREAMING
  | CLOSED, CLOSED => true
  | _, _ => false
  end.
End ASGIConnectionState.

Module ASGIConnection.
(** The two subclasses, [ASGIHTTPConnection] and
    [ASGIWebSocketConnection]. *)
Inductive Kind := HTTP | WebSocket.

(** [app_queue] is [None] until [run_asgi]; [content] is the attribute
    that [on_http_response_start] creates. *)
Record t := mk {
  kind : Kind;
  state : ASGIConnectionState.t;
  app_queue : option (list Message);
  content_length : option Z;
  content : option (list bytes)
}.

Definition init (k : Kind) : t :=
  {| kind := k; state := ASGIConnectionState.REQUEST; app_queue := None;
     content_length := None; content := None |}.

Definition set_kind v x :=
  mk v (state x) (app_queue x) (content_length x) (content x).
Definition set_state v x :=
  mk (kind x) v (app_queue x) (content_length x) (content x).
Definition set_app_queue v x :=
  mk (kind x) (state x) v (content_length x) (content x).
Definition set_content_length v x :=
  mk (kind x) (state x) (app_queue x) v (content x).
Definition set_content v x :=
  mk (kind x) (state x) (app_queue x) (content_length x) v.
End ASGIConnection.

Module HTTPWSProtocolState.
Inductive t := REQUEST | RESPONSE | STREAMING | FRAMING | CLOSED.
Definition eqb (a b : t) : bool :=
  match a, b with
  | REQUEST, REQUEST | RESPONSE, RESPONSE | STREAMING, STREAMING
  | FRAMING, FRAMING | CLOSED, CLOSED => true
  | _, _ => false
  end.
End HTTPWSProtocolState.

(** What [transport.get_extra_info] gives for a peer or socket name. *)
Definition Address : Type := option (string * N).

(** The value under ["subprotocols"]: [None], the raw header value when it
    is empty, or the header value split at commas. *)
Inductive Subprotocols :=
| SubNone | SubRaw (value : bytes) | SubList (values : list bytes).

(** The ASGI connection scope; [subprotocols] is a key of the websocket
    scope only. *)
Record Scope := mkScope {
  scope_type : string;
  scope_http_version : option string;
  scope_server : Address;
  scope_client : Address;
  scope_scheme : string;
  scope_method : option string;
  scope_path : option string;
  scope_query_string : option string;
  scope_headers : list (bytes * bytes);
  scope_subprotocols : option Subprotocols
}.

(** The parser attribute of the protocol: an [HTTPParser], or after the
    upgrade a [WebSocketParser], whose only own attribute is its state. *)
Inductive Parser :=
| HTTP_parser (p : HTTPParser.t)
| WebSocket_parser (state : WebSocketParserState.t).

Module HTTPWSProtocol.
(** [asgi_connection] is a reference into the store of connection
    objects; [drain_waiter] is [None] until [connection_made] and then the
    event, [true] when set. *)
Record t := mk {
  asgi_connection : option nat;
  state : HTTPWSProtocolState.t;
  parser : Parser;
  handshake_headers : option bytes;
  scheme : string;
  server : Address;
  client : Address;
  buffer_data : bytes;
  write_paused : bool;
  drain_waiter : option bool;
  scope : option Scope;
  keep_alive : bool;
  accepted : bool
}.

(** [__init__] *)
Definition init : t :=
  {| asgi_connection := None; state := HTTPWSProtocolState.REQUEST;
     parser := HTTP_parser HTTPParser.init; handshake_headers := None;
     scheme := "http"; server := None; client := None;
     buffer_data := repeat x00 100; write_paused := false;
     drain_waiter := None; scope := None; keep_alive := true;
     accepted := false |}.

Definition set_asgi_connection v x :=
  mk v (state x) (parser x) (handshake_headers x) (scheme x) (server x)
     (client x) (buffer_data x) (write_paused x) (drain_waiter x) (scope x)
     (keep_alive x) (accepted x).
Definition set_state v x :=
  mk (asgi_connection x) v (parser x) (handshake_headers x) (scheme x)
     (server x) (client x) (buffer_data x) (write_paused x) (drain_waiter x)
     (scope x) (keep_alive x) (accepted x).
Definition set_parser v x :=
  mk (asgi_connection x) (state x) v (handshake_headers x) (scheme x)
     (server x) (client x) (buffer_data x) (write_paused x) (drain_waiter x)
     (scope x) (keep_alive x) (accepted x).
Definition set_handshake_headers v x :=
  mk (asgi_connection x) (state x) (parser x) v (scheme x) (server x)
     (client x) (buffer_data x) (write_paused x) (drain_waiter x) (scope x)
     (keep_alive x) (accepted x).
Definition set_scheme v x :=
  mk (asgi_connection x) (state x) (parser x) (handshake_headers x) v
     (server x) (client x) (buffer_data x) (write_paused x) (drain_waiter x)
     (scope x) (keep_alive x) (accepted x).
Definition set_server v x :=
  mk (asgi_connection x) (state x) (parser x) (handshake_headers x)
     (scheme x) v (client x) (buffer_data x) (write_paused x) (drain_waiter
     x) (scope x) (keep_alive x) (accepted x).
Definition set_client v x :=
  mk (asgi_connection x) (state x) (parser x) (handshake_headers x)
     (scheme x) (server x) v (buffer_data x) (write_paused x) (drain_waiter
     x) (scope x) (keep_alive x) (accepted x).
Definition set_buffer_data v x :=
  mk (asgi_connection x) (state x) (parser x) (handshake_headers x)
     (scheme x) (server x) (client x) v (write_paused x) (drain_waiter x)
     (scope x) (keep_alive x) (accepted x).
Definition set_write_paused v x :=
  mk (asgi_connection x) (state x) (parser x) (handshake_headers x)
     (scheme x) (server x) (client x) (buffer_data x) v (drain_waiter x)
     (scope x) (keep_alive x) (accepted x).
Definition set_drain_waiter v x :=
  mk (asgi_connection x) (state x) (parser x) (handshake_headers x)
     (scheme x) (server x) (client x) (buffer_data x) (write_paused x) v
     (scope x) (keep_alive x) (accepted x).
Definition set_scope v x :=
  mk (asgi_connection x) (state x) (parser x) (handshake_headers x)
     (scheme x) (server x) (client x) (buffer_data x) (write_paused x)
     (drain_waiter x) v (keep_alive x) (accepted x).
Definition set_keep_alive v x :=
  mk (asgi_connection x) (state x) (parser x) (handshake_headers x)
     (scheme x) (server x) (client x) (buffer_data x) (write_paused x)
     (drain_waiter x) (scope x) v (accepted x).
Definition set_accepted v x :=
  mk (asgi_connection x) (state x) (parser x) (handshake_headers x)
     (scheme x) (server x) (client x) (buffer_data x) (write_paused x)
     (drain_waiter x) (scope x) (keep_alive x) v.
End HTTPWSProtocol.

(** What the core asks of the transport, in order. *)
Inductive TransportCall := Write (data : bytes) | Close.

(** What the core hands to the event loop with [asyncio.create_task]: the
    application instance of a connection, or a frame to decode. *)
Inductive Task := AppTask (connection : nat) | FrameTask (data : bytes).

(** The protocol, the connection objects it has made (the application
    keeps [receive] and [send] of the one it was started with), the calls
    made on the transport and the tasks created. *)
Module World.
Record t := mk {
  protocol : HTTPWSProtocol.t;
  connections : list ASGIConnection.t;
  transport : list TransportCall;
  tasks : list Task
}.

Definition set_protocol v x :=
  mk v (connections x) (transport x) (tasks x).
Definition set_connections v x :=
  mk (protocol x) v (transport x) (tasks x).
Definition set_transport v x :=
  mk (protocol x) (connections x) v (tasks x).
Definition set_tasks v x :=
  mk (protocol x) (connections x) (transport x) v.

Definition init : t :=
  {| protocol := HTTPWSProtocol.init; connections := []; transport := [];
     tasks := [] |}.
End World.

(** ** utils.py, connections.py and protocol.py *)

Definition HTTP_SERVER_NAME : bytes := B "server: aiobufpro" ++ CRLF.

(** [str(n)] for an [int]. *)
Definition str_of_int (z : Z) : string :=
  if (z <? 0)%Z then String "-" (numeral 10 (Z.abs_N z))
  else numeral 10 (Z.to_N z).

(** [b"%x" % n] for a length. *)
Definition hex_of_len (n : Z) : bytes := B (numeral 16 (Z.to_N n)).

Fixpoint list_update {A} (i : nat) (f : A -> A) (l : list A) : list A :=
  match l, i with
  | [], _ => []
  | x :: t, O => f x :: t
  | x :: t, S j => x :: list_update j f t
  end.

(** [value.split(b",")] *)
Fixpoint split_comma (cur : bytes) (l : bytes) : list bytes :=
  match l with
  | [] => [rev cur]
  | c :: t =>
      if Byte.eqb c ","%byte then rev cur :: split_comma [] t
      else split_comma (c :: cur) t
  end.

(** The argument of [feed_data]: [Union[bytes, str]] by its annotation, and
    the coroutine object that a call of an [async def] without [await]
    gives, which carries the body it has not run. *)
Inductive Content :=
| CStr (s : pystr)
| CBytes (b : bytes)
| CCoroutine (body : result bytes).

(** The local names of [parse_frame] that only its first block assigns. *)
Record FrameLocals := mkLocals {
  payload_len : N;
  is_control_frame : bool;
  opcode : WebSocketOpcode.t
}.

(** [f"{payload_len_data:08b}"] on a bytearray: [bytearray] has no format
    of its own, and [object.__format__] raises on a format spec that is not
    empty. *)
Definition format_bytearray_08b (payload_len_data : bytes) : result string :=
  Raise TypeError.

Section Core.
Context {lib : PyLib}.

Definition get_server_headers (status : Z) : list bytes :=
  let phrase :=
    match http_phrase status with Some phrase => phrase | None => [] end in
  [B "HTTP/1.1 " ++ B (str_of_int status) ++ B " " ++ phrase ++ CRLF;
   HTTP_SERVER_NAME;
   B "date: " ++ date_now ++ CRLF].

(** *** Access to the objects *)

Definition the_protocol : M World.t HTTPWSProtocol.t :=
  gets World.protocol.

Definition modify_protocol (f : HTTPWSProtocol.t -> HTTPWSProtocol.t)
  : M World.t unit :=
  modify (fun w => World.set_protocol (f (World.protocol w)) w).

(** The connection object behind a reference. *)
Definition connection (c : nat) (w : World.t) : ASGIConnection.t :=
  nth c (World.connections w) (ASGIConnection.init ASGIConnection.HTTP).

Definition modify_connection (c : nat)
           (f : ASGIConnection.t -> ASGIConnection.t) : M World.t unit :=
  modify (fun w =>
            World.set_connections (list_update c f (World.connections w)) w).

(** Instantiating a connection class. *)
Definition new_connection (k : ASGIConnection.Kind) : M World.t nat :=
  c <- gets (fun w => List.length (World.connections w)) ;;
  modify (fun w =>
            World.set_connections
              (World.connections w ++ [ASGIConnection.init k]) w) ;;
  ret c.

Definition transport_write (data : bytes) : M World.t unit :=
  modify (fun w => World.set_transport (World.transport w ++ [Write data]) w).

Definition transport_close : M World.t unit :=
  modify (fun w => World.set_transport (World.transport w ++ [Close]) w).

Definition create_task (t : Task) : M World.t unit :=
  modify (fun w => World.set_tasks (World.tasks w ++ [t]) w).

(** *** connections.py: ASGIConnection *)

Definition put_message (c : nat) (message : Message) : M World.t unit :=
  self <- gets (connection c) ;;
  if ASGIConnectionState.eqb (ASGIConnection.state self)
                             ASGIConnectionState.CLOSED
  then ret tt
  else
    match ASGIConnection.app_queue self with
    | None => raise AttributeError
    | Some queue =>
        modify_connection c
          (ASGIConnection.set_app_queue (Some (queue ++ [message])))
    end.

(** [receive]: the oldest message of the queue, or [None] where the
    [await] would suspend on an empty queue. *)
Definition receive (c : nat) : M World.t (option Message) :=
  self <- gets (connection c) ;;
  match ASGIConnection.app_queue self with
  | None => raise AttributeError
  | Some [] => ret None
  | Some (message :: queue) =>
      modify_connection c (ASGIConnection.set_app_queue (Some queue)) ;;
      ret (Some message)
  end.

Definition update_connection_state (c : nat)
           (new_state : ASGIConnectionState.t) : M World.t unit :=
  self <- gets (connection c) ;;
  if ASGIConnectionState.eqb (ASGIConnection.state self) new_state
  then raise AssertionError
  else modify_connection c (ASGIConnection.set_state new_state).

(** [ASGIConnection.run_asgi]; the application is not part of the core
    and its instance is only handed to the event loop. *)
Definition ASGIConnection_run_asgi (c : nat) : M World.t unit :=
  modify_connection c (ASGIConnection.set_app_queue (Some [])) ;;
  create_task (AppTask c).

Definition ASGIHTTPConnection_run_asgi (c : nat) : M World.t unit :=
  ASGIConnection_run_asgi c ;;
  put_message c (http_request []).

Definition ASGIWebSocketConnection_run_asgi (c : nat) : M World.t unit :=
  ASGIConnection_run_asgi c ;;
  put_message c (websocket_connect 0).

(** *** protocol.py: the side that does not read peer bytes *)

Definition connection_made (peername sockname : Address) : M World.t unit :=
  modify_protocol (HTTPWSProtocol.set_client peername) ;;
  modify_protocol (HTTPWSProtocol.set_server sockname) ;;
  modify_protocol (HTTPWSProtocol.set_drain_waiter (Some true)).

Definition get_buffer (sizehint : Z) : M World.t bytes :=
  self <- the_protocol ;;
  let buffer_data := HTTPWSProtocol.buffer_data self in
  (when (len buffer_data <? sizehint)%Z then
     modify_protocol
       (HTTPWSProtocol.set_buffer_data
          (buffer_data
             ++ repeat x00 (Z.to_nat (sizehint - len buffer_data))))) ;;
  gets (fun w => HTTPWSProtocol.buffer_data (World.protocol w)).

(** [self.drain_waiter.clear()] and [self.drain_waiter.set()] *)
Definition drain_waiter_assign (value : bool) : M World.t unit :=
  self <- the_protocol ;;
  match HTTPWSProtocol.drain_waiter self with
  | None => raise AttributeError
  | Some _ => modify_protocol (HTTPWSProtocol.set_drain_waiter (Some value))
  end.

Definition pause_writing : M World.t unit :=
  self <- the_protocol ;;
  if HTTPWSProtocol.write_paused self then raise AssertionError
  else
    modify_protocol (HTTPWSProtocol.set_write_paused true) ;;
    drain_waiter_assign false.

Definition resume_writing : M World.t unit :=
  self <- the_protocol ;;
  if negb (HTTPWSProtocol.write_paused self) then raise AssertionError
  else
    modify_protocol (HTTPWSProtocol.set_write_paused false) ;;
    drain_waiter_assign true.

(** [drain]: the wait on the event returns at once when it is set; when it
    is cleared the coroutine is resumed by the transport's call of
    [resume_writing], which is composed here. *)
Definition drain : M World.t unit :=
  self <- the_protocol ;;
  match HTTPWSProtocol.drain_waiter self with
  | None => raise AttributeError
  | Some true => ret tt
  | Some false => resume_writing
  end.

Definition on_response_complete : M World.t unit :=
  self <- the_protocol ;;
  if negb (HTTPWSProtocol.keep_alive self) then transport_close
  else
    modify_protocol (HTTPWSProtocol.set_state HTTPWSProtocolState.REQUEST) ;;
    modify_protocol (HTTPWSProtocol.set_parser (HTTP_parser HTTPParser.init)).

Definition on_frame (data : bytes) : M World.t unit :=
  self <- the_protocol ;;
  if negb (HTTPWSProtocolState.eqb (HTTPWSProtocol.state self)
                                   HTTPWSProtocolState.FRAMING)
  then raise AssertionError
  else
    match HTTPWSProtocol.parser self with
    | HTTP_parser _ => raise AttributeError
    | WebSocket_parser _ => create_task (FrameTask data)
    end.

Definition on_upgrade : M World.t unit :=
  self <- the_protocol ;;
  match HTTPWSProtocol.parser self with
  | WebSocket_parser _ => raise AttributeError
  | HTTP_parser parser =>
      let found :=
        fold_left
          (fun acc h =>
             let '(accept_key, subprotocols) := acc in
             (if bytes_eqb (fst h) (B "Sec-WebSocket-Key")
              then Some (get_websocket_accept_key (snd h)) else accept_key,
              if bytes_eqb (fst h) (B "Sec-WebSocket-Protocol")
              then Some (snd h) else subprotocols))
          (HTTPParser.headers parser) (None, None) in
      match fst found with
      | None =>
          let content := List.concat (get_server_headers 403) in
          transport_write (content ++ CRLF) ;;
          transport_close
      | Some accept_key =>
          let accept_header :=
            B "Sec-WebSocket-Accept: " ++ accept_key ++ CRLF in
          modify_protocol
            (HTTPWSProtocol.set_handshake_headers
               (Some (B "Upgrade: WebSocket" ++ CRLF
                        ++ B "Connection: Upgrade" ++ CRLF
                        ++ accept_header))) ;;
          let subprotocols :=
            match snd found with
            | None => SubNone
            | Some [] => SubRaw []
            | Some value => SubList (split_comma [] value)
            end in
          match HTTPWSProtocol.scope self with
          | None => raise TypeError
          | Some scope =>
              let scheme :=
                if String.eqb (scope_scheme scope) "http"
                then "wss"%string else "ws"%string in
              modify_protocol (HTTPWSProtocol.set_scheme scheme) ;;
              modify_protocol
                (HTTPWSProtocol.set_scope
                   (Some (mkScope "websocket" (scope_http_version scope)
                            (scope_server scope) (scope_client scope)
                            scheme (scope_method scope) (scope_path scope)
                            (scope_query_string scope)
                            (scope_headers scope) (Some subprotocols)))) ;;
              c <- new_connection ASGIConnection.WebSocket ;;
              ASGIWebSocketConnection_run_asgi c ;;
              modify_protocol (HTTPWSProtocol.set_asgi_connection (Some c)) ;;
              modify_protocol
                (HTTPWSProtocol.set_parser
                   (WebSocket_parser WebSocketParserState.INITIAL_BYTES)) ;;
              modify_protocol
                (HTTPWSProtocol.set_state HTTPWSProtocolState.FRAMING)
          end
      end
  end.

Definition on_headers_complete : M World.t unit :=
  self <- the_protocol ;;
  match HTTPWSProtocol.parser self with
  | WebSocket_parser _ => raise AttributeError
  | HTTP_parser parser =>
      let headers :=
        map (fun h => (bytes_lower (fst h), snd h))
            (HTTPParser.headers parser) in
      modify_protocol
        (HTTPWSProtocol.set_scope
           (Some (mkScope "http" (HTTPParser.http_version parser)
                    (HTTPWSProtocol.server self)
                    (HTTPWSProtocol.client self)
                    (HTTPWSProtocol.scheme self)
                    (HTTPParser.http_method parser)
                    (HTTPParser.path parser)
                    (HTTPParser.query_string parser) headers None))) ;;
      match HTTPParser.upgrade_header parser with
      | Some upgrade_header =>
          if negb (bytes_eqb (snd upgrade_header) (B "websocket"))
          then
            let content := List.concat (get_server_headers 500) in
            transport_write
              (content ++ B "Unsupported upgrade request." ++ CRLF) ;;
            transport_close
          else on_upgrade
      | None =>
          c <- new_connection ASGIConnection.HTTP ;;
          ASGIHTTPConnection_run_asgi c ;;
          modify_protocol (HTTPWSProtocol.set_asgi_connection (Some c))
      end
  end.

Definition on_header (data : bytes) : M World.t unit :=
  self <- the_protocol ;;
  match HTTPWSProtocol.parser self with
  | WebSocket_parser _ => raise AttributeError
  | HTTP_parser parser =>
      let '(parser, outcome) := parse_headers data parser in
      modify_protocol (HTTPWSProtocol.set_parser (HTTP_parser parser)) ;;
      lift outcome ;;
      when HTTPParser.is_complete parser then (
        modify_protocol
          (HTTPWSProtocol.set_state HTTPWSProtocolState.RESPONSE) ;;
        on_headers_complete)
  end.

Definition buffer_updated (nbytes : Z) (is_writable : bool)
  : M World.t unit :=
  self <- the_protocol ;;
  let data := pyslice (HTTPWSProtocol.buffer_data self) None (Some nbytes) in
  if HTTPWSProtocolState.eqb (HTTPWSProtocol.state self)
                             HTTPWSProtocolState.REQUEST
  then on_header data
  else if is_writable then transport_write data
  else on_frame data.

Definition feed_data (content : Content) (is_writable : bool)
  : M World.t unit :=
  content <- match content with
             | CStr s => lift (str_encode s)
             | CBytes b => ret b
             | CCoroutine _ => raise TypeError
             end ;;
  let buf_size := len content in
  buf <- get_buffer buf_size ;;
  modify_protocol
    (HTTPWSProtocol.set_buffer_data
       (content ++ pyslice buf (Some buf_size) None)) ;;
  buffer_updated buf_size is_writable.

End Core.

(** *** The keys of a message *)

Definition message_type (message : Message) : string :=
  match message with
  | http_request _ => "http.request"
  | http_disconnect => "http.disconnect"
  | websocket_connect _ => "websocket.connect"
  | websocket_receive _ _ => "websocket.receive"
  | http_response_start _ _ => "http.response.start"
  | http_response_body _ _ => "http.response.body"
  end.

(** [message["status"]] *)
Definition message_status (message : Message) : result Z :=
  match message with
  | http_response_start status _ => Ok status
  | _ => Raise KeyError
  end.

(** [message.get("headers", [])] *)
Definition message_headers (message : Message) : list (bytes * bytes) :=
  match message with
  | http_response_start _ (Some headers) => headers
  | _ => []
  end.

(** [message.get("body", b"")] *)
Definition message_body (message : Message) : bytes :=
  match message with
  | http_response_body (Some body) _ => body
  | http_request body => body
  | _ => []
  end.

(** [message.get("more_body", False)] *)
Definition message_more_body (message : Message) : bool :=
  match message with
  | http_response_body _ (Some more_body) => more_body
  | _ => false
  end.

(** [message_type.replace('.', '_')] *)
Definition replace_dots (s : string) : string :=
  string_of_list_ascii
    (map (fun c => if Ascii.eqb c "."%char then "_"%char else c)
         (list_ascii_of_string s)).

Section Bridges.
Context {lib : PyLib}.
Import ASGIConnectionState.

(** [self.content.append(line)] *)
Definition content_append (c : nat) (line : bytes) : M World.t unit :=
  self <- gets (connection c) ;;
  match ASGIConnection.content self with
  | None => raise AttributeError
  | Some content =>
      modify_connection c (ASGIConnection.set_content (Some (content ++ [line])))
  end.

(** [self.content.extend(lines)] *)
Definition content_extend (c : nat) (lines : list bytes) : M World.t unit :=
  self <- gets (connection c) ;;
  match ASGIConnection.content self with
  | None => raise AttributeError
  | Some content =>
      modify_connection c (ASGIConnection.set_content (Some (content ++ lines)))
  end.

(** [b"".join(self.content)] *)
Definition content_joined (c : nat) : M World.t bytes :=
  self <- gets (connection c) ;;
  match ASGIConnection.content self with
  | None => raise AttributeError
  | Some content => ret (List.concat content)
  end.

(** The loop over the headers of the application (lines 108-119). *)
Fixpoint response_headers (c : nat) (headers : list (bytes * bytes))
  : M World.t unit :=
  match headers with
  | [] => ret tt
  | (header_name, header_value) :: rest =>
      (if bytes_eqb header_name (B "content-length")
       then
         n <- lift (int_of_decoded header_value) ;;
         modify_connection c (ASGIConnection.set_content_length (Some n))
       else
         when bytes_eqb header_name (B "connection")
              && bytes_eqb header_value (B "close")
         then modify_protocol (HTTPWSProtocol.set_keep_alive false)) ;;
      content_append c (header_name ++ B ": " ++ header_value ++ CRLF) ;;
      response_headers c rest
  end.

Definition on_http_response_start (c : nat) (message : Message)
  : M World.t unit :=
  self <- gets (connection c) ;;
  if negb (eqb (ASGIConnection.state self) REQUEST)
  then raise (PyException
    "Invalid `http.response.start` event: The response has already started.")
  else
    status <- lift (message_status message) ;;
    let headers := message_headers message in
    modify_connection c
      (ASGIConnection.set_content (Some (get_server_headers status))) ;;
    response_headers c headers ;;
    update_connection_state c RESPONSE.

Definition on_http_response_body (c : nat) (message : Message)
  : M World.t unit :=
  self <- gets (connection c) ;;
  let state := ASGIConnection.state self in
  if negb (eqb state RESPONSE || eqb state STREAMING)
  then raise (PyException
    "Invalid `http.response.body` event: The response has not started.")
  else
    let body := message_body message in
    let more_body := message_more_body message in
    (if eqb state RESPONSE then
       if negb more_body then
         match ASGIConnection.content_length self with
         | None =>
             content_append c
               (B "content-length: " ++ hex_of_len (len body)
                  ++ CRLF ++ CRLF)
         | Some _ => content_append c CRLF
         end ;;
         content_extend c [body; CRLF] ;;
         content <- content_joined c ;;
         feed_data (CBytes content) true ;;
         update_connection_state c CLOSED
       else
         content_extend c
           [B "transfer-encoding: chunked" ++ CRLF ++ CRLF;
            hex_of_len (len body) ++ CRLF;
            body;
            CRLF] ;;
         content <- content_joined c ;;
         feed_data (CBytes content) true ;;
         update_connection_state c STREAMING
     else
       feed_data
         (CBytes (List.concat [hex_of_len (len body) ++ CRLF; body; CRLF]))
         true ;;
       when negb more_body then (
         feed_data (CBytes (B "0" ++ CRLF ++ CRLF)) true ;;
         update_connection_state c CLOSED)) ;;
    protocol <- the_protocol ;;
    when HTTPWSProtocol.write_paused protocol then drain.

(** [ASGIHTTPConnection.on_connection_complete]; the base class, which
    the WebSocket connection keeps, raises. *)
Definition on_connection_complete (c : nat) : M World.t unit :=
  self <- gets (connection c) ;;
  match ASGIConnection.kind self with
  | ASGIConnection.HTTP =>
      put_message c http_disconnect ;;
      on_response_complete
  | ASGIConnection.WebSocket => raise NotImplementedError
  end.

(** [getattr(self, handler_name)]: the handlers that the class of the
    connection defines. *)
Definition handler (c : nat) (handler_name : string)
  : M World.t (nat -> Message -> M World.t unit) :=
  self <- gets (connection c) ;;
  match ASGIConnection.kind self with
  | ASGIConnection.HTTP =>
      if String.eqb handler_name "on_http_response_start"
      then ret on_http_response_start
      else if String.eqb handler_name "on_http_response_body"
      then ret on_http_response_body
      else raise AttributeError
  | ASGIConnection.WebSocket => raise AttributeError
  end.

(** [ASGIConnection.send], the one [ASGIHTTPConnection] inherits. *)
Definition send (c : nat) (message : Message) : M World.t unit :=
  let message_type := message_type message in
  let handler_name := ("on_" ++ replace_dots message_type)%string in
  handler <- handler c handler_name ;;
  handler c message ;;
  self <- gets (connection c) ;;
  when eqb (ASGIConnection.state self) CLOSED
  then on_connection_complete c.

End Bridges.

(** ** parsers/websocket.py: the frame decoder *)

(** [payload_data.decode("latin-1")] *)
Definition decode_latin1 (b : bytes) : string := string_of_list_byte b.

(** [data[i]] on a bytearray. *)
Definition byte_at (data : bytes) (i : nat) : result N :=
  match nth_error data i with
  | None => Raise IndexError
  | Some b => Ok (Byte.to_N b)
  end.

(** Reading a local name before any assignment to it. *)
Definition local {S A} (name : option A) : M S A :=
  match name with
  | None => raise UnboundLocalError
  | Some v => ret v
  end.

(** The payload of [payload_len] bytes unmasked with the key
    (lines 302-304). *)
Definition unmask (data masking_key : bytes) (payload_len : N)
  : result bytes :=
  (ints <- mapM (fun i =>
                   a <- byte_at data i ;;
                   k <- byte_at masking_key (i mod 4) ;;
                   xor a k)
                (seq 0 (N.to_nat payload_len)) ;;
   bytes_of_ints ints)%res.

Section ParseFrame.
Context {lib : PyLib}.
Import WebSocketParserState.

(** [self.state] of the parser object of the protocol. *)
Definition parser_state : M World.t WebSocketParserState.t :=
  protocol <- the_protocol ;;
  match HTTPWSProtocol.parser protocol with
  | HTTP_parser _ => raise AttributeError
  | WebSocket_parser state => ret state
  end.

Definition set_parser_state (state : WebSocketParserState.t)
  : M World.t unit :=
  modify_protocol (HTTPWSProtocol.set_parser (WebSocket_parser state)).

(** The first two bytes (lines 183-248). *)
Definition parse_initial_bytes (data : bytes)
  : M World.t (bytes * option FrameLocals) :=
  match data with
  | one :: two :: data =>
      let bytes_one := Byte.to_N one in
      let bytes_two := Byte.to_N two in
      head <- lift (get_frame_values bytes_one HEAD_FRAME_INDEXES) ;;
      match head with
      | [fin; rsv1; rsv2; rsv3; opcode] =>
          let is_control_frame := 7 <? opcode in
          opcode <- lift (WebSocketOpcode.of_value opcode) ;;
          second <- lift (get_frame_values bytes_two
                            MASK_AND_PAYLOAD_LEN_FRAME_INDEXES) ;;
          match second with
          | [mask; payload_len] =>
              (when is_control_frame then (
                 if fin =? 0
                 then raise (WebSocketError PROTOCOL_ERROR
                               "Control frame is fragmented.")
                 else when 125 <? payload_len
                      then raise (WebSocketError PROTOCOL_ERROR
                        "Control frame payload greater than 125 bytes."))) ;;
              (when negb (mask =? 1)
               then raise (WebSocketError PROTOCOL_ERROR
                             "Frame mask missing.")) ;;
              (if payload_len <=? 125
               then set_parser_state MASKING_KEY
               else set_parser_state PAYLOAD_LENGTH) ;;
              ret (data, Some (mkLocals payload_len is_control_frame opcode))
          | _ => raise ValueError
          end
      | _ => raise ValueError
      end
  | _ => ret (data, None)
  end.

(** The extended payload length (lines 262-280). *)
Definition parse_payload_length (data : bytes) (locals : option FrameLocals)
  : M World.t (bytes * option FrameLocals) :=
  locals <- local locals ;;
  let payload_len_bytes :=
    if (payload_len locals <? 127) && (2 <=? len data)%Z then Some 2%Z
    else if (8 <=? len data)%Z then Some 8%Z
    else None in
  payload_len_bytes <- local payload_len_bytes ;;
  let payload_len_data := pyslice data None (Some payload_len_bytes) in
  let data := pyslice data (Some payload_len_bytes) None in
  bitstr <- lift (format_bytearray_08b payload_len_data) ;;
  payload_len <- lift (int_base2 bitstr) ;;
  set_parser_state MASKING_KEY ;;
  ret (data, Some (mkLocals payload_len (is_control_frame locals)
                            (opcode locals))).

(** The masking key and the payload (lines 296-323). *)
Definition parse_masking_key (data : bytes) (locals : option FrameLocals)
  : M World.t unit :=
  let masking_key := pyslice data None (Some 4%Z) in
  let data := pyslice data (Some 4%Z) None in
  locals <- local locals ;;
  payload_data <- lift (unmask data masking_key (payload_len locals)) ;;
  (if negb (is_control_frame locals) then
     if WebSocketOpcode.eqb (opcode locals) WebSocketOpcode.TEXT
     then
       let message :=
         websocket_receive (Some (decode_latin1 payload_data)) None in
       protocol <- the_protocol ;;
       match HTTPWSProtocol.asgi_connection protocol with
       | None => raise AttributeError
       | Some c => put_message c message
       end
     else raise AttributeError
   else
     when WebSocketOpcode.eqb (opcode locals) WebSocketOpcode.PING then (
       let content :=
         CCoroutine (get_frame_content (PBytes payload_data) (opcode locals)
                                       1 0 0 0) in
       feed_data content true)) ;;
  set_parser_state INITIAL_BYTES.

Definition parse_frame (data : bytes) : M World.t unit :=
  state <- parser_state ;;
  first <- (if eqb state INITIAL_BYTES && (2 <=? len data)%Z
            then parse_initial_bytes data
            else ret (data, None)) ;;
  state <- parser_state ;;
  second <- (if eqb state PAYLOAD_LENGTH
             then parse_payload_length (fst first) (snd first)
             else ret first) ;;
  state <- parser_state ;;
  if eqb state MASKING_KEY && (4 <=? len (fst second))%Z
  then parse_masking_key (fst second) (snd second)
  else ret tt.

End ParseFrame.

(** ** Definitions used to state the properties *)

(** *** Feeding the header parser *)

(** The slices of a header block fed in order; the exception of a slice
    reaches the caller and ends the feeding. *)
Fixpoint feed {lib : PyLib} (slices : list bytes) : M HTTPParser.t unit :=
  match slices with
  | [] => ret tt
  | data :: rest => parse_headers data ;; feed rest
  end.

(** What the parser exposes of a request. *)
Definition parsed (p : HTTPParser.t) :=
  (HTTPParser.http_method p, HTTPParser.http_version p, HTTPParser.path p,
   HTTPParser.query_string p, HTTPParser.headers p,
   HTTPParser.should_upgrade p, HTTPParser.upgrade_header p).

(** The loop of [parse_headers] seen as a scan of the bytes. *)
Fixpoint scan {lib : PyLib} (data : bytes) : M HTTPParser.t unit :=
  match data with
  | [] => ret tt
  | b :: rest => parse_byte [b] ;; scan rest
  end.

(** Two parsers that differ at most in [raw_headers]. *)
Definition same_but_raw (p q : HTTPParser.t) : Prop :=
  HTTPParser.set_raw_headers [] p = HTTPParser.set_raw_headers [] q.

(** *** The upgrade flag, from the list of completed headers *)







(** *** Reasoning on stateful code *)

(** [m] keeps [I], whether it returns or raises. *)
Definition preserves {S A} (I : S -> Prop) (m : M S A) : Prop :=
  forall s, I s -> I (fst (m s)).

(** [m] maps related states to related states with the same outcome. *)
Definition respects {S A} (R : S -> S -> Prop) (m : M S A) : Prop :=
  forall s s', R s s' -> R (fst (m s)) (fst (m s')) /\ snd (m s) = snd (m s').

(** [parsing_data] holds nothing. *)
Definition no_pending (p : HTTPParser.t) : Prop :=
  HTTPParser.parsing_data p = None.



(** *** The frame codec *)

Definition bit_char (b : bool) : ascii := if b then "1"%char else "0"%char.

(** The eight binary digits of a byte value, most significant first. *)
Definition bits8 (n : N) : list ascii :=
  map (fun i => bit_char (N.testbit n i)) [7; 6; 5; 4; 3; 2; 1; 0].

Definition bytes256 : list N := map N.of_nat (seq 0 256).

Definition byte_xor (a k : byte) : byte :=
  byte_of_N (N.lxor (Byte.to_N a) (Byte.to_N k)).


(** What the first block of [parse_frame] does with the two header bytes. *)
Definition head_outcome {lib : PyLib} (one two : byte) (data : bytes)
           (w : World.t) : World.t * result (bytes * option FrameLocals) :=
  let opcode := Byte.to_N one mod 16 in
  let fin := Byte.to_N one / 128 in
  let mask := Byte.to_N two / 128 in
  let payload_len := Byte.to_N two mod 128 in
  match WebSocketOpcode.of_value opcode with
  | inl e => (w, inl e)
  | inr op =>
      if (7 <? opcode) && (fin =? 0)
      then (w, Raise (WebSocketError PROTOCOL_ERROR
                        "Control frame is fragmented."))
      else if (7 <? opcode) && (125 <? payload_len)
      then (w, Raise (WebSocketError PROTOCOL_ERROR
                        "Control frame payload greater than 125 bytes."))
      else if negb (mask =? 1)
      then (w, Raise (WebSocketError PROTOCOL_ERROR "Frame mask missing."))
      else
        (fst (set_parser_state
                (if payload_len <=? 125
                 then WebSocketParserState.MASKING_KEY
                 else WebSocketParserState.PAYLOAD_LENGTH)
                w),
         Ok (data, Some (mkLocals payload_len (7 <? opcode) op)))
  end.

(** The exception that the two header bytes of a frame raise, if any: with
    an opcode outside the enumeration none of the three protocol checks is
    reached. *)
Definition frame_head_error (one two : byte) : option exn :=
  let opcode := Byte.to_N one mod 16 in
  let fin := Byte.to_N one / 128 in
  let mask := Byte.to_N two / 128 in
  let payload_len := Byte.to_N two mod 128 in
  let control := 7 <? opcode in
  if negb (existsb (N.eqb opcode) [1; 2; 8; 9; 10]) then Some ValueError
  else if control && (fin =? 0)
  then Some (WebSocketError PROTOCOL_ERROR "Control frame is fragmented.")
  else if control && (125 <? payload_len)
  then Some (WebSocketError PROTOCOL_ERROR
               "Control frame payload greater than 125 bytes.")
  else if mask =? 0
  then Some (WebSocketError PROTOCOL_ERROR "Frame mask missing.")
  else None.

(** The server frame of RFC 6455 as the specification words it: FIN set,
    RSV clear, the opcode, MASK clear, the smallest of the three length
    encodings, the payload as it is. *)
Definition encode_frame_spec (opcode : WebSocketOpcode.t) (payload : bytes)
  : bytes :=
  let n := N.of_nat (List.length payload) in
  let first := byte_of_N (128 + WebSocketOpcode.value opcode) in
  let length_field :=
    if n <=? 125 then [byte_of_N n]
    else if n <=? 65535 then byte_of_N 126 :: map byte_of_N (Sha1.be_bytes 2 n)
    else byte_of_N 127 :: map byte_of_N (Sha1.be_bytes 8 n) in
  first :: length_field ++ payload.

(** *** An instance of the library interface and the worlds of the examples *)

(** The path and the query of a target in origin form (a path that begins
    with one slash): the target up to its first [?] or [#], and what is
    between the [?] and the [#]. *)
Fixpoint until_char (stop : ascii -> bool) (l : list ascii)
  : list ascii * list ascii :=
  match l with
  | [] => ([], [])
  | c :: t =>
      if stop c then ([], l)
      else let (a, b) := until_char stop t in (c :: a, b)
  end.

Definition urlparse_origin_form (target : string) : result (string * string) :=
  let (path, rest) :=
    until_char (fun x => Ascii.eqb x "?"%char || Ascii.eqb x "#"%char)
               (list_ascii_of_string target) in
  let query :=
    match rest with
    | c :: t =>
        if Ascii.eqb c "?"%char
        then fst (until_char (fun x => Ascii.eqb x "#"%char) t)
        else []
    | [] => []
    end in
  Ok (string_of_list_ascii path, string_of_list_ascii query).

(** The reason phrases of the status codes the examples use. *)
Definition phrase_of (status : Z) : option bytes :=
  match status with
  | 101%Z => Some (B "Switching Protocols")
  | 200%Z => Some (B "OK")
  | 400%Z => Some (B "Bad Request")
  | 403%Z => Some (B "Forbidden")
  | 404%Z => Some (B "Not Found")
  | 500%Z => Some (B "Internal Server Error")
  | _ => None
  end.

(** [int] of a string of decimal digits. *)
Fixpoint decimal_acc (l : bytes) (acc : Z) : result Z :=
  match l with
  | [] => Ok acc
  | b :: t =>
      let n := Byte.to_N b in
      if (48 <=? n) && (n <=? 57)
      then decimal_acc t (10 * acc + Z.of_N (n - 48))%Z
      else Raise ValueError
  end.

Definition decimal_of_bytes (value : bytes) : result Z :=
  match value with
  | [] => Raise ValueError
  | _ => decimal_acc value 0%Z
  end.

Definition example_lib : PyLib :=
  {| urlparse := urlparse_origin_form;
     http_phrase := phrase_of;
     date_now := B "Wed, 04 Nov 2026 08:00:00 GMT";
     int_of_decoded := decimal_of_bytes |}.

(** The request of the tests, and the upgrade request of the tests. *)
Definition REQUEST_HEADERS : bytes :=
  B "GET / HTTP/1.1" ++ CRLF ++ B "Host: localhost:8000" ++ CRLF
    ++ B "Connection: keep-alive" ++ CRLF ++ CRLF.

Definition UPGRADE_REQUEST_HEADERS : bytes :=
  B "GET /ws HTTP/1.1" ++ CRLF
    ++ B "Connection: keep-alive, upgrade" ++ CRLF
    ++ B "Upgrade: websocket" ++ CRLF
    ++ B "Sec-WebSocket-Key: Y56tJpDd+hCW+vDb0qdekQ==" ++ CRLF
    ++ B "Sec-WebSocket-Version: 13" ++ CRLF ++ CRLF.

Definition INVALID_UPGRADE_REQUEST_HEADERS : bytes :=
  B "GET / HTTP/1.1" ++ CRLF ++ B "Connection: keep-alive" ++ CRLF
    ++ B "Upgrade: websocket" ++ CRLF ++ CRLF.

(** A connection that has received the request: the protocol is in
    Response and the application of connection 0 has been started. *)
Definition http_world : World.t :=
  Eval vm_compute in
    fst ((connection_made None None ;;
          on_header (lib := example_lib) REQUEST_HEADERS) World.init).

(** A connection that has received the upgrade request: the protocol is in
    Framing with the frame parser, connection 0 is the WebSocket one. *)
Definition framing_world : World.t :=
  Eval vm_compute in
    fst ((connection_made None None ;;
          on_header (lib := example_lib) UPGRADE_REQUEST_HEADERS) World.init).

(** A frame from its byte values. *)
Definition frame_of (values : list N) : bytes := map byte_of_N values.

(** The log of the transport as text. *)
Definition written (w : World.t) : list string :=
  flat_map (fun call =>
              match call with
              | Write data => [string_of_list_byte data]
              | Close => []
              end)
           (World.transport w).

(** A key without whitespace at its ends. *)
Definition trimmed (key : bytes) : bool :=
  match key with
  | [] => true
  | first :: _ => negb (bytes_isspace first) && negb (bytes_isspace (last key x00))
  end.

(** The response of the examples: a start with one header and no
    content-length, then one body of sixteen bytes, the last. *)
Definition example_start : Message :=
  http_response_start 200 (Some [(B "content-type", B "text/html")]).

Definition example_body : Message :=
  http_response_body (Some (B "0123456789abcdef")) (Some false).

Definition responded_world : World.t :=
  Eval vm_compute in
    fst ((send (lib := example_lib) 0 example_start ;;
          send (lib := example_lib) 0 example_body) http_world).

(** The first slice of 100 bytes (the size of the receive buffer) of a
    masked Text frame whose length field is 126 and whose 16-bit length is
    126, then of one whose length field is 127 and whose 64-bit length is
    65536; the key is 1, 2, 3, 4. *)
Definition frame_length_126 : bytes :=
  frame_of ([129; 254; 0; 126; 1; 2; 3; 4] ++ repeat 0 92).

Definition frame_length_127 : bytes :=
  frame_of ([129; 255; 0; 0; 0; 0; 0; 1; 0; 0; 1; 2; 3; 4] ++ repeat 0 86).

(** A masked Ping frame, FIN set, with the payload "hi" under the key
    1, 2, 3, 4. *)
Definition ping_frame : bytes := frame_of [137; 130; 1; 2; 3; 4; 105; 107].

(** ** connections.py: ASGIWebSocketConnection.send, and what it calls *)

(** A message of the application to the WebSocket connection: the dict
    with the keys that [send] reads; a key read with [message.get] is
    [None] when absent. *)
Record WSMessage := mkWSMessage {
  ws_type : string;
  ws_text : option pystr;
  ws_bytes : option bytes;
  ws_subprotocol : option pystr;
  ws_code : option Z
}.

Section WebSocketBridge.
Context {lib : PyLib}.
Import ASGIConnectionState.

(** [HTTPWSProtocol.accept] *)
Definition accept : M World.t unit :=
  modify_protocol (HTTPWSProtocol.set_accepted true) ;;
  let server_headers := List.concat (get_server_headers 101) in
  self <- the_protocol ;;
  match HTTPWSProtocol.handshake_headers self with
  | None => raise TypeError
  | Some handshake_headers =>
      let content := server_headers ++ handshake_headers ++ CRLF in
      transport_write content
  end.

(** [HTTPWSProtocol.reject] *)
Definition reject : M World.t unit :=
  let server_headers := List.concat (get_server_headers 403) in
  let content := server_headers ++ CRLF in
  transport_write content ;;
  transport_close.

(** [HTTPWSProtocol.close] *)
Definition close : M World.t unit := transport_close.

(** The first lines of [send] (200-208): the opcode and the payload.  A
    text that is [None] or empty is false and the bytes are looked at; with
    bytes to send the member [WebSocketOpcode.BYTES] is looked up, which the
    enumeration does not have. *)
Definition bytes_given (message : WSMessage) : bool :=
  match ws_bytes message with
  | None | Some [] => false
  | Some _ => true
  end.

Definition outgoing_payload (message : WSMessage)
  : result (option (WebSocketOpcode.t * Payload)) :=
  match ws_text message with
  | Some (c :: text) => Ok (Some (WebSocketOpcode.TEXT, PStr (c :: text)))
  | Some [] | None =>
      if bytes_given message then Raise AttributeError else Ok None
  end.

(** The handshake of a connection in REQUEST (lines 213-229). *)
Definition ws_handshake (c : nat) (message : WSMessage) : M World.t unit :=
  (match ws_subprotocol message with
   | None => ret tt
   | Some _ => raise AttributeError
   end) ;;
  protocol <- the_protocol ;;
  when negb (HTTPWSProtocol.accepted protocol) then (
    let accept_ := String.eqb (ws_type message) "websocket.accept" in
    let close_ := String.eqb (ws_type message) "websocket.close" in
    if accept_ || close_
    then accept ;; update_connection_state c RESPONSE
    else reject ;; update_connection_state c CLOSED).

(** The frame of a connection in RESPONSE (lines 233-245), encoded by the
    parser of the protocol: when the encoder raises a [WebSocketError] the
    transport is closed and the name [content] is read unbound; any other
    exception leaves the call. *)
Definition ws_frame (sending : option (WebSocketOpcode.t * Payload))
  : M World.t unit :=
  match sending with
  | None => ret tt
  | Some (opcode, payload_data) =>
      protocol <- the_protocol ;;
      match HTTPWSProtocol.parser protocol with
      | HTTP_parser _ => raise AttributeError
      | WebSocket_parser _ =>
          match get_frame_content payload_data opcode 1 0 0 0 with
          | inr content => feed_data (CBytes content) true
          | inl (WebSocketError _ _) => close ;; raise UnboundLocalError
          | inl e => raise e
          end
      end
  end.

Definition ASGIWebSocketConnection_send (c : nat) (message : WSMessage)
  : M World.t unit :=
  let message_type := ws_type message in
  sending <- lift (outgoing_payload message) ;;
  self <- gets (connection c) ;;
  (when eqb (ASGIConnection.state self) CLOSED
   then raise (PyException
     "Unexpected message, ASGIConnection is ASGIConnectionState.CLOSED")) ;;
  self <- gets (connection c) ;;
  (when eqb (ASGIConnection.state self) REQUEST
   then ws_handshake c message) ;;
  self <- gets (connection c) ;;
  when eqb (ASGIConnection.state self) RESPONSE then (
    ws_frame sending ;;
    when String.eqb message_type "websocket.close"
    then update_connection_state c CLOSED).

End WebSocketBridge.

(** *** Sequences of calls on the queue of a connection *)

(** [put_message] for each message, in order. *)
Fixpoint put_messages (c : nat) (messages : list Message) : M World.t unit :=
  match messages with
  | [] => ret tt
  | message :: rest => put_message c message ;; put_messages c rest
  end.

(** [n] calls of [receive], with what each returned. *)
Fixpoint receive_n (c : nat) (n : nat) : M World.t (list (option Message)) :=
  match n with
  | O => ret []
  | S k =>
      message <- receive c ;;
      rest <- receive_n c k ;;
      ret (message :: rest)
  end.

(** *** Header lines *)

(** A header line as a request carries it: the name, a colon, one byte
    (the space, usually), the value, CR LF. *)
Definition header_line (h : bytes * byte * bytes) : bytes :=
  let '(name, sp, value) := h in name ++ x3a :: sp :: value ++ CRLF.

Definition header_of (h : bytes * byte * bytes) : bytes * bytes :=
  let '(name, sp, value) := h in (name, value).

Definition free_of (b : byte) (l : bytes) : bool :=
  forallb (fun x => negb (Byte.eqb x b)) l.

(** No colon and no line feed in the name, no line feed after it. *)
Definition well_formed_header (h : bytes * byte * bytes) : bool :=
  let '(name, sp, value) := h in
  free_of x3a name && free_of x0a name && negb (Byte.eqb sp x0a)
  && free_of x0a value.

(** The parser between two lines of the header block: [pending] is the last
    line read, which the next line feed will append to [headers]. *)
Definition awaiting (pending : option (bytes * byte * bytes))
           (p : HTTPParser.t) : Prop :=
  HTTPParser.state p = HTTPParserState.PARSING_HEADERS /\
  HTTPParser.parsing_header p = [] /\
  HTTPParser.parsing_sep_pos p = None /\
  match pending with
  | None => HTTPParser.next_header p = []
  | Some h =>
      HTTPParser.next_header p = header_line h /\
      HTTPParser.next_sep_pos p = Some (len (fst (fst h)) + 1)%Z
  end.

Definition pending_headers (pending : option (bytes * byte * bytes))
  : list (bytes * bytes) :=
  match pending with
  | None => []
  | Some h => [header_of h]
  end.

(** The fields of the request line. *)
Definition request_fields (p : HTTPParser.t) :=
  (HTTPParser.http_method p, HTTPParser.http_version p, HTTPParser.path p,
   HTTPParser.query_string p).

(** *** The bytes of a response *)

(** One chunk of the chunked transfer coding as the connection writes it. *)
Definition chunk (body : bytes) : bytes :=
  hex_of_len (len body) ++ CRLF ++ body ++ CRLF.

(** A header of the application as a line of the response. *)
Definition response_line (h : bytes * bytes) : bytes :=
  fst h ++ B ": " ++ snd h ++ CRLF.

(** The one header that ends keep-alive: name and value are compared as
    they are. *)
Definition closes (h : bytes * bytes) : bool :=
  bytes_eqb (fst h) (B "connection") && bytes_eqb (snd h) (B "close").

Definition names_length (h : bytes * bytes) : bool :=
  bytes_eqb (fst h) (B "content-length").

(** *** The headers of an upgrade request *)

(** One turn of the loop of [on_upgrade] (lines 151-155). *)
Definition upgrade_step (acc : option bytes * option bytes)
           (h : bytes * bytes) : option bytes * option bytes :=
  let '(accept_key, subprotocols) := acc in
  (if bytes_eqb (fst h) (B "Sec-WebSocket-Key")
   then Some (get_websocket_accept_key (snd h)) else accept_key,
   if bytes_eqb (fst h) (B "Sec-WebSocket-Protocol")
   then Some (snd h) else subprotocols).

Definition is_key_header (h : bytes * bytes) : bool :=
  bytes_eqb (fst h) (B "Sec-WebSocket-Key").

(** The handshake headers that the upgrade keeps for [accept]. *)
Definition handshake_of (accept_key : bytes) : bytes :=
  B "Upgrade: WebSocket" ++ CRLF ++ B "Connection: Upgrade" ++ CRLF
    ++ B "Sec-WebSocket-Accept: " ++ accept_key ++ CRLF.

(** *** Worlds of the examples *)

(** The HTTP connection of [http_world] after the start event of the
    examples, then after a first body event that asks for more. *)
Definition started_world : World.t :=
  Eval vm_compute in
    fst (send (lib := example_lib) 0 example_start http_world).

Definition streaming_world : World.t :=
  Eval vm_compute in
    fst (send (lib := example_lib) 0
           (http_response_body (Some (B "hello")) (Some true))
           started_world).

(** The WebSocket connection of [framing_world] after the application has
    accepted it. *)
Definition accepted_world : World.t :=
  Eval vm_compute in
    fst (ASGIWebSocketConnection_send (lib := example_lib) 0
           (mkWSMessage "websocket.accept" None None None None)
           framing_world).

(** A protocol that has read a header block to its end, as [on_header]
    leaves it for [on_headers_complete]. *)
Definition headers_read (data : bytes) : World.t :=
  let p := fst (parse_headers (lib := example_lib) data HTTPParser.init) in
  fst ((connection_made None None ;;
        modify_protocol (HTTPWSProtocol.set_parser (HTTP_parser p)) ;;
        modify_protocol
          (HTTPWSProtocol.set_state HTTPWSProtocolState.RESPONSE))
         World.init).

(** An upgrade request with the target in capitals, and one whose key
    header is in lower case. *)
Definition CAPITALS_UPGRADE_REQUEST_HEADERS : bytes :=
  B "GET /ws HTTP/1.1" ++ CRLF
    ++ B "Connection: Upgrade" ++ CRLF
    ++ B "Upgrade: WebSocket" ++ CRLF
    ++ B "Sec-WebSocket-Key: Y56tJpDd+hCW+vDb0qdekQ==" ++ CRLF ++ CRLF.

Definition LOWER_KEY_UPGRADE_REQUEST_HEADERS : bytes :=
  B "GET /ws HTTP/1.1" ++ CRLF
    ++ B "connection: upgrade" ++ CRLF
    ++ B "upgrade: websocket" ++ CRLF
    ++ B "sec-websocket-key: Y56tJpDd+hCW+vDb0qdekQ==" ++ CRLF ++ CRLF.
(** * Properties *)

(** ** Rules for stateful code *)

Section Rules.
Context {S : Type}.

Lemma bind_assoc {A C D} (m : M S A) (f : A -> M S C) (g : C -> M S D) s :
  bind (bind m f) g s = bind m (fun a => bind (f a) g) s.
Proof. unfold bind. destruct (m s) as [s' [e | a]]; reflexivity. Qed.

Lemma bind_ext {A C} (m : M S A) (k k' : A -> M S C) s :
  (forall a s', k a s' = k' a s') -> bind m k s = bind m k' s.
Proof.
  intros H. unfold bind. destruct (m s) as [s' [e | a]]; [reflexivity | apply H].
Qed.

Section Preserves.
Variable I : S -> Prop.

Lemma preserves_ret {A} (a : A) : preserves I (ret a).
Proof. intros s H. exact H. Qed.

Lemma preserves_raise {A} e : preserves I (@raise S A e).
Proof. intros s H. exact H. Qed.

Lemma preserves_lift {A} (r : result A) : preserves I (lift r).
Proof. intros s H. exact H. Qed.

Lemma preserves_gets {A} (f : S -> A) : preserves I (gets f).
Proof. intros s H. exact H. Qed.

Lemma preserves_modify (f : S -> S) :
  (forall s, I s -> I (f s)) -> preserves I (modify f).
Proof. intros Hf s H. apply Hf, H. Qed.

Lemma preserves_bind {A C} (m : M S A) (k : A -> M S C) :
  preserves I m -> (forall a, preserves I (k a)) -> preserves I (bind m k).
Proof.
  intros Hm Hk s H. unfold bind.
  specialize (Hm s H). destruct (m s) as [s' [e | a]]; simpl in *.
  - exact Hm.
  - apply Hk, Hm.
Qed.
End Preserves.

Section Respects.
Variable R : S -> S -> Prop.

Lemma respects_ret {A} (a : A) : respects R (ret a).
Proof. intros s s' H. split; [exact H | reflexivity]. Qed.

Lemma respects_raise {A} e : respects R (@raise S A e).
Proof. intros s s' H. split; [exact H | reflexivity]. Qed.

Lemma respects_lift {A} (r : result A) : respects R (lift r).
Proof. intros s s' H. split; [exact H | reflexivity]. Qed.

Lemma respects_gets {A} (f : S -> A) :
  (forall s s', R s s' -> f s = f s') -> respects R (gets f).
Proof.
  intros Hf s s' H. split; [exact H | simpl]. now rewrite (Hf s s' H).
Qed.

Lemma respects_modify (f : S -> S) :
  (forall s s', R s s' -> R (f s) (f s')) -> respects R (modify f).
Proof. intros Hf s s' H. split; [apply Hf, H | reflexivity]. Qed.

Lemma respects_bind {A C} (m : M S A) (k : A -> M S C) :
  respects R m -> (forall a, respects R (k a)) -> respects R (bind m k).
Proof.
  intros Hm Hk s s' H. unfold bind.
  destruct (Hm s s' H) as [Hs Ho].
  destruct (m s) as [s1 [e | a]], (m s') as [s1' [e' | a']];
    simpl in *; try discriminate.
  - split; [exact Hs | now injection Ho as ->].
  - injection Ho as ->. apply Hk, Hs.
Qed.
End Respects.
End Rules.

(** ** The header parser *)

Section HeaderParser.
Context {lib : PyLib}.

Lemma same_but_raw_field {A} (f : HTTPParser.t -> A) :
  (forall p, f (HTTPParser.set_raw_headers [] p) = f p) ->
  forall p q, same_but_raw p q -> f p = f q.
Proof.
  intros Hf p q H. rewrite <- (Hf p), <- (Hf q). now rewrite H.
Qed.

Lemma same_but_raw_update (f : HTTPParser.t -> HTTPParser.t) :
  (forall p, HTTPParser.set_raw_headers [] (f p)
             = f (HTTPParser.set_raw_headers [] p)) ->
  forall p q, same_but_raw p q -> same_but_raw (f p) (f q).
Proof.
  unfold same_but_raw. intros Hf p q H. now rewrite !Hf, H.
Qed.

Ltac respects_step :=
  first
    [ apply respects_ret | apply respects_raise | apply respects_lift
    | apply respects_gets; apply same_but_raw_field; reflexivity
    | apply respects_modify; apply same_but_raw_update; reflexivity
    | apply respects_bind; [| intros ?]
    | match goal with
      | |- respects _ (if ?c then _ else _) => destruct c
      | |- respects _ (match ?x with _ => _ end) => destruct x
      end ].

Lemma parse_request_line_respects h :
  respects same_but_raw (parse_request_line h).
Proof. unfold parse_request_line. repeat respects_step. Qed.

Lemma append_next_header_respects :
  respects same_but_raw append_next_header.
Proof. unfold append_next_header. repeat respects_step. Qed.

Lemma finish_header_respects h : respects same_but_raw (finish_header h).
Proof.
  unfold finish_header.
  apply respects_bind; [apply append_next_header_respects | intros ?].
  repeat respects_step.
Qed.

Lemma parse_byte_respects b : respects same_but_raw (parse_byte b).
Proof.
  unfold parse_byte.
  repeat first [ apply parse_request_line_respects
               | apply finish_header_respects
               | respects_step ].
Qed.

Lemma scan_respects data : respects same_but_raw (scan data).
Proof.
  induction data as [| b rest IH]; simpl.
  - apply respects_ret.
  - apply respects_bind; [apply parse_byte_respects | intros _; exact IH].
Qed.

Ltac preserves_step :=
  first
    [ apply preserves_ret | apply preserves_raise | apply preserves_lift
    | apply preserves_gets
    | apply preserves_modify; intros ? Hkeep; exact Hkeep
    | apply preserves_bind; [| intros ?]
    | match goal with
      | |- preserves _ (if ?c then _ else _) => destruct c
      | |- preserves _ (match ?x with _ => _ end) => destruct x
      end ].

Lemma parse_byte_no_pending b : preserves no_pending (parse_byte b).
Proof.
  unfold parse_byte, finish_header, append_next_header, parse_request_line.
  repeat preserves_step.
Qed.

Lemma scan_no_pending data : preserves no_pending (scan data).
Proof.
  induction data as [| b rest IH]; simpl.
  - apply preserves_ret.
  - apply preserves_bind; [apply parse_byte_no_pending | intros _; exact IH].
Qed.

Lemma scan_app a b p :
  scan (a ++ b) p = bind (scan a) (fun _ => scan b) p.
Proof.
  revert p. induction a as [| x a IH]; intros p; cbn [scan app].
  - reflexivity.
  - rewrite bind_assoc. apply bind_ext. intros _ s. apply IH.
Qed.

Lemma norm_index_inside n i :
  (0 <= i <= n)%Z -> norm_index n i = i.
Proof.
  intros H. unfold norm_index.
  destruct (i <? 0)%Z eqn:E; [apply Z.ltb_lt in E; lia | lia].
Qed.

(** The slice the loop takes at index [i] is the byte at [i]. *)
Lemma slice_one {A} (pre suf : list A) b :
  pyslice (pre ++ b :: suf) (Some (Z.of_nat (List.length pre)))
          (Some (Z.of_nat (List.length pre) + 1)%Z) = [b].
Proof.
  unfold pyslice.
  rewrite !norm_index_inside
    by (rewrite length_app; simpl; lia).
  replace (Z.to_nat (Z.of_nat (List.length pre) + 1
                     - Z.of_nat (List.length pre))) with 1%nat by lia.
  rewrite Nat2Z.id, skipn_app, skipn_all, Nat.sub_diag. reflexivity.
Qed.

Lemma parse_loop_scan suf : forall pre n p,
  parse_loop (pre ++ suf) (seq (List.length pre) (List.length suf)) n p =
  let (p', r) := scan suf p in
  (p', match r with inl e => inl e | inr _ => inr (n - len suf)%Z end).
Proof.
  induction suf as [| b suf IH]; intros pre n p.
  - simpl. unfold ret, Ok, len. simpl. now rewrite Z.sub_0_r.
  - cbn [List.length seq parse_loop scan].
    rewrite slice_one. unfold bind at 1 2.
    destruct (parse_byte [b] p) as [p1 [e | u]]; [reflexivity |].
    replace (pre ++ b :: suf) with ((pre ++ [b]) ++ suf)
      by now rewrite <- app_assoc.
    replace (Datatypes.S (List.length pre)) with (List.length (pre ++ [b]))
      by (rewrite length_app; simpl; lia).
    rewrite IH. destruct (scan suf p1) as [p2 [e | u2]]; [reflexivity |].
    f_equal. f_equal. unfold len. cbn [List.length]. lia.
Qed.

(** With nothing pending, [parse_headers] records the bytes and scans
    them; nothing is pending afterwards. *)
Lemma parse_headers_scan data p :
  no_pending p ->
  parse_headers data p =
  scan data (HTTPParser.set_raw_headers (HTTPParser.raw_headers p ++ data) p).
Proof.
  intros Hp. unfold parse_headers, bind, modify, gets, Ok. cbv beta iota.
  change (HTTPParser.parsing_data
            (HTTPParser.set_raw_headers (HTTPParser.raw_headers p ++ data) p))
    with (HTTPParser.parsing_data p).
  rewrite Hp. unfold len at 1. rewrite Nat2Z.id.
  rewrite (parse_loop_scan data [] (len data)).
  destruct (scan data _) as [p' [e | []]]; [reflexivity |].
  rewrite Z.sub_diag. reflexivity.
Qed.

Lemma same_but_raw_set r p :
  same_but_raw (HTTPParser.set_raw_headers r p) p.
Proof. reflexivity. Qed.

Lemma same_but_raw_trans p q r :
  same_but_raw p q -> same_but_raw q r -> same_but_raw p r.
Proof. unfold same_but_raw. congruence. Qed.

Lemma parse_headers_no_pending data : preserves no_pending (parse_headers data).
Proof.
  intros p Hp. rewrite (parse_headers_scan data p Hp).
  apply scan_no_pending. exact Hp.
Qed.

Lemma feed_scan slices : forall p,
  no_pending p ->
  same_but_raw (fst (feed slices p)) (fst (scan (List.concat slices) p)) /\
  snd (feed slices p) = snd (scan (List.concat slices) p).
Proof.
  induction slices as [| data rest IH]; intros p Hp.
  - split; reflexivity.
  - cbn [feed List.concat]. rewrite scan_app. unfold bind.
    pose proof (parse_headers_no_pending data p Hp) as Hp1.
    rewrite (parse_headers_scan data p Hp) in *.
    destruct (scan_respects data _ _
                (same_but_raw_set (HTTPParser.raw_headers p ++ data) p))
      as [Hs Ho].
    destruct (scan data (HTTPParser.set_raw_headers _ p)) as [p1 [e | u]],
             (scan data p) as [p2 [e' | u']]; simpl in *; try discriminate.
    + split; [exact Hs | now injection Ho as ->].
    + destruct (IH p1 Hp1) as [Hs1 Ho1].
      destruct (scan_respects (List.concat rest) _ _ Hs) as [Hs2 Ho2].
      split; [eapply same_but_raw_trans; eassumption | congruence].
Qed.

(** C2. Feeding the slices of a partition of a header block in order to a
    fresh parser gives the same method, version, path, query string,
    headers, upgrade flag and upgrade target, the same parser state and
    the same outcome as feeding the whole block at once; this holds for
    every byte string, so for every valid header block. *)
Theorem chunked_feeding_equivalence (slices : list bytes) :
  let chunked := feed slices HTTPParser.init in
  let whole := parse_headers (List.concat slices) HTTPParser.init in
  parsed (fst chunked) = parsed (fst whole) /\
  HTTPParser.state (fst chunked) = HTTPParser.state (fst whole) /\
  snd chunked = snd whole.
Proof.
  intros chunked whole. subst chunked whole.
  assert (Hi : no_pending HTTPParser.init) by reflexivity.
  destruct (feed_scan slices _ Hi) as [Hs Ho].
  rewrite (parse_headers_scan _ _ Hi).
  destruct (scan_respects (List.concat slices) _ _
              (same_but_raw_set
                 (HTTPParser.raw_headers HTTPParser.init
                    ++ List.concat slices) HTTPParser.init)) as [Hs' Ho'].
  assert (H : same_but_raw (fst (feed slices HTTPParser.init))
                (fst (scan (List.concat slices)
                        (HTTPParser.set_raw_headers
                           (HTTPParser.raw_headers HTTPParser.init
                              ++ List.concat slices) HTTPParser.init)))).
  { eapply same_but_raw_trans; [exact Hs |]. unfold same_but_raw in *.
    now rewrite Hs'. }
  repeat split.
  - apply (same_but_raw_field parsed); [reflexivity | exact H].
  - apply (same_but_raw_field HTTPParser.state); [reflexivity | exact H].
  - congruence.
Qed.
End HeaderParser.

(** ** The upgrade flag *)

Section UpgradeFlag.
Context {lib : PyLib}.

















End UpgradeFlag.

(** ** The frame codec *)

Section Xor.

Lemma bytes256_in n : n < 256 -> In n bytes256.
Proof.
  intros H. unfold bytes256. apply in_map_iff. exists (N.to_nat n).
  split; [apply N2Nat.id | apply in_seq; lia].
Qed.

Lemma format_08b_table :
  forallb (fun n => String.eqb (format_08b n) (string_of_list_ascii (bits8 n)))
          bytes256 = true.
Proof. vm_compute. reflexivity. Qed.

Lemma format_08b_bits n :
  n < 256 -> list_ascii_of_string (format_08b n) = bits8 n.
Proof.
  intros H. pose proof format_08b_table as T.
  rewrite forallb_forall in T. specialize (T n (bytes256_in n H)).
  apply String.eqb_eq in T. rewrite T.
  apply list_ascii_of_string_of_list_ascii.
Qed.

Lemma int_base2_table :
  forallb (fun n => match int_base2 (string_of_list_ascii (bits8 n)) with
                    | inr m => m =? n
                    | inl _ => false
                    end) bytes256 = true.
Proof. vm_compute. reflexivity. Qed.

Lemma int_base2_bits n :
  n < 256 -> int_base2 (string_of_list_ascii (bits8 n)) = Ok n.
Proof.
  intros H. pose proof int_base2_table as T.
  rewrite forallb_forall in T. specialize (T n (bytes256_in n H)).
  destruct (int_base2 _) as [e | m]; [discriminate |].
  apply N.eqb_eq in T. now subst.
Qed.

Lemma lxor_byte a k : a < 256 -> k < 256 -> N.lxor a k < 256.
Proof.
  intros Ha Hk.
  destruct (N.eq_dec (N.lxor a k) 0) as [-> | Hnz]; [lia |].
  change 256 with (2 ^ 8). apply N.log2_lt_pow2; [lia |].
  eapply N.le_lt_trans; [apply N.log2_lxor |].
  assert (L : forall x, x < 256 -> N.log2 x < 8).
  { intros x Hx. destruct (N.eq_dec x 0) as [-> | Hx0]; [reflexivity |].
    apply N.log2_lt_pow2; [lia | exact Hx]. }
  apply N.max_lub_lt; auto.
Qed.

(** One digit of the result: the sum of the two digits is 1 exactly when
    the bits differ. *)
Lemma xor_digit s1 s2 x b1 b2 :
  nth_error (list_ascii_of_string s1) x = Some (bit_char b1) ->
  nth_error (list_ascii_of_string s2) x = Some (bit_char b2) ->
  rbind (int_at s1 x)
        (fun a => rbind (int_at s2 x)
           (fun b => Ok (if a + b =? 1 then "1"%char else "0"%char)))
  = Ok (bit_char (xorb b1 b2)).
Proof.
  intros H1 H2. unfold int_at. rewrite H1, H2.
  destruct b1, b2; reflexivity.
Qed.

(** The helper is the bitwise exclusive or on byte values. *)
Lemma xor_lxor a k : a < 256 -> k < 256 -> xor a k = Ok (N.lxor a k).
Proof.
  intros Ha Hk. unfold xor. cbn [seq mapM].
  repeat match goal with
    | |- context [rbind (int_at ?s1 ?x) _] =>
        rewrite (xor_digit s1 _ x (N.testbit a (7 - N.of_nat x))
                           (N.testbit k (7 - N.of_nat x)))
          by (rewrite format_08b_bits by assumption; reflexivity);
        cbn [rbind Ok]
    end.
  rewrite <- !N.lxor_spec.
  apply (int_base2_bits (N.lxor a k)), lxor_byte; assumption.
Qed.

End Xor.

Section Unmask.

Lemma mapM_map {A C} (f : A -> result C) (g : A -> C) l :
  (forall x, In x l -> f x = Ok (g x)) -> mapM f l = Ok (map g l).
Proof.
  induction l as [| x l IH]; intros H; cbn [mapM map]; [reflexivity |].
  rewrite (H x (or_introl eq_refl)). cbn [rbind Ok].
  rewrite IH by (intros y Hy; apply H; now right). reflexivity.
Qed.

Lemma bytes_of_ints_map {A} (g : A -> N) l :
  (forall x, In x l -> g x < 256) ->
  bytes_of_ints (map g l) = Ok (map (fun x => byte_of_N (g x)) l).
Proof.
  induction l as [| x l IH]; intros H; cbn [bytes_of_ints map];
    [reflexivity |].
  unfold byte_of_N at 1.
  destruct (Byte.of_N (g x)) as [b |] eqn:E.
  - rewrite IH by (intros y Hy; apply H; now right). reflexivity.
  - apply Byte.of_N_None_iff in E.
    specialize (H x (or_introl eq_refl)). lia.
Qed.

Lemma byte_at_nth data i :
  (i < List.length data)%nat ->
  byte_at data i = Ok (Byte.to_N (nth i data x00)).
Proof.
  intros H. unfold byte_at.
  now rewrite (nth_error_nth' data x00 H).
Qed.

Lemma to_N_byte b : Byte.to_N b < 256.
Proof. pose proof (Byte.to_N_bounded b). lia. Qed.

(** The decoder's unmasking, byte by byte. *)
Lemma unmask_xor data masking_key payload_len :
  List.length masking_key = 4%nat ->
  (N.to_nat payload_len <= List.length data)%nat ->
  unmask data masking_key payload_len =
  Ok (map (fun i => byte_xor (nth i data x00) (nth (i mod 4) masking_key x00))
          (seq 0 (N.to_nat payload_len))).
Proof.
  intros Hk Hd. unfold unmask.
  rewrite (mapM_map _ (fun i => N.lxor (Byte.to_N (nth i data x00))
                                 (Byte.to_N (nth (i mod 4) masking_key x00)))).
  - cbn [rbind Ok]. apply bytes_of_ints_map.
    intros i _. apply lxor_byte; apply to_N_byte.
  - intros i Hi. apply in_seq in Hi.
    rewrite byte_at_nth by lia.
    rewrite byte_at_nth
      by (rewrite Hk; apply Nat.mod_upper_bound; discriminate).
    cbn [rbind Ok]. apply xor_lxor; apply to_N_byte.
Qed.

Lemma to_N_byte_of_N n : n < 256 -> Byte.to_N (byte_of_N n) = n.
Proof.
  intros H. unfold byte_of_N.
  destruct (Byte.of_N n) as [b |] eqn:E.
  - now apply Byte.to_of_N.
  - apply Byte.of_N_None_iff in E. lia.
Qed.

End Unmask.

Section FrameHead.
Context {lib : PyLib}.
Import WebSocketParserState.

Lemma head_values one :
  get_frame_values (Byte.to_N one) HEAD_FRAME_INDEXES =
  Ok [Byte.to_N one / 128; (Byte.to_N one / 64) mod 2;
      (Byte.to_N one / 32) mod 2; (Byte.to_N one / 16) mod 2;
      Byte.to_N one mod 16].
Proof. destruct one; vm_compute; reflexivity. Qed.

Lemma mask_and_len_values two :
  get_frame_values (Byte.to_N two) MASK_AND_PAYLOAD_LEN_FRAME_INDEXES =
  Ok [Byte.to_N two / 128; Byte.to_N two mod 128].
Proof. destruct two; vm_compute; reflexivity. Qed.

Lemma parse_initial_bytes_outcome one two data w :
  parse_initial_bytes (one :: two :: data) w = head_outcome one two data w.
Proof.
  unfold parse_initial_bytes, head_outcome.
  unfold bind at 1. unfold lift at 1. rewrite head_values.
  unfold Ok at 1. cbv beta iota.
  unfold bind at 1. unfold lift at 1.
  destruct (WebSocketOpcode.of_value (Byte.to_N one mod 16)) as [e | op];
    [reflexivity |].
  unfold bind at 1. unfold lift at 1. rewrite mask_and_len_values.
  unfold Ok at 1. cbv beta iota.
  destruct (7 <? Byte.to_N one mod 16); cbn [andb].
  - destruct (Byte.to_N one / 128 =? 0); [reflexivity |].
    destruct (125 <? Byte.to_N two mod 128); [reflexivity |].
    destruct (Byte.to_N two / 128 =? 1); cbn [negb]; [| reflexivity].
    destruct (Byte.to_N two mod 128 <=? 125); reflexivity.
  - destruct (Byte.to_N two / 128 =? 1); cbn [negb]; [| reflexivity].
    destruct (Byte.to_N two mod 128 <=? 125); reflexivity.
Qed.

Lemma bind_ok {S A C} (m : M S A) (k : A -> M S C) s s' a :
  m s = (s', inr a) -> bind m k s = k a s'.
Proof. intros H. unfold bind. now rewrite H. Qed.

Lemma bind_raise {S A C} (m : M S A) (k : A -> M S C) s s' e :
  m s = (s', inl e) -> bind m k s = (s', inl e).
Proof. intros H. unfold bind. now rewrite H. Qed.

Lemma parser_state_eq w state :
  HTTPWSProtocol.parser (World.protocol w) = WebSocket_parser state ->
  parser_state w = (w, Ok state).
Proof.
  intros H. unfold parser_state, the_protocol, bind, gets, Ok.
  cbv beta iota. now rewrite H.
Qed.

Lemma len_two_more {A} (x y : A) l : (2 <=? len (x :: y :: l))%Z = true.
Proof. apply Z.leb_le. unfold len. cbn [List.length]. lia. Qed.

(** A header that the first block refuses ends the call there. *)
Lemma parse_frame_head_error w one two rest e :
  HTTPWSProtocol.parser (World.protocol w) = WebSocket_parser INITIAL_BYTES ->
  head_outcome one two rest w = (w, inl e) ->
  parse_frame (one :: two :: rest) w = (w, inl e).
Proof.
  intros Hp He. unfold parse_frame.
  rewrite (bind_ok _ _ _ _ _ (parser_state_eq w _ Hp)).
  rewrite len_two_more. cbn [eqb andb].
  apply bind_raise. now rewrite parse_initial_bytes_outcome.
Qed.

Lemma head_outcome_error one two rest w e :
  frame_head_error one two = Some e ->
  head_outcome one two rest w = (w, inl e).
Proof.
  unfold frame_head_error, head_outcome.
  set (opcode := Byte.to_N one mod 16) in *.
  destruct (WebSocketOpcode.of_value opcode) as [x | op] eqn:Eop.
  - assert (x = ValueError) as ->.
    { unfold WebSocketOpcode.of_value in Eop.
      repeat match type of Eop with
        | match ?n with _ => _ end = _ => destruct n; try discriminate
        end; now injection Eop. }
    assert (existsb (N.eqb opcode) [1; 2; 8; 9; 10] = false) as ->.
    { cbn [existsb]. 
      destruct (opcode =? 1) eqn:E1; [apply N.eqb_eq in E1; rewrite E1 in Eop; discriminate|].
      destruct (opcode =? 2) eqn:E2; [apply N.eqb_eq in E2; rewrite E2 in Eop; discriminate|].
      destruct (opcode =? 8) eqn:E3; [apply N.eqb_eq in E3; rewrite E3 in Eop; discriminate|].
      destruct (opcode =? 9) eqn:E4; [apply N.eqb_eq in E4; rewrite E4 in Eop; discriminate|].
      destruct (opcode =? 10) eqn:E5; [apply N.eqb_eq in E5; rewrite E5 in Eop; discriminate|].
      reflexivity. }
    cbn [negb]. now intros [= <-].
  - assert (existsb (N.eqb opcode) [1; 2; 8; 9; 10] = true) as ->.
    { apply existsb_exists. exists opcode. split; [| apply N.eqb_refl].
      unfold WebSocketOpcode.of_value in Eop.
      repeat match type of Eop with
        | match ?n with _ => _ end = _ => destruct n; try discriminate
        end; cbn; tauto. }
    cbn [negb].
    destruct ((7 <? opcode) && (Byte.to_N one / 128 =? 0));
      [now intros [= <-] |].
    destruct ((7 <? opcode) && (125 <? Byte.to_N two mod 128));
      [now intros [= <-] |].
    destruct (Byte.to_N two / 128 =? 0) eqn:E0.
    + apply N.eqb_eq in E0. rewrite E0. cbn. now intros [= <-].
    + discriminate.
Qed.
End FrameHead.

Section RequestLine.
Context {lib : PyLib}.
Import HTTPParserState.

Lemma bytes_eqb_single_false a b : a <> b -> bytes_eqb [a] [b] = false.
Proof.
  intros H. unfold bytes_eqb.
  destruct (list_eq_dec Byte.byte_eq_dec [a] [b]) as [E | _];
    [now injection E | reflexivity].
Qed.

(** A byte of the request line that is not the line feed only joins the
    line being read. *)
Lemma parse_byte_request_line b p :
  HTTPParser.state p = PARSING_REQUEST -> b <> x0a ->
  parse_byte [b] p =
  (HTTPParser.set_parsing_header (HTTPParser.parsing_header p ++ [b]) p,
   Ok tt).
Proof.
  intros Hs Hb. unfold parse_byte, bind, gets, modify, ret, Ok.
  cbv beta iota. rewrite (bytes_eqb_single_false b x0a Hb).
  destruct (bytes_eqb [b] (B ":")); [| reflexivity].
  rewrite Hs. cbn [eqb negb]. now rewrite andb_false_r.
Qed.

Lemma scan_request_line line : forall p,
  HTTPParser.state p = PARSING_REQUEST -> ~ In x0a line ->
  scan line p =
  (HTTPParser.set_parsing_header (HTTPParser.parsing_header p ++ line) p,
   Ok tt).
Proof.
  induction line as [| b line IH]; intros p Hs Hn.
  - cbn [scan]. rewrite app_nil_r. now destruct p.
  - cbn [scan].
    rewrite (bind_ok _ _ _ _ _ (parse_byte_request_line b p Hs
               (fun E => Hn (or_introl E)))).
    rewrite IH; [| exact Hs | intros H; apply Hn; now right].
    cbn [HTTPParser.parsing_header HTTPParser.set_parsing_header].
    now rewrite <- app_assoc.
Qed.


End RequestLine.

(** ** The encoder *)

Section Encoder.

Lemma byte_of_N_small n :
  n < 256 -> Byte.of_N n = Some (byte_of_N n).
Proof.
  intros H. unfold byte_of_N.
  destruct (Byte.of_N n) as [b |] eqn:E; [reflexivity |].
  apply Byte.of_N_None_iff in E. lia.
Qed.

(** C5 (amended). For the opcode Text and every payload byte string of at
    most 125 bytes the encoder returns the server frame of RFC 6455: a
    first byte 0x81 (FIN set, RSV1-3 clear, opcode 1), a second byte that
    is the payload length (so below 128, MASK clear), then the payload
    unmasked. *)
Theorem text_frame_encoding (payload : bytes) :
  (List.length payload <= 125)%nat ->
  get_frame_content (PBytes payload) WebSocketOpcode.TEXT 1 0 0 0
    = Ok (encode_frame_spec WebSocketOpcode.TEXT payload) /\
  encode_frame_spec WebSocketOpcode.TEXT payload
    = x81 :: byte_of_N (N.of_nat (List.length payload)) :: payload /\
  Byte.to_N (byte_of_N (N.of_nat (List.length payload)))
    = N.of_nat (List.length payload) /\
  N.of_nat (List.length payload) < 128.
Proof.
  intros H.
  assert (Hn : N.of_nat (List.length payload) <= 125) by lia.
  assert (Hspec : encode_frame_spec WebSocketOpcode.TEXT payload
                  = x81 :: byte_of_N (N.of_nat (List.length payload))
                        :: payload).
  { unfold encode_frame_spec.
    apply N.leb_le in Hn. rewrite Hn. reflexivity. }
  repeat split.
  - rewrite Hspec. unfold get_frame_content.
    change (int_base2 _) with (Ok (A := N) 129). cbn [rbind Ok].
    cbn [bytes_of_ints].
    change (Byte.of_N 129) with (Some x81).
    rewrite byte_of_N_small by lia. reflexivity.
  - exact Hspec.
  - apply to_N_byte_of_N. lia.
  - lia.
Qed.

End Encoder.

(** ** The accept key *)

Section AcceptKey.

Lemma lstrip_spaces {A} (sp : A -> bool) l m :
  forallb sp l = true -> lstrip sp (l ++ m) = lstrip sp m.
Proof.
  induction l as [| x l IH]; intros H; cbn [app lstrip forallb] in *;
    [reflexivity |].
  apply andb_prop in H as [-> H]. now apply IH.
Qed.

Lemma lstrip_all_spaces {A} (sp : A -> bool) l :
  forallb sp l = true -> lstrip sp l = [].
Proof.
  intros H. rewrite <- (app_nil_r l). now rewrite lstrip_spaces.
Qed.

Lemma forallb_rev {A} (f : A -> bool) l :
  forallb f (rev l) = forallb f l.
Proof.
  induction l as [| x l IH]; [reflexivity |].
  cbn [rev forallb]. rewrite forallb_app, IH. cbn [forallb].
  rewrite andb_true_r. apply andb_comm.
Qed.

(** [strip] removes the whitespace around a trimmed key and nothing
    else. *)
Lemma bytes_strip_trimmed lead key trail :
  forallb bytes_isspace lead = true ->
  forallb bytes_isspace trail = true ->
  trimmed key = true ->
  bytes_strip (lead ++ key ++ trail) = key.
Proof.
  intros Hl Ht Hk. unfold bytes_strip, strip, rstrip.
  rewrite (lstrip_spaces bytes_isspace lead _ Hl).
  destruct key as [| x key].
  - cbn [app]. rewrite (lstrip_all_spaces bytes_isspace trail Ht). reflexivity.
  - unfold trimmed in Hk. apply andb_prop in Hk as [Hx Hlast].
    apply negb_true_iff in Hx, Hlast.
    cbn [app lstrip]. rewrite Hx.
    change (x :: key ++ trail) with ((x :: key) ++ trail).
    rewrite rev_app_distr, lstrip_spaces by now rewrite forallb_rev.
    assert (Hne : x :: key <> []) by discriminate.
    assert (Hrev : rev (x :: key)
                   = last (x :: key) x00 :: rev (removelast (x :: key))).
    { rewrite (app_removelast_last x00 Hne) at 1.
      now rewrite rev_app_distr. }
    rewrite Hrev. cbn [lstrip]. rewrite Hlast, <- Hrev.
    apply rev_involutive.
Qed.

(** C9. The accept key of a Sec-WebSocket-Key value is the base64
    encoding of the SHA-1 digest of the value without its leading and
    trailing ASCII whitespace followed by the GUID; the key of the tests
    gives "J9R6HjgRj5VpgXEFRYnNh9igw2o=". *)
Theorem accept_key_correct (lead key trail : bytes) :
  forallb bytes_isspace lead = true ->
  forallb bytes_isspace trail = true ->
  trimmed key = true ->
  get_websocket_accept_key (lead ++ key ++ trail)
    = Base64.b64encode
        (Sha1.digest (key ++ B "258EAFA5-E914-47DA-95CA-C5AB0DC85B11")) /\
  get_websocket_accept_key (B "Y56tJpDd+hCW+vDb0qdekQ==")
    = B "J9R6HjgRj5VpgXEFRYnNh9igw2o=".
Proof.
  intros Hl Ht Hk. split.
  - unfold get_websocket_accept_key.
    now rewrite bytes_strip_trimmed.
  - vm_compute. reflexivity.
Qed.

End AcceptKey.

(** ** Exceptions on peer input *)

Section PeerInput.
Context {lib : PyLib}.



End PeerInput.

(** ** What the decoder does after a header it accepts *)

Section AcceptedHeader.
Context {lib : PyLib}.
Import WebSocketParserState.

(** A header that passes the checks leaves the two local names and the
    next parser state. *)
Lemma head_outcome_accepted one two rest w :
  frame_head_error one two = None ->
  exists op,
    WebSocketOpcode.of_value (Byte.to_N one mod 16) = Ok op /\
    head_outcome one two rest w =
    (fst (set_parser_state
            (if Byte.to_N two mod 128 <=? 125 then MASKING_KEY
             else PAYLOAD_LENGTH) w),
     Ok (rest, Some (mkLocals (Byte.to_N two mod 128)
                              (7 <? Byte.to_N one mod 16) op))).
Proof.
  unfold frame_head_error, head_outcome.
  set (opcode := Byte.to_N one mod 16).
  destruct (WebSocketOpcode.of_value opcode) as [x | op] eqn:Eop.
  - assert (existsb (N.eqb opcode) [1; 2; 8; 9; 10] = false) as ->;
      [| discriminate].
    cbn [existsb]. unfold WebSocketOpcode.of_value in Eop.
    repeat match goal with
      | |- (opcode =? ?k) || _ = false =>
          let E := fresh "E" in
          destruct (opcode =? k) eqn:E;
          [apply N.eqb_eq in E; rewrite E in Eop; discriminate | cbn [orb]]
      end.
    reflexivity.
  - destruct (negb (existsb _ _)); [discriminate |].
    destruct ((7 <? opcode) && (Byte.to_N one / 128 =? 0)); [discriminate |].
    destruct ((7 <? opcode) && (125 <? Byte.to_N two mod 128));
      [discriminate |].
    destruct (Byte.to_N two / 128 =? 0) eqn:E0; [discriminate |].
    intros _. exists op. split; [reflexivity |].
    assert (Hm : Byte.to_N two / 128 = 1).
    { apply N.eqb_neq in E0.
      assert (Hq : Byte.to_N two / 128 < 2).
      { apply N.Div0.div_lt_upper_bound. pose proof (to_N_byte two). lia. }
      revert E0 Hq. generalize (Byte.to_N two / 128). intros q. lia. }
    rewrite Hm. reflexivity.
Qed.

(** The second block never gets past the formatting of the length
    bytes. *)
Lemma parse_payload_length_raises data locals w :
  parse_payload_length data (Some locals) w =
  (w, Raise (if ((payload_len locals <? 127) && (2 <=? len data)%Z)
                || (8 <=? len data)%Z
             then TypeError else UnboundLocalError)).
Proof.
  unfold parse_payload_length, local, bind, ret, raise, lift,
    format_bytearray_08b, Raise, Ok.
  cbv beta iota.
  destruct ((payload_len locals <? 127) && (2 <=? len data)%Z);
    [reflexivity |].
  destruct (8 <=? len data)%Z; reflexivity.
Qed.

(** With a length field of 126 or 127 the call always ends in the
    formatting of the length bytes, or before it when they are not all
    there: no extended length is decoded. *)
Lemma extended_length_never_decoded w one two rest :
  HTTPWSProtocol.parser (World.protocol w) = WebSocket_parser INITIAL_BYTES ->
  frame_head_error one two = None ->
  125 < Byte.to_N two mod 128 ->
  snd (parse_frame (one :: two :: rest) w) = Raise TypeError \/
  snd (parse_frame (one :: two :: rest) w) = Raise UnboundLocalError.
Proof.
  intros Hp Hhead Hlen.
  destruct (head_outcome_accepted one two rest w Hhead) as (op & _ & Hout).
  assert (Hst : (Byte.to_N two mod 128 <=? 125) = false)
    by (apply N.leb_gt; exact Hlen).
  rewrite Hst in Hout.
  unfold parse_frame.
  rewrite (bind_ok _ _ _ _ _ (parser_state_eq w _ Hp)).
  rewrite len_two_more. cbn [eqb andb].
  erewrite bind_ok by (rewrite parse_initial_bytes_outcome; exact Hout).
  erewrite bind_ok by (apply parser_state_eq; reflexivity).
  cbn [eqb fst snd].
  erewrite bind_raise by apply parse_payload_length_raises.
  cbn [snd].
  destruct (_ || _); [left | right]; reflexivity.
Qed.

Lemma pyslice_key {A} (key tail : list A) :
  List.length key = 4%nat ->
  pyslice (key ++ tail) None (Some 4%Z) = key /\
  pyslice (key ++ tail) (Some 4%Z) None = tail.
Proof.
  intros H. unfold pyslice.
  rewrite norm_index_inside by (rewrite length_app; lia).
  split.
  - change (Z.to_nat (4 - 0)) with (4 + 0)%nat.
    change (Z.to_nat 0) with 0%nat. cbn [skipn].
    rewrite <- H, firstn_app_2. cbn [firstn]. apply app_nil_r.
  - change (Z.to_nat 4) with 4%nat.
    replace (skipn 4 (key ++ tail)) with tail
      by (rewrite <- H, skipn_app, skipn_all, Nat.sub_diag; reflexivity).
    apply firstn_all2. rewrite length_app. lia.
Qed.

(** A Ping frame that the decoder accepts and whose payload has arrived:
    the encoder is called without [await], [feed_data] raises on the
    coroutine, and the only change is the state of the parser. *)
Lemma ping_frame_raises w two key tail :
  HTTPWSProtocol.parser (World.protocol w) = WebSocket_parser INITIAL_BYTES ->
  128 <= Byte.to_N two <= 253 ->
  List.length key = 4%nat ->
  (N.to_nat (Byte.to_N two - 128) <= List.length tail)%nat ->
  parse_frame (x89 :: two :: key ++ tail) w =
  (fst (set_parser_state MASKING_KEY w), Raise TypeError).
Proof.
  intros Hp Htwo Hkey Htail.
  assert (Hdiv : Byte.to_N two / 128 = 1).
  { symmetry. apply N.div_unique with (r := Byte.to_N two - 128); lia. }
  assert (Hmod : Byte.to_N two mod 128 = Byte.to_N two - 128).
  { symmetry. apply N.mod_unique with (q := 1); lia. }
  assert (Hout : head_outcome x89 two (key ++ tail) w =
                 (fst (set_parser_state MASKING_KEY w),
                  Ok (key ++ tail,
                      Some (mkLocals (Byte.to_N two - 128) true
                                     WebSocketOpcode.PING)))).
  { unfold head_outcome.
    change (Byte.to_N x89 mod 16) with 9.
    change (Byte.to_N x89 / 128) with 1.
    rewrite Hdiv, Hmod. cbn [WebSocketOpcode.of_value Ok].
    change (7 <? 9) with true. change (1 =? 0) with false.
    change (1 =? 1) with true. cbn [andb negb].
    assert (H1 : (125 <? Byte.to_N two - 128) = false)
      by (apply N.ltb_ge; lia).
    assert (H2 : (Byte.to_N two - 128 <=? 125) = true)
      by (apply N.leb_le; lia).
    now rewrite H1, H2. }
  unfold parse_frame.
  rewrite (bind_ok _ _ _ _ _ (parser_state_eq w _ Hp)).
  rewrite len_two_more. cbn [eqb andb].
  erewrite bind_ok by (rewrite parse_initial_bytes_outcome; exact Hout).
  erewrite bind_ok by (apply parser_state_eq; reflexivity).
  cbn [eqb fst snd].
  erewrite bind_ok by reflexivity.
  erewrite bind_ok by (apply parser_state_eq; reflexivity).
  assert (Hlen : (4 <=? len (key ++ tail))%Z = true).
  { apply Z.leb_le. unfold len. rewrite length_app. lia. }
  cbn [fst snd]. rewrite Hlen. cbn [eqb andb].
  unfold parse_masking_key.
  destruct (pyslice_key key tail Hkey) as [-> ->].
  erewrite bind_ok by reflexivity.
  cbn [payload_len is_control_frame opcode].
  rewrite (unmask_xor tail key _ Hkey Htail).
  erewrite bind_ok by reflexivity.
  cbn [negb]. change (WebSocketOpcode.eqb _ _) with true.
  reflexivity.
Qed.

Lemma put_message_open w c message queue :
  ASGIConnection.state (connection c w) <> ASGIConnectionState.CLOSED ->
  ASGIConnection.app_queue (connection c w) = Some queue ->
  put_message c message w =
  (fst (modify_connection c
          (ASGIConnection.set_app_queue (Some (queue ++ [message]))) w),
   Ok tt).
Proof.
  intros Hs Hq. unfold put_message, bind, gets, ret, Ok. cbv beta iota.
  rewrite Hq.
  destruct (ASGIConnection.state (connection c w)); try reflexivity.
  now elim Hs.
Qed.

Lemma nth_list_update {A} (f : A -> A) d l : forall i,
  (i < List.length l)%nat -> nth i (list_update i f l) d = f (nth i l d).
Proof.
  induction l as [| x l IH]; intros i Hi; [cbn in Hi; lia |].
  destruct i as [| i]; [reflexivity |].
  cbn [list_update nth]. apply IH. cbn in Hi. lia.
Qed.

(** A masked Text frame whose payload has arrived: the application
    receives the payload unmasked, byte [i] with the key byte at
    [i mod 4], as text. *)
Lemma text_frame_delivered w one two key tail c queue :
  HTTPWSProtocol.parser (World.protocol w) = WebSocket_parser INITIAL_BYTES ->
  Byte.to_N one mod 16 = 1 ->
  128 <= Byte.to_N two <= 253 ->
  List.length key = 4%nat ->
  (N.to_nat (Byte.to_N two - 128) <= List.length tail)%nat ->
  HTTPWSProtocol.asgi_connection (World.protocol w) = Some c ->
  (c < List.length (World.connections w))%nat ->
  ASGIConnection.state (connection c w) <> ASGIConnectionState.CLOSED ->
  ASGIConnection.app_queue (connection c w) = Some queue ->
  let w' := fst (parse_frame (one :: two :: key ++ tail) w) in
  snd (parse_frame (one :: two :: key ++ tail) w) = Ok tt /\
  ASGIConnection.app_queue (connection c w') =
  Some (queue ++
        [websocket_receive
           (Some (decode_latin1
                    (map (fun i => byte_xor (nth i tail x00)
                                            (nth (i mod 4) key x00))
                         (seq 0 (N.to_nat (Byte.to_N two - 128))))))
           None]) /\
  World.transport w' = World.transport w.
Proof.
  intros Hp Hone Htwo Hkey Htail Hc Hlt Hs Hq w'.
  assert (Hdiv : Byte.to_N two / 128 = 1).
  { symmetry. apply N.div_unique with (r := Byte.to_N two - 128); lia. }
  assert (Hmod : Byte.to_N two mod 128 = Byte.to_N two - 128).
  { symmetry. apply N.mod_unique with (q := 1); lia. }
  assert (Hout : head_outcome one two (key ++ tail) w =
                 (fst (set_parser_state MASKING_KEY w),
                  Ok (key ++ tail,
                      Some (mkLocals (Byte.to_N two - 128) false
                                     WebSocketOpcode.TEXT)))).
  { unfold head_outcome.
    rewrite Hone, Hdiv, Hmod. cbn [WebSocketOpcode.of_value Ok].
    change (7 <? 1) with false. change (1 =? 1) with true.
    cbn [andb negb].
    assert (H2 : (Byte.to_N two - 128 <=? 125) = true)
      by (apply N.leb_le; lia).
    now rewrite H2. }
  set (message := websocket_receive _ _).
  assert (Hrun :
    parse_frame (one :: two :: key ++ tail) w =
    (fst (set_parser_state INITIAL_BYTES
            (fst (modify_connection c
                    (ASGIConnection.set_app_queue (Some (queue ++ [message])))
                    (fst (set_parser_state MASKING_KEY w))))),
     Ok tt)).
  { unfold parse_frame.
    rewrite (bind_ok _ _ _ _ _ (parser_state_eq w _ Hp)).
    rewrite len_two_more. cbn [eqb andb].
    erewrite bind_ok by (rewrite parse_initial_bytes_outcome; exact Hout).
    erewrite bind_ok by (apply parser_state_eq; reflexivity).
    cbn [eqb fst snd].
    erewrite bind_ok by reflexivity.
    erewrite bind_ok by (apply parser_state_eq; reflexivity).
    assert (Hlen : (4 <=? len (key ++ tail))%Z = true).
    { apply Z.leb_le. unfold len. rewrite length_app. lia. }
    cbn [fst snd]. rewrite Hlen. cbn [eqb andb].
    unfold parse_masking_key.
    destruct (pyslice_key key tail Hkey) as [-> ->].
    erewrite bind_ok by reflexivity.
    cbn [payload_len is_control_frame opcode].
    rewrite (unmask_xor tail key _ Hkey Htail).
    erewrite bind_ok by reflexivity.
    cbn [negb]. change (WebSocketOpcode.eqb _ _) with true. cbv iota.
    erewrite bind_ok.
    2:{ erewrite bind_ok by reflexivity.
        change (HTTPWSProtocol.asgi_connection
                  (World.protocol (fst (set_parser_state MASKING_KEY w))))
          with (HTTPWSProtocol.asgi_connection (World.protocol w)).
        rewrite Hc. apply put_message_open; [exact Hs | exact Hq]. }
    reflexivity. }
  subst w'. rewrite Hrun. cbn [fst snd].
  repeat split.
  unfold connection.
  change (World.connections _)
    with (list_update c
            (ASGIConnection.set_app_queue (Some (queue ++ [message])))
            (World.connections w)).
  now rewrite nth_list_update.
Qed.

(** C3. On byte values the [xor] helper is the bitwise exclusive or; the
    payload that the frame decoder unmasks has the announced length and at
    every index [i] the masked byte xor-ed with the key byte at [i mod 4];
    and that payload is what a masked Text frame delivers to the
    application. *)
Theorem xor_unmasking :
  (forall a k, a < 256 -> k < 256 -> xor a k = Ok (N.lxor a k)) /\
  (forall masked key payload_len,
      List.length key = 4%nat ->
      (N.to_nat payload_len <= List.length masked)%nat ->
      exists unmasked,
        unmask masked key payload_len = Ok unmasked /\
        List.length unmasked = N.to_nat payload_len /\
        forall i, (i < N.to_nat payload_len)%nat ->
          Byte.to_N (nth i unmasked x00) =
          N.lxor (Byte.to_N (nth i masked x00))
                 (Byte.to_N (nth (i mod 4) key x00))) /\
  (forall w one two key masked c queue,
      HTTPWSProtocol.parser (World.protocol w)
        = WebSocket_parser INITIAL_BYTES ->
      Byte.to_N one mod 16 = 1 ->
      128 <= Byte.to_N two <= 253 ->
      List.length key = 4%nat ->
      (N.to_nat (Byte.to_N two - 128) <= List.length masked)%nat ->
      HTTPWSProtocol.asgi_connection (World.protocol w) = Some c ->
      (c < List.length (World.connections w))%nat ->
      ASGIConnection.state (connection c w) <> ASGIConnectionState.CLOSED ->
      ASGIConnection.app_queue (connection c w) = Some queue ->
      ASGIConnection.app_queue
        (connection c (fst (parse_frame (one :: two :: key ++ masked) w))) =
      Some (queue ++
            [websocket_receive
               (Some (decode_latin1
                        (map (fun i => byte_xor (nth i masked x00)
                                                (nth (i mod 4) key x00))
                             (seq 0 (N.to_nat (Byte.to_N two - 128))))))
               None])).
Proof.
  split; [exact xor_lxor | split].
  - intros masked key payload_len Hk Hd.
    eexists. split; [apply unmask_xor; assumption |].
    split; [now rewrite length_map, length_seq |].
    intros i Hi.
    rewrite (nth_indep _ x00
               (byte_xor (nth 0 masked x00) (nth (0 mod 4) key x00)))
      by now rewrite length_map, length_seq.
    rewrite (map_nth (fun i => byte_xor (nth i masked x00)
                                        (nth (i mod 4) key x00))
                     (seq 0 (N.to_nat payload_len)) 0%nat i).
    rewrite seq_nth by exact Hi. cbn [plus].
    unfold byte_xor. apply to_N_byte_of_N, lxor_byte; apply to_N_byte.
  - intros w one two key masked c queue Hp Hone Htwo Hkey Hm Hc Hlt Hs Hq.
    apply (text_frame_delivered w one two key masked c queue); assumption.
Qed.

(** Once the connection is closed a message put on its queue is
    dropped. *)
Lemma put_message_closed w c message :
  ASGIConnection.state (connection c w) = ASGIConnectionState.CLOSED ->
  put_message c message w = (w, Ok tt).
Proof.
  intros H. unfold put_message, bind, gets, ret, Ok. cbv beta iota.
  now rewrite H.
Qed.

(** [on_connection_complete], which [send] calls on a closed connection
    only, leaves every queue as it is. *)
Lemma on_connection_complete_keeps_queues w c :
  ASGIConnection.state (connection c w) = ASGIConnectionState.CLOSED ->
  World.connections (fst (on_connection_complete c w)) = World.connections w.
Proof.
  intros H. unfold on_connection_complete.
  unfold bind at 1. unfold gets at 1. unfold Ok at 1. cbv beta iota.
  destruct (ASGIConnection.kind (connection c w)); [| reflexivity].
  rewrite (bind_ok _ _ _ _ _ (put_message_closed w c http_disconnect H)).
  unfold on_response_complete, the_protocol, bind, gets, Ok.
  cbv beta iota.
  now destruct (negb (HTTPWSProtocol.keep_alive (World.protocol w))).
Qed.
End AcceptedHeader.

(** ** The code on concrete inputs *)

(** *** The vectors of the tests *)

Example sha1_abc :
  Sha1.digest (B "abc") =
  frame_of [169; 153; 62; 54; 71; 6; 129; 106; 186; 62; 37; 113; 120; 80;
            194; 108; 156; 208; 216; 157].
Proof. vm_compute. reflexivity. Qed.

Example sha1_empty :
  Sha1.digest [] =
  frame_of [218; 57; 163; 238; 94; 107; 75; 13; 50; 85; 191; 239; 149; 96;
            24; 144; 175; 216; 7; 9].
Proof. vm_compute. reflexivity. Qed.

Example b64encode_vectors :
  Base64.b64encode (B "f") = B "Zg==" /\
  Base64.b64encode (B "fo") = B "Zm8=" /\
  Base64.b64encode (B "foo") = B "Zm9v" /\
  Base64.b64encode (B "foobar") = B "Zm9vYmFy".
Proof. vm_compute. repeat split. Qed.

(** [test_parse_headers] *)
Example test_parse_headers :
  let p := fst (parse_headers (lib := example_lib) REQUEST_HEADERS
                              HTTPParser.init) in
  HTTPParser.http_version p = Some "HTTP/1.1"%string /\
  HTTPParser.http_method p = Some "GET"%string /\
  HTTPParser.headers p
    = [(B "Host", B "localhost:8000"); (B "Connection", B "keep-alive")] /\
  HTTPParser.is_complete p = true.
Proof. vm_compute. repeat split. Qed.

(** [test_parse_headers_chunked]: one byte at a time. *)
Example test_parse_headers_chunked :
  let p := fst (feed (lib := example_lib) (map (fun b => [b]) REQUEST_HEADERS)
                     HTTPParser.init) in
  HTTPParser.http_version p = Some "HTTP/1.1"%string /\
  HTTPParser.http_method p = Some "GET"%string /\
  HTTPParser.headers p
    = [(B "Host", B "localhost:8000"); (B "Connection", B "keep-alive")] /\
  HTTPParser.is_complete p = true.
Proof. vm_compute. repeat split. Qed.

(** [test_parse_upgrade_header] and [test_parse_invalid_upgrade_header] *)
Example test_parse_upgrade_header :
  let p := fst (parse_headers (lib := example_lib) UPGRADE_REQUEST_HEADERS
                              HTTPParser.init) in
  HTTPParser.should_upgrade p = Some true /\
  HTTPParser.upgrade_header p = Some (B "Upgrade", B "websocket").
Proof. vm_compute. repeat split. Qed.

Example test_parse_invalid_upgrade_header :
  let p := fst (parse_headers (lib := example_lib)
                              INVALID_UPGRADE_REQUEST_HEADERS
                              HTTPParser.init) in
  HTTPParser.should_upgrade p = Some false /\
  HTTPParser.upgrade_header p = None.
Proof. vm_compute. repeat split. Qed.

(** A masked Text frame "hi" reaches the application as text. *)
Example text_frame_received :
  let w := fst (parse_frame (lib := example_lib)
                  (frame_of [129; 130; 1; 2; 3; 4; 105; 107]) framing_world) in
  ASGIConnection.app_queue (connection 0 w)
    = Some [websocket_connect 0; websocket_receive (Some "hi"%string) None].
Proof. vm_compute. reflexivity. Qed.

(** *** Where the code departs from the specification *)


(** C5, as stated, fails: a Text frame of 126 bytes is not given the
    16-bit length encoding, and the opcode Binary makes the encoder
    raise. *)
Lemma encoder_counterexample :
  get_frame_content (PBytes (repeat x00 126)) WebSocketOpcode.TEXT 1 0 0 0
    <> Ok (encode_frame_spec WebSocketOpcode.TEXT (repeat x00 126)) /\
  get_frame_content (PBytes []) WebSocketOpcode.BINARY 1 0 0 0
    = Raise ValueError.
Proof.
  split; [| vm_compute; reflexivity].
  intros H. vm_compute in H. discriminate H.
Qed.

(** C4, the code at the failing inputs: with a length field of 126 or 127
    the formatting of the length bytes raises [TypeError]; no payload is
    decoded, the queue of the application is as before and the parser
    stays in PAYLOAD_LENGTH. *)
Theorem extended_length_raises :
  let short := parse_frame (lib := example_lib) frame_length_126
                           framing_world in
  let long := parse_frame (lib := example_lib) frame_length_127
                          framing_world in
  snd short = Raise TypeError /\
  snd long = Raise TypeError /\
  ASGIConnection.app_queue (connection 0 (fst short))
    = Some [websocket_connect 0] /\
  ASGIConnection.app_queue (connection 0 (fst long))
    = Some [websocket_connect 0] /\
  HTTPWSProtocol.parser (World.protocol (fst short))
    = WebSocket_parser WebSocketParserState.PAYLOAD_LENGTH.
Proof. vm_compute. repeat split. Qed.

(** C6, the code at the failing input: on a Ping frame the encoder is
    called without [await], [feed_data] receives the coroutine and raises
    [TypeError]; nothing is written to the transport.  Awaited, the call
    would raise [ValueError] on the opcode Ping, and the opcode Pong gives
    the first byte 0x82. *)
Theorem ping_not_answered :
  let answered := parse_frame (lib := example_lib) ping_frame framing_world in
  snd answered = Raise TypeError /\
  World.transport (fst answered) = [] /\
  get_frame_content (PBytes (B "hi")) WebSocketOpcode.PING 1 0 0 0
    = Raise ValueError /\
  get_frame_content (PBytes (B "hi")) WebSocketOpcode.PONG 1 0 0 0
    = Ok (frame_of [130; 2; 104; 105]).
Proof. vm_compute. repeat split. Qed.

(** C7, the code at the failing input: the body of sixteen bytes is
    announced as "content-length: 10", the length in hexadecimal. *)
Theorem content_length_in_hexadecimal :
  World.transport responded_world =
  [Write (B "HTTP/1.1 200 OK" ++ CRLF
            ++ B "server: aiobufpro" ++ CRLF
            ++ B "date: Wed, 04 Nov 2026 08:00:00 GMT" ++ CRLF
            ++ B "content-type: text/html" ++ CRLF
            ++ B "content-length: 10" ++ CRLF ++ CRLF
            ++ B "0123456789abcdef" ++ CRLF)].
Proof. vm_compute. reflexivity. Qed.

(** C8, the code at the failing input: when the response is complete the
    connection is closed, and [put_message] drops the "http.disconnect"
    because of that: the queue holds the initial "http.request" only, and
    the second [receive] finds it empty. *)
Theorem disconnect_not_enqueued :
  ASGIConnection.state (connection 0 responded_world)
    = ASGIConnectionState.CLOSED /\
  ASGIConnection.app_queue (connection 0 responded_world)
    = Some [http_request []] /\
  snd ((receive 0 ;; receive 0) responded_world) = Ok None.
Proof. vm_compute. repeat split. Qed.

(** *** The theorems at concrete inputs *)

(** [xor_unmasking] at the bytes 5 and 3, at the payload "hi" masked with
    the key 1, 2, 3, 4, and at the Text frame of that payload. *)
Lemma xor_unmasking_witness :
  (5 < 256 /\ 3 < 256 /\ xor 5 3 = Ok (N.lxor 5 3)) /\
  (List.length (frame_of [1; 2; 3; 4]) = 4%nat /\
   Nat.le (N.to_nat 2) (List.length (frame_of [105; 107])) /\
   exists unmasked,
     unmask (frame_of [105; 107]) (frame_of [1; 2; 3; 4]) 2 = Ok unmasked /\
     List.length unmasked = N.to_nat 2 /\
     forall i, (i < N.to_nat 2)%nat ->
       Byte.to_N (nth i unmasked x00) =
       N.lxor (Byte.to_N (nth i (frame_of [105; 107]) x00))
              (Byte.to_N (nth (i mod 4) (frame_of [1; 2; 3; 4]) x00))) /\
  ASGIConnection.app_queue
    (connection 0
       (fst (parse_frame (lib := example_lib)
               (x81 :: x82 :: frame_of [1; 2; 3; 4] ++ frame_of [105; 107])
               framing_world))) =
  Some [websocket_connect 0; websocket_receive (Some "hi"%string) None].
Proof.
  split; [| split].
  - split; [reflexivity | split; [reflexivity |]].
    apply (proj1 (xor_unmasking (lib := example_lib)) 5 3); reflexivity.
  - split; [reflexivity | split; [cbn; lia |]].
    apply (proj1 (proj2 (xor_unmasking (lib := example_lib)))
             (frame_of [105; 107]) (frame_of [1; 2; 3; 4]) 2);
      [reflexivity | cbn; lia].
  - apply (proj2 (proj2 (xor_unmasking (lib := example_lib)))
             framing_world x81 x82 (frame_of [1; 2; 3; 4])
             (frame_of [105; 107]) 0%nat [websocket_connect 0]);
      first [ reflexivity
            | apply Nat.leb_le; reflexivity
            | split; intros H; discriminate H
            | discriminate ].
Defined.

(** [text_frame_encoding] at the payload "hi". *)
Lemma text_frame_encoding_witness :
  (List.length (B "hi") <= 125)%nat /\
  get_frame_content (PBytes (B "hi")) WebSocketOpcode.TEXT 1 0 0 0
    = Ok (encode_frame_spec WebSocketOpcode.TEXT (B "hi")) /\
  encode_frame_spec WebSocketOpcode.TEXT (B "hi")
    = x81 :: byte_of_N (N.of_nat (List.length (B "hi"))) :: B "hi" /\
  Byte.to_N (byte_of_N (N.of_nat (List.length (B "hi"))))
    = N.of_nat (List.length (B "hi")) /\
  N.of_nat (List.length (B "hi")) < 128.
Proof.
  assert (H : (List.length (B "hi") <= 125)%nat) by (cbn; lia).
  exact (conj H (text_frame_encoding (B "hi") H)).
Defined.

(** [accept_key_correct] at the key of the tests between a space and a line
    end. *)
Lemma accept_key_correct_witness :
  forallb bytes_isspace (B " ") = true /\
  forallb bytes_isspace CRLF = true /\
  trimmed (B "Y56tJpDd+hCW+vDb0qdekQ==") = true /\
  get_websocket_accept_key (B " " ++ B "Y56tJpDd+hCW+vDb0qdekQ==" ++ CRLF)
    = Base64.b64encode
        (Sha1.digest (B "Y56tJpDd+hCW+vDb0qdekQ=="
                        ++ B "258EAFA5-E914-47DA-95CA-C5AB0DC85B11")) /\
  get_websocket_accept_key (B "Y56tJpDd+hCW+vDb0qdekQ==")
    = B "J9R6HjgRj5VpgXEFRYnNh9igw2o=".
Proof.
  assert (Hl : forallb bytes_isspace (B " ") = true) by reflexivity.
  assert (Ht : forallb bytes_isspace CRLF = true) by reflexivity.
  assert (Hk : trimmed (B "Y56tJpDd+hCW+vDb0qdekQ==") = true) by reflexivity.
  exact (conj Hl (conj Ht (conj Hk
           (accept_key_correct (B " ") (B "Y56tJpDd+hCW+vDb0qdekQ==") CRLF
                                 Hl Ht Hk)))).
Defined.



(** * Further properties of the code *)

(** ** The store of connections, the buffer and the transport *)

Section Store.
Context {lib : PyLib}.

Lemma pyslice_prefix {A} (l r : list A) :
  pyslice (l ++ r) None (Some (len l)) = l.
Proof.
  unfold pyslice, len.
  rewrite norm_index_inside by (rewrite length_app; lia).
  rewrite Z.sub_0_r, Nat2Z.id. cbn [Z.to_nat skipn].
  rewrite firstn_app, Nat.sub_diag, firstn_all. cbn [firstn].
  apply app_nil_r.
Qed.

Lemma pyslice_from {A} (l : list A) n :
  (0 <= n <= len l)%Z -> pyslice l (Some n) None = skipn (Z.to_nat n) l.
Proof.
  intros H. unfold pyslice. rewrite norm_index_inside by exact H.
  apply firstn_all2. rewrite length_skipn. unfold len in H. lia.
Qed.

Lemma state_not_request s :
  s <> HTTPWSProtocolState.REQUEST ->
  HTTPWSProtocolState.eqb s HTTPWSProtocolState.REQUEST = false.
Proof. destruct s; intros H; try reflexivity. now elim H. Qed.

(** Outside the Request state [feed_data] writes the bytes it is given,
    all of them and nothing else, whatever the receive buffer held. *)
Lemma feed_data_eq w content :
  HTTPWSProtocol.state (World.protocol w) <> HTTPWSProtocolState.REQUEST ->
  feed_data (CBytes content) true w =
  (World.set_transport (World.transport w ++ [Write content])
     (World.set_protocol
        (HTTPWSProtocol.set_buffer_data
           (content ++ skipn (List.length content)
                             (HTTPWSProtocol.buffer_data (World.protocol w)))
           (World.protocol w))
        w),
   Ok tt).
Proof.
  intros Hs. apply state_not_request in Hs.
  destruct w as [[ac st pa hh sc sv cl buffer wp dw sp ka acd] cs tr ts].
  cbn in Hs.
  unfold feed_data, get_buffer, buffer_updated, the_protocol, modify_protocol,
    transport_write, bind, gets, modify, ret, Ok.
  cbn.
  destruct (len buffer <? len content)%Z eqn:E; cbn; rewrite Hs;
    rewrite pyslice_prefix.
  - apply Z.ltb_lt in E. unfold len in E.
    rewrite pyslice_from
      by (unfold len; rewrite length_app, repeat_length; lia).
    unfold len. rewrite Nat2Z.id.
    rewrite (skipn_all2 buffer) by lia.
    rewrite skipn_all2 by (rewrite length_app, repeat_length; lia).
    reflexivity.
  - apply Z.ltb_ge in E. unfold len in E.
    rewrite pyslice_from by (unfold len; lia).
    unfold len. now rewrite Nat2Z.id.
Qed.
End Store.

(** ** The frame decoder *)

Section Decoder.
Context {lib : PyLib}.
Import WebSocketParserState.

(** X1. [get_frame_values] never fails on a byte: with the head indexes it
    gives FIN, RSV1, RSV2, RSV3 (each 0 or 1) and the opcode (below 16), with
    the mask indexes the mask bit and the 7-bit length, and in both cases
    the fields put back together are the byte. *)
Theorem frame_values_recompose (b : byte) :
  (exists fin rsv1 rsv2 rsv3 opcode,
     get_frame_values (Byte.to_N b) HEAD_FRAME_INDEXES
       = Ok [fin; rsv1; rsv2; rsv3; opcode] /\
     fin < 2 /\ rsv1 < 2 /\ rsv2 < 2 /\ rsv3 < 2 /\ opcode < 16 /\
     128 * fin + 64 * rsv1 + 32 * rsv2 + 16 * rsv3 + opcode = Byte.to_N b) /\
  (exists mask payload_len,
     get_frame_values (Byte.to_N b) MASK_AND_PAYLOAD_LEN_FRAME_INDEXES
       = Ok [mask; payload_len] /\
     mask < 2 /\ payload_len < 128 /\
     128 * mask + payload_len = Byte.to_N b).
Proof.
  split.
  - rewrite head_values. do 5 eexists. split; [reflexivity |].
    destruct b; vm_compute; repeat split.
  - rewrite mask_and_len_values. do 2 eexists. split; [reflexivity |].
    destruct b; vm_compute; repeat split.
Qed.

Lemma head_outcome_same_fields one one' two rest w :
  Byte.to_N one / 128 = Byte.to_N one' / 128 ->
  Byte.to_N one mod 16 = Byte.to_N one' mod 16 ->
  head_outcome one two rest w = head_outcome one' two rest w.
Proof. intros Hfin Hop. unfold head_outcome. now rewrite Hfin, Hop. Qed.

(** X2. The decoder never looks at the reserved bits: two frames whose
    first bytes have the same FIN bit and the same opcode, and that are
    otherwise the same, have the same effect and the same outcome. *)
Theorem reserved_bits_ignored (w : World.t) (one one' two : byte)
        (rest : bytes) :
  HTTPWSProtocol.parser (World.protocol w) = WebSocket_parser INITIAL_BYTES ->
  Byte.to_N one / 128 = Byte.to_N one' / 128 ->
  Byte.to_N one mod 16 = Byte.to_N one' mod 16 ->
  parse_frame (one :: two :: rest) w = parse_frame (one' :: two :: rest) w.
Proof.
  intros Hp Hfin Hop. unfold parse_frame.
  rewrite !(bind_ok _ _ _ _ _ (parser_state_eq w _ Hp)).
  rewrite !len_two_more. cbn [eqb andb].
  unfold bind at 1 5.
  rewrite !parse_initial_bytes_outcome.
  now rewrite (head_outcome_same_fields one one' two rest w Hfin Hop).
Qed.

(** Entering with the state left by an earlier call: the local names of
    the first block are not assigned. *)
Lemma parse_frame_stale_masking_key w data :
  HTTPWSProtocol.parser (World.protocol w) = WebSocket_parser MASKING_KEY ->
  parse_frame data w =
  (w, if (4 <=? len data)%Z then Raise UnboundLocalError else Ok tt).
Proof.
  intros Hp. unfold parse_frame.
  rewrite (bind_ok _ _ _ _ _ (parser_state_eq w _ Hp)). cbn [eqb andb].
  erewrite bind_ok by reflexivity.
  rewrite (bind_ok _ _ _ _ _ (parser_state_eq w _ Hp)). cbn [eqb].
  erewrite bind_ok by reflexivity.
  rewrite (bind_ok _ _ _ _ _ (parser_state_eq w _ Hp)). cbn [eqb andb fst snd].
  destruct (4 <=? len data)%Z; reflexivity.
Qed.

Lemma parse_frame_stale_payload_length w data :
  HTTPWSProtocol.parser (World.protocol w) = WebSocket_parser PAYLOAD_LENGTH ->
  parse_frame data w = (w, Raise UnboundLocalError).
Proof.
  intros Hp. unfold parse_frame.
  rewrite (bind_ok _ _ _ _ _ (parser_state_eq w _ Hp)). cbn [eqb andb].
  erewrite bind_ok by reflexivity.
  rewrite (bind_ok _ _ _ _ _ (parser_state_eq w _ Hp)). cbn [eqb].
  reflexivity.
Qed.

(** X3. A frame whose bytes come in two reads is never decoded.  When the
    two header bytes are accepted and fewer than four bytes follow them, the
    call returns and leaves the parser in MASKING_KEY (with a length field of
    126 or 127 it raises, see C4); any later call with four bytes or more
    then raises [UnboundLocalError] and changes nothing, and a later call
    with fewer returns and changes nothing. *)
Theorem split_frame_never_decoded (w : World.t) (one two : byte)
        (rest later : bytes) :
  HTTPWSProtocol.parser (World.protocol w) = WebSocket_parser INITIAL_BYTES ->
  frame_head_error one two = None ->
  Byte.to_N two mod 128 <= 125 ->
  (List.length rest < 4)%nat ->
  let w' := fst (set_parser_state MASKING_KEY w) in
  parse_frame (one :: two :: rest) w = (w', Ok tt) /\
  parse_frame later w' =
  (w', if (4 <=? len later)%Z then Raise UnboundLocalError else Ok tt).
Proof.
  intros Hp Hhead Hlen Hrest w'. split.
  - destruct (head_outcome_accepted one two rest w Hhead) as (op & _ & Hout).
    apply N.leb_le in Hlen. rewrite Hlen in Hout.
    unfold parse_frame.
    rewrite (bind_ok _ _ _ _ _ (parser_state_eq w _ Hp)).
    rewrite len_two_more. cbn [eqb andb].
    erewrite bind_ok by (rewrite parse_initial_bytes_outcome; exact Hout).
    erewrite bind_ok by (apply parser_state_eq; reflexivity).
    cbn [eqb fst snd].
    erewrite bind_ok by reflexivity.
    erewrite bind_ok by (apply parser_state_eq; reflexivity).
    assert (Hshort : (4 <=? len rest)%Z = false).
    { apply Z.leb_gt. unfold len. lia. }
    cbn [fst snd eqb]. rewrite Hshort. reflexivity.
  - apply parse_frame_stale_masking_key. reflexivity.
Qed.

(** An accepted header with a 7-bit length and a key of four bytes: the
    call is the last block of [parse_frame], run on what follows the
    header. *)
Lemma parse_frame_accepted w one two key tail :
  HTTPWSProtocol.parser (World.protocol w) = WebSocket_parser INITIAL_BYTES ->
  frame_head_error one two = None ->
  Byte.to_N two mod 128 <= 125 ->
  List.length key = 4%nat ->
  exists op,
    WebSocketOpcode.of_value (Byte.to_N one mod 16) = Ok op /\
    parse_frame (one :: two :: key ++ tail) w =
    parse_masking_key (key ++ tail)
      (Some (mkLocals (Byte.to_N two mod 128) (7 <? Byte.to_N one mod 16) op))
      (fst (set_parser_state MASKING_KEY w)).
Proof.
  intros Hp Hhead Hlen Hkey.
  destruct (head_outcome_accepted one two (key ++ tail) w Hhead)
    as (op & Hop & Hout).
  apply N.leb_le in Hlen. rewrite Hlen in Hout.
  exists op. split; [exact Hop |].
  unfold parse_frame.
  rewrite (bind_ok _ _ _ _ _ (parser_state_eq w _ Hp)).
  rewrite len_two_more. cbn [eqb andb].
  erewrite bind_ok by (rewrite parse_initial_bytes_outcome; exact Hout).
  erewrite bind_ok by (apply parser_state_eq; reflexivity).
  cbn [eqb fst snd].
  erewrite bind_ok by reflexivity.
  erewrite bind_ok by (apply parser_state_eq; reflexivity).
  assert (Hfour : (4 <=? len (key ++ tail))%Z = true).
  { apply Z.leb_le. unfold len. rewrite length_app. lia. }
  cbn [fst snd]. rewrite Hfour. reflexivity.
Qed.

Lemma mapM_raise {A C} (f : A -> result C) e l1 x l2 :
  (forall y, In y l1 -> exists v, f y = Ok v) ->
  f x = Raise e ->
  mapM f (l1 ++ x :: l2) = Raise e.
Proof.
  intros Hok Hx. induction l1 as [| y l1 IH]; cbn [app mapM].
  - now rewrite Hx.
  - destruct (Hok y (or_introl eq_refl)) as [v ->]. cbn [rbind Ok].
    rewrite IH by (intros z Hz; apply Hok; now right). reflexivity.
Qed.

Lemma byte_at_outside data i :
  (List.length data <= i)%nat -> byte_at data i = Raise IndexError.
Proof.
  intros H. unfold byte_at.
  now rewrite (proj2 (nth_error_None data i) H).
Qed.

Lemma unmask_short data masking_key payload_len :
  List.length masking_key = 4%nat ->
  (List.length data < N.to_nat payload_len)%nat ->
  unmask data masking_key payload_len = Raise IndexError.
Proof.
  intros Hk Hd. unfold unmask.
  replace (N.to_nat payload_len)
    with (List.length data + S (N.to_nat payload_len - S (List.length data)))%nat
    by lia.
  rewrite seq_app. cbn [seq Nat.add].
  erewrite mapM_raise; [reflexivity | |].
  - intros i Hi. apply in_seq in Hi.
    rewrite byte_at_nth by lia.
    rewrite byte_at_nth
      by (rewrite Hk; apply Nat.mod_upper_bound; discriminate).
    cbn [rbind Ok]. eexists. apply xor_lxor; apply to_N_byte.
  - rewrite byte_at_outside by lia. reflexivity.
Qed.

(** X4. A frame whose header is accepted and whose payload has not all
    arrived with it (four key bytes, then fewer bytes than the length field
    says) raises [IndexError], whatever the opcode; the parser is left in
    MASKING_KEY and nothing else of the world changes. *)
Theorem truncated_payload_raises (w : World.t) (one two : byte)
        (key tail : bytes) :
  HTTPWSProtocol.parser (World.protocol w) = WebSocket_parser INITIAL_BYTES ->
  frame_head_error one two = None ->
  Byte.to_N two mod 128 <= 125 ->
  List.length key = 4%nat ->
  (List.length tail < N.to_nat (Byte.to_N two mod 128))%nat ->
  parse_frame (one :: two :: key ++ tail) w =
  (fst (set_parser_state MASKING_KEY w), Raise IndexError).
Proof.
  intros Hp Hhead Hlen Hkey Htail.
  destruct (parse_frame_accepted w one two key tail Hp Hhead Hlen Hkey)
    as (op & _ & ->).
  unfold parse_masking_key.
  destruct (pyslice_key key tail Hkey) as [-> ->].
  erewrite bind_ok by reflexivity.
  cbn [payload_len].
  rewrite (unmask_short tail key _ Hkey Htail).
  reflexivity.
Qed.

(** X5. A masked Binary frame is never delivered: once its payload has
    arrived the decoder raises [AttributeError] (line 309 names a member
    [WebSocketOpcode.BYTES] that the enumeration does not have); the parser
    is left in MASKING_KEY, no message is queued and nothing is written. *)
Theorem binary_frame_raises (w : World.t) (one two : byte)
        (key tail : bytes) :
  HTTPWSProtocol.parser (World.protocol w) = WebSocket_parser INITIAL_BYTES ->
  Byte.to_N one mod 16 = 2 ->
  128 <= Byte.to_N two <= 253 ->
  List.length key = 4%nat ->
  (N.to_nat (Byte.to_N two - 128) <= List.length tail)%nat ->
  parse_frame (one :: two :: key ++ tail) w =
  (fst (set_parser_state MASKING_KEY w), Raise AttributeError).
Proof.
  intros Hp Hone Htwo Hkey Htail.
  assert (Hdiv : Byte.to_N two / 128 = 1).
  { symmetry. apply N.div_unique with (r := Byte.to_N two - 128); lia. }
  assert (Hmod : Byte.to_N two mod 128 = Byte.to_N two - 128).
  { symmetry. apply N.mod_unique with (q := 1); lia. }
  assert (Hhead : frame_head_error one two = None).
  { unfold frame_head_error. rewrite Hone, Hdiv. reflexivity. }
  assert (Hlen : Byte.to_N two mod 128 <= 125) by lia.
  destruct (parse_frame_accepted w one two key tail Hp Hhead Hlen Hkey)
    as (op & Hop & ->).
  rewrite Hone in Hop. injection Hop as <-.
  rewrite Hone, Hmod.
  unfold parse_masking_key.
  destruct (pyslice_key key tail Hkey) as [-> ->].
  erewrite bind_ok by reflexivity.
  cbn [payload_len is_control_frame opcode].
  rewrite (unmask_xor tail key _ Hkey Htail).
  erewrite bind_ok by reflexivity.
  reflexivity.
Qed.

(** X6. A masked Close or Pong frame (FIN set) whose payload has arrived is
    consumed without any effect: the parser is back in INITIAL_BYTES, nothing
    is written to the transport (no Close frame is echoed, the transport is
    not closed), the connections and their queues are as before. *)
Theorem close_and_pong_consumed (w : World.t) (one two : byte)
        (key tail : bytes) :
  HTTPWSProtocol.parser (World.protocol w) = WebSocket_parser INITIAL_BYTES ->
  Byte.to_N one = 136 \/ Byte.to_N one = 138 ->
  128 <= Byte.to_N two <= 253 ->
  List.length key = 4%nat ->
  (N.to_nat (Byte.to_N two - 128) <= List.length tail)%nat ->
  let run := parse_frame (one :: two :: key ++ tail) w in
  snd run = Ok tt /\
  HTTPWSProtocol.parser (World.protocol (fst run))
    = WebSocket_parser INITIAL_BYTES /\
  World.transport (fst run) = World.transport w /\
  World.connections (fst run) = World.connections w /\
  World.tasks (fst run) = World.tasks w.
Proof.
  intros Hp Hone Htwo Hkey Htail run.
  assert (Hdiv : Byte.to_N two / 128 = 1).
  { symmetry. apply N.div_unique with (r := Byte.to_N two - 128); lia. }
  assert (Hmod : Byte.to_N two mod 128 = Byte.to_N two - 128).
  { symmetry. apply N.mod_unique with (q := 1); lia. }
  assert (Hhead : frame_head_error one two = None).
  { unfold frame_head_error. rewrite Hdiv, Hmod.
    assert (H1 : (125 <? Byte.to_N two - 128) = false)
      by (apply N.ltb_ge; lia).
    rewrite H1. destruct Hone as [-> | ->]; reflexivity. }
  assert (Hlen : Byte.to_N two mod 128 <= 125) by lia.
  destruct (parse_frame_accepted w one two key tail Hp Hhead Hlen Hkey)
    as (op & Hop & Hrun).
  assert (Hend : run = (fst (set_parser_state INITIAL_BYTES
                               (fst (set_parser_state MASKING_KEY w))),
                        Ok tt)).
  { subst run. rewrite Hrun. rewrite Hmod.
    unfold parse_masking_key.
    destruct (pyslice_key key tail Hkey) as [-> ->].
    erewrite bind_ok by reflexivity.
    cbn [payload_len is_control_frame opcode].
    rewrite (unmask_xor tail key _ Hkey Htail).
    erewrite bind_ok by reflexivity.
    destruct Hone as [Hone | Hone]; rewrite Hone in Hop |- *;
      injection Hop as <-; reflexivity. }
  rewrite Hend. cbn [fst snd]. repeat split.
Qed.

Lemma nth_app_inside {A} (l r : list A) d i :
  (i < List.length l)%nat -> nth i (l ++ r) d = nth i l d.
Proof. intros H. now rewrite app_nth1. Qed.

(** X7. One read holds one frame at most: whatever follows the payload of
    an accepted frame in the same read (a second frame, say) is dropped
    unread, the effect and the outcome are those of the frame alone. *)
Theorem bytes_after_frame_dropped (w : World.t) (one two : byte)
        (key payload extra : bytes) :
  HTTPWSProtocol.parser (World.protocol w) = WebSocket_parser INITIAL_BYTES ->
  frame_head_error one two = None ->
  Byte.to_N two mod 128 <= 125 ->
  List.length key = 4%nat ->
  List.length payload = N.to_nat (Byte.to_N two mod 128) ->
  parse_frame (one :: two :: key ++ payload ++ extra) w =
  parse_frame (one :: two :: key ++ payload) w.
Proof.
  intros Hp Hhead Hlen Hkey Hpay.
  destruct (parse_frame_accepted w one two key (payload ++ extra)
              Hp Hhead Hlen Hkey) as (op & Hop & ->).
  destruct (parse_frame_accepted w one two key payload
              Hp Hhead Hlen Hkey) as (op' & Hop' & ->).
  rewrite Hop in Hop'. injection Hop' as <-.
  unfold parse_masking_key.
  destruct (pyslice_key key (payload ++ extra) Hkey) as [-> ->].
  destruct (pyslice_key key payload Hkey) as [-> ->].
  cbn [local bind ret]. unfold Ok. cbv beta iota. cbn [payload_len].
  rewrite (unmask_xor (payload ++ extra) key)
    by (rewrite ?length_app; lia).
  rewrite (unmask_xor payload key) by lia.
  erewrite (map_ext_in _ (fun i => byte_xor (nth i payload x00)
                                            (nth (i mod 4) key x00))).
  - reflexivity.
  - intros i Hi. apply in_seq in Hi.
    rewrite nth_app_inside by lia. reflexivity.
Qed.

End Decoder.

(** ** The frame encoder *)

Section Encoder.
Context {lib : PyLib}.
Import WebSocketParserState.

(** On bytes the encoder does not encode the payload first. *)
Lemma get_frame_content_bytes payload opcode fin rsv1 rsv2 rsv3 :
  get_frame_content (PBytes payload) opcode fin rsv1 rsv2 rsv3 =
  (header <- int_base2 (numeral 10 fin ++ numeral 10 rsv1 ++ numeral 10 rsv2
                          ++ numeral 10 rsv3
                          ++ format_04 (WebSocketOpcode.value opcode)) ;;
   head <- bytes_of_ints [header; N.of_nat (List.length payload)] ;;
   Ok (head ++ payload))%res.
Proof. reflexivity. Qed.

(** X8. What the encoder gives for every opcode and every payload, with FIN
    set and the reserved bits clear.  The opcode is formatted in decimal
    ([:04]) and the result read in base 2: Text gives the first byte 0x81,
    Pong (10, formatted 0010) gives 0x82, the first byte of a Binary frame,
    and Binary, Close and Ping raise [ValueError].  The length is one byte
    holding the payload length as it is, so a payload of more than 255 bytes
    raises [ValueError]. *)
Theorem encoder_outcome (opcode : WebSocketOpcode.t) (payload : bytes) :
  let n := N.of_nat (List.length payload) in
  get_frame_content (PBytes payload) opcode 1 0 0 0 =
  match opcode with
  | WebSocketOpcode.TEXT =>
      if n <=? 255 then Ok (x81 :: byte_of_N n :: payload)
      else Raise ValueError
  | WebSocketOpcode.PONG =>
      if n <=? 255 then Ok (x82 :: byte_of_N n :: payload)
      else Raise ValueError
  | _ => Raise ValueError
  end.
Proof.
  intros n. rewrite get_frame_content_bytes. fold n.
  destruct opcode;
    try (change (int_base2 _) with (Raise (A := N) ValueError); reflexivity).
  - change (int_base2 _) with (Ok (A := N) 129). cbn [rbind Ok].
    cbn [bytes_of_ints]. change (Byte.of_N 129) with (Some x81).
    destruct (n <=? 255) eqn:E.
    + apply N.leb_le in E. rewrite byte_of_N_small by lia. reflexivity.
    + apply N.leb_gt in E.
      rewrite (proj2 (Byte.of_N_None_iff n)) by lia. reflexivity.
  - change (int_base2 _) with (Ok (A := N) 130). cbn [rbind Ok].
    cbn [bytes_of_ints]. change (Byte.of_N 130) with (Some x82).
    destruct (n <=? 255) eqn:E.
    + apply N.leb_le in E. rewrite byte_of_N_small by lia. reflexivity.
    + apply N.leb_gt in E.
      rewrite (proj2 (Byte.of_N_None_iff n)) by lia. reflexivity.
Qed.

(** X9. The decoder refuses the frames of the encoder: the Text frame that
    [get_frame_content] builds for a payload of at most 127 bytes has the
    mask bit clear, and [parse_frame] answers it with the protocol error
    "Frame mask missing." and changes nothing. *)
Theorem decoder_refuses_encoded_frame (w : World.t) (payload : bytes) :
  HTTPWSProtocol.parser (World.protocol w) = WebSocket_parser INITIAL_BYTES ->
  (List.length payload <= 127)%nat ->
  exists frame,
    get_frame_content (PBytes payload) WebSocketOpcode.TEXT 1 0 0 0
      = Ok frame /\
    parse_frame frame w =
    (w, Raise (WebSocketError PROTOCOL_ERROR "Frame mask missing.")).
Proof.
  intros Hp Hlen.
  set (n := N.of_nat (List.length payload)).
  assert (Hn : n < 128) by (subst n; lia).
  exists (x81 :: byte_of_N n :: payload). split.
  - rewrite get_frame_content_bytes. fold n.
    change (int_base2 _) with (Ok (A := N) 129). cbn [rbind Ok].
    cbn [bytes_of_ints]. change (Byte.of_N 129) with (Some x81).
    rewrite byte_of_N_small by lia. reflexivity.
  - apply parse_frame_head_error; [exact Hp |].
    apply head_outcome_error.
    unfold frame_head_error.
    rewrite to_N_byte_of_N by lia.
    rewrite (N.div_small n 128) by lia.
    reflexivity.
Qed.

End Encoder.

(** ** Instances of the properties above on the frames of the examples *)

(** A closed fact about concrete bytes, numbers and worlds. *)
Ltac closed_fact :=
  first [ reflexivity
        | apply Nat.leb_le; reflexivity
        | apply Nat.ltb_lt; reflexivity
        | apply N.leb_le; reflexivity
        | split; apply N.leb_le; reflexivity
        | left; reflexivity
        | right; reflexivity
        | discriminate ].

Lemma reserved_bits_ignored_witness :
  parse_frame (lib := example_lib)
    (x81 :: x82 :: frame_of [1; 2; 3; 4; 105; 107]) framing_world =
  parse_frame (lib := example_lib)
    (xf1 :: x82 :: frame_of [1; 2; 3; 4; 105; 107]) framing_world.
Proof.
  apply (reserved_bits_ignored (lib := example_lib) framing_world x81 xf1 x82
           (frame_of [1; 2; 3; 4; 105; 107])); closed_fact.
Defined.

Lemma split_frame_never_decoded_witness :
  frame_head_error x81 x82 = None /\
  parse_frame (lib := example_lib) (x81 :: x82 :: frame_of [1; 2])
              framing_world
    = (fst (set_parser_state WebSocketParserState.MASKING_KEY framing_world),
       Ok tt) /\
  parse_frame (lib := example_lib) (frame_of [3; 4; 105; 107])
              (fst (set_parser_state WebSocketParserState.MASKING_KEY
                      framing_world))
    = (fst (set_parser_state WebSocketParserState.MASKING_KEY framing_world),
       Raise UnboundLocalError).
Proof.
  split; [reflexivity |].
  apply (split_frame_never_decoded (lib := example_lib) framing_world
           x81 x82 (frame_of [1; 2]) (frame_of [3; 4; 105; 107]));
    closed_fact.
Defined.

Lemma truncated_payload_raises_witness :
  frame_head_error x81 x85 = None /\
  parse_frame (lib := example_lib)
    (x81 :: x85 :: frame_of [1; 2; 3; 4] ++ frame_of [105; 107])
    framing_world
  = (fst (set_parser_state WebSocketParserState.MASKING_KEY framing_world),
     Raise IndexError).
Proof.
  split; [reflexivity |].
  apply (truncated_payload_raises (lib := example_lib) framing_world
           x81 x85 (frame_of [1; 2; 3; 4]) (frame_of [105; 107]));
    closed_fact.
Defined.

Lemma binary_frame_raises_witness :
  parse_frame (lib := example_lib)
    (x82 :: x82 :: frame_of [1; 2; 3; 4] ++ frame_of [105; 107])
    framing_world
  = (fst (set_parser_state WebSocketParserState.MASKING_KEY framing_world),
     Raise AttributeError).
Proof.
  apply (binary_frame_raises (lib := example_lib) framing_world
           x82 x82 (frame_of [1; 2; 3; 4]) (frame_of [105; 107]));
    closed_fact.
Defined.

Lemma close_and_pong_consumed_witness :
  Byte.to_N x88 = 136 /\
  snd (parse_frame (lib := example_lib)
         (x88 :: x82 :: frame_of [1; 2; 3; 4] ++ frame_of [2; 234])
         framing_world) = Ok tt /\
  World.transport
    (fst (parse_frame (lib := example_lib)
            (x88 :: x82 :: frame_of [1; 2; 3; 4] ++ frame_of [2; 234])
            framing_world))
  = World.transport framing_world.
Proof.
  split; [reflexivity |].
  destruct (close_and_pong_consumed (lib := example_lib) framing_world
              x88 x82 (frame_of [1; 2; 3; 4]) (frame_of [2; 234]))
    as (Hok & _ & Htr & _); try closed_fact.
  exact (conj Hok Htr).
Defined.

Lemma bytes_after_frame_dropped_witness :
  frame_head_error x81 x82 = None /\
  parse_frame (lib := example_lib)
    (x81 :: x82 :: frame_of [1; 2; 3; 4] ++ frame_of [105; 107]
         ++ frame_of [129; 130; 1; 2; 3; 4; 105; 107])
    framing_world =
  parse_frame (lib := example_lib)
    (x81 :: x82 :: frame_of [1; 2; 3; 4] ++ frame_of [105; 107])
    framing_world.
Proof.
  split; [reflexivity |].
  apply (bytes_after_frame_dropped (lib := example_lib) framing_world
           x81 x82 (frame_of [1; 2; 3; 4]) (frame_of [105; 107])
           (frame_of [129; 130; 1; 2; 3; 4; 105; 107]));
    closed_fact.
Defined.

Lemma decoder_refuses_encoded_frame_witness :
  exists frame,
    get_frame_content (PBytes (B "hi")) WebSocketOpcode.TEXT 1 0 0 0
      = Ok frame /\
    parse_frame (lib := example_lib) frame framing_world =
    (framing_world,
     Raise (WebSocketError PROTOCOL_ERROR "Frame mask missing.")).
Proof.
  apply (decoder_refuses_encoded_frame (lib := example_lib) framing_world
           (B "hi")); closed_fact.
Defined.

(** ** The header parser *)

Section Headers.
Context {lib : PyLib}.
Import HTTPParserState.

Ltac keeps_step :=
  first
    [ apply preserves_ret | apply preserves_raise | apply preserves_lift
    | apply preserves_gets
    | apply preserves_modify; intros ? Hkeep; exact Hkeep
    | apply preserves_bind; [| intros ?]
    | match goal with
      | |- preserves _ (if ?c then _ else _) => destruct c
      | |- preserves _ (match ?x with _ => _ end) => destruct x
      end ].

Lemma parse_byte_keeps_raw r b :
  preserves (fun p => HTTPParser.raw_headers p = r) (parse_byte b).
Proof.
  unfold parse_byte, finish_header, append_next_header, parse_request_line.
  repeat keeps_step.
Qed.

Lemma parse_loop_keeps_raw r data range :
  forall n,
    preserves (fun p => HTTPParser.raw_headers p = r)
              (parse_loop data range n).
Proof.
  induction range as [| i range IH]; intros n; cbn [parse_loop].
  - apply preserves_ret.
  - apply preserves_bind; [apply parse_byte_keeps_raw | intros _; apply IH].
Qed.

Lemma parse_headers_raw data p :
  HTTPParser.raw_headers (fst (parse_headers data p))
  = HTTPParser.raw_headers p ++ data.
Proof.
  unfold parse_headers.
  erewrite bind_ok by reflexivity.
  apply (preserves_bind (fun q => HTTPParser.raw_headers q
                                  = HTTPParser.raw_headers p ++ data)).
  - apply preserves_gets.
  - intros pending. apply preserves_bind.
    + apply parse_loop_keeps_raw.
    + intros n. repeat keeps_step.
  - reflexivity.
Qed.

(** X10. [raw_headers] is the log of what was fed: a call of
    [parse_headers] appends its argument to it before anything else, so also
    when the call raises; after slices fed without an exception it is the
    former value followed by the slices in order. *)
Theorem raw_headers_accumulate :
  (forall data p,
     HTTPParser.raw_headers (fst (parse_headers data p))
     = HTTPParser.raw_headers p ++ data) /\
  (forall slices p,
     snd (feed slices p) = Ok tt ->
     HTTPParser.raw_headers (fst (feed slices p))
     = HTTPParser.raw_headers p ++ List.concat slices).
Proof.
  split; [exact parse_headers_raw |].
  induction slices as [| data rest IH]; intros p Hok.
  - cbn. now rewrite app_nil_r.
  - cbn [feed List.concat] in *. unfold bind in *.
    pose proof (parse_headers_raw data p) as Hraw.
    destruct (parse_headers data p) as [p1 [e | u]]; cbn [fst snd] in *.
    + discriminate Hok.
    + rewrite (IH p1 Hok), Hraw. now rewrite app_assoc.
Qed.

Lemma parse_byte_keeps_pending d b :
  preserves (fun p => HTTPParser.parsing_data p = d) (parse_byte b).
Proof.
  unfold parse_byte, finish_header, append_next_header, parse_request_line.
  repeat keeps_step.
Qed.

(** The counter of the loop: one less for every index of the range. *)
Lemma parse_loop_counter d data range :
  forall n p,
    HTTPParser.parsing_data p = d ->
    HTTPParser.parsing_data (fst (parse_loop data range n p)) = d /\
    forall m, snd (parse_loop data range n p) = Ok m ->
              m = (n - len range)%Z.
Proof.
  induction range as [| i range IH]; intros n p Hp; cbn [parse_loop].
  - split; [exact Hp |]. intros m [= <-]. unfold len. cbn. lia.
  - unfold bind.
    pose proof (parse_byte_keeps_pending d
                  (pyslice data (Some (Z.of_nat i))
                           (Some (Z.of_nat i + 1)%Z)) p Hp) as H1.
    destruct (parse_byte _ p) as [p1 [e | u]]; cbn [fst snd] in *.
    + split; [exact H1 | discriminate].
    + destruct (IH (n - 1)%Z p1 H1) as [H2 H3].
      split; [exact H2 |]. intros m Hm. rewrite (H3 m Hm).
      unfold len. cbn [List.length]. lia.
Qed.

(** X11. [parse_headers] never assigns [parsing_data]: the loop counts
    [data_len] down to 0 (or raises), so the test [data_len > 0] after
    it fails, and the data left by a slice that ends inside a line is kept
    in [parsing_header] only.  With [__init__] this makes the branch of
    lines 103-104 dead code. *)
Theorem parsing_data_never_assigned :
  (forall data p,
     HTTPParser.parsing_data (fst (parse_headers data p))
     = HTTPParser.parsing_data p) /\
  (forall slices,
     HTTPParser.parsing_data (fst (feed slices HTTPParser.init)) = None).
Proof.
  assert (Hone : forall data p,
             HTTPParser.parsing_data (fst (parse_headers data p))
             = HTTPParser.parsing_data p).
  { intros data p. unfold parse_headers.
    erewrite bind_ok by reflexivity.
    erewrite bind_ok by reflexivity.
    set (p0 := HTTPParser.set_raw_headers _ p).
    change (HTTPParser.parsing_data p0) with (HTTPParser.parsing_data p).
    set (all := match HTTPParser.parsing_data p with
                | Some pending => pending ++ data
                | None => data
                end).
    destruct (parse_loop_counter (HTTPParser.parsing_data p) all
                (seq 0 (Z.to_nat (len all))) (len all) p0 eq_refl)
      as [Hkeep Hcount].
    unfold bind.
    destruct (parse_loop all _ (len all) p0) as [p1 [e | m]];
      cbn [fst snd] in *; [exact Hkeep |].
    rewrite (Hcount m eq_refl).
    unfold len at 2. rewrite length_seq.
    unfold len. rewrite Nat2Z.id, Z.sub_diag. exact Hkeep. }
  split; [exact Hone |].
  intros slices.
  assert (H : forall p, HTTPParser.parsing_data p = None ->
                        HTTPParser.parsing_data (fst (feed slices p)) = None).
  { induction slices as [| data rest IH]; intros p Hp; [exact Hp |].
    cbn [feed]. unfold bind.
    pose proof (Hone data p) as H1. rewrite Hp in H1.
    destruct (parse_headers data p) as [p1 [e | u]]; cbn [fst] in *;
      [exact H1 | apply IH, H1]. }
  apply H. reflexivity.
Qed.

Lemma bytes_eqb_neq a b : a <> b -> bytes_eqb a b = false.
Proof.
  intros H. unfold bytes_eqb.
  destruct (list_eq_dec Byte.byte_eq_dec a b); [contradiction | reflexivity].
Qed.

Lemma bytes_eqb_refl a : bytes_eqb a a = true.
Proof.
  unfold bytes_eqb.
  destruct (list_eq_dec Byte.byte_eq_dec a a); [reflexivity | contradiction].
Qed.

Lemma free_of_cons b x l :
  free_of b (x :: l) = true -> x <> b /\ free_of b l = true.
Proof.
  unfold free_of. cbn [forallb]. intros H.
  apply andb_true_iff in H. destruct H as [Hx Hl]. split; [| exact Hl].
  intros ->. now rewrite (Byte.byte_dec_lb eq_refl) in Hx.
Qed.

(** A byte that is neither the colon nor the line feed joins the line
    being read, in every state. *)
Lemma parse_byte_plain b p :
  b <> x3a -> b <> x0a ->
  parse_byte [b] p =
  (HTTPParser.set_parsing_header (HTTPParser.parsing_header p ++ [b]) p,
   Ok tt).
Proof.
  intros Hc Hn. unfold parse_byte, bind, gets, modify, ret, Ok.
  cbv beta iota. rewrite (bytes_eqb_single_false b x0a Hn).
  change (B ":") with [x3a].
  rewrite (bytes_eqb_single_false b x3a Hc). reflexivity.
Qed.

(** After the first colon of a header line every byte but the line feed
    joins the line. *)
Lemma parse_byte_value b p sep :
  HTTPParser.parsing_sep_pos p = Some sep -> b <> x0a ->
  parse_byte [b] p =
  (HTTPParser.set_parsing_header (HTTPParser.parsing_header p ++ [b]) p,
   Ok tt).
Proof.
  intros Hs Hn. unfold parse_byte, bind, gets, modify, ret, Ok.
  cbv beta iota. rewrite (bytes_eqb_single_false b x0a Hn).
  destruct (bytes_eqb [b] (B ":")); [| reflexivity].
  rewrite Hs. reflexivity.
Qed.

Lemma scan_plain seg : forall p,
  free_of x3a seg = true -> free_of x0a seg = true ->
  scan seg p =
  (HTTPParser.set_parsing_header (HTTPParser.parsing_header p ++ seg) p,
   Ok tt).
Proof.
  induction seg as [| b seg IH]; intros p Hc Hn.
  - cbn [scan]. rewrite app_nil_r. now destruct p.
  - apply free_of_cons in Hc. apply free_of_cons in Hn.
    destruct Hc as [Hc Hc'], Hn as [Hn Hn'].
    cbn [scan].
    rewrite (bind_ok _ _ _ _ _ (parse_byte_plain b p Hc Hn)).
    rewrite IH by assumption.
    cbn [HTTPParser.parsing_header HTTPParser.set_parsing_header].
    now rewrite <- app_assoc.
Qed.

Lemma scan_value seg : forall p sep,
  HTTPParser.parsing_sep_pos p = Some sep -> free_of x0a seg = true ->
  scan seg p =
  (HTTPParser.set_parsing_header (HTTPParser.parsing_header p ++ seg) p,
   Ok tt).
Proof.
  induction seg as [| b seg IH]; intros p sep Hs Hn.
  - cbn [scan]. rewrite app_nil_r. now destruct p.
  - apply free_of_cons in Hn. destruct Hn as [Hn Hn'].
    cbn [scan].
    rewrite (bind_ok _ _ _ _ _ (parse_byte_value b p sep Hs Hn)).
    rewrite (IH _ sep) by (try assumption; exact Hs).
    cbn [HTTPParser.parsing_header HTTPParser.set_parsing_header].
    now rewrite <- app_assoc.
Qed.

Lemma pyslice_middle {A} (a m b : list A) :
  pyslice (a ++ m ++ b) (Some (len a)) (Some (len a + len m)%Z) = m.
Proof.
  unfold pyslice, len.
  rewrite !norm_index_inside by (rewrite !length_app; lia).
  rewrite Nat2Z.id.
  replace (Z.to_nat (Z.of_nat (List.length a) + Z.of_nat (List.length m)
                     - Z.of_nat (List.length a)))
    with (List.length m) by lia.
  rewrite skipn_app, skipn_all, Nat.sub_diag. cbn [skipn app].
  rewrite firstn_app, firstn_all, Nat.sub_diag. cbn [firstn].
  apply app_nil_r.
Qed.

(** The two slices that cut a header line give its name and its value. *)
Lemma header_line_slices name sp value :
  let line := header_line (name, sp, value) in
  let sep := (len name + 1)%Z in
  (pyslice line None (Some (sep - 1)%Z),
   pyslice line (Some (sep + 1)%Z) (Some (len line - 2)%Z))
  = (name, value).
Proof.
  cbn [header_line]. cbv zeta. f_equal.
  - replace (len name + 1 - 1)%Z with (len name) by lia.
    apply pyslice_prefix.
  - replace (name ++ x3a :: sp :: value ++ CRLF)
      with ((name ++ [x3a; sp]) ++ value ++ CRLF)
      by (now rewrite <- app_assoc).
    replace (len name + 1 + 1)%Z with (len (name ++ [x3a; sp]))
      by (unfold len; rewrite length_app; cbn [List.length]; lia).
    replace (len ((name ++ [x3a; sp]) ++ value ++ CRLF) - 2)%Z
      with (len (name ++ [x3a; sp]) + len value)%Z
      by (unfold len, CRLF; rewrite !length_app; cbn [List.length]; lia).
    apply pyslice_middle.
Qed.

(** The line read before is appended to [headers]; nothing else that the
    scan of the next line reads is changed. *)
Lemma append_next_header_pending pending p :
  match pending with
  | None => HTTPParser.next_header p = []
  | Some h =>
      HTTPParser.next_header p = header_line h /\
      HTTPParser.next_sep_pos p = Some (len (fst (fst h)) + 1)%Z
  end ->
  exists p',
    append_next_header p = (p', Ok tt) /\
    HTTPParser.headers p' = HTTPParser.headers p ++ pending_headers pending /\
    HTTPParser.state p' = HTTPParser.state p /\
    HTTPParser.parsing_header p' = HTTPParser.parsing_header p /\
    HTTPParser.parsing_sep_pos p' = HTTPParser.parsing_sep_pos p /\
    HTTPParser.next_header p' = HTTPParser.next_header p /\
    request_fields p' = request_fields p.
Proof.
  destruct p as [st m v pa q hd pd ph psep nsep nh raw uh su].
  cbn [HTTPParser.next_header HTTPParser.next_sep_pos].
  destruct pending as [[[name sp] value] |].
  - intros [-> ->]. cbn [fst].
    pose proof (header_line_slices name sp value) as Hcut.
    cbv zeta in Hcut. injection Hcut as Hname Hvalue.
    assert (Hne : bytes_eqb (header_line (name, sp, value)) [] = false).
    { apply bytes_eqb_neq. cbn [header_line]. now destruct name. }
    unfold append_next_header, bind, gets, modify, ret, Ok.
    cbv beta iota.
    cbn [HTTPParser.next_header HTTPParser.next_sep_pos
         HTTPParser.should_upgrade HTTPParser.upgrade_header].
    rewrite Hne. cbn [negb]. cbv beta iota.
    do 3 (cbn [header_line HTTPParser.next_header HTTPParser.next_sep_pos
               HTTPParser.should_upgrade HTTPParser.upgrade_header];
          cbv beta iota).
    rewrite Hname, Hvalue.
    destruct su as [[|] |]; cbn [andb is_none];
      repeat match goal with
             | |- context [if ?c then _ else _] => destruct c
             | |- context [is_none ?x] => destruct x; cbn [is_none]
             end;
      cbv beta iota;
      (eexists; split; [reflexivity |]);
      cbn; rewrite ?app_nil_r; repeat split; reflexivity.
  - intros ->.
    exists (HTTPParser.mk st m v pa q hd pd ph psep nsep [] raw uh su).
    split; [reflexivity |]. cbn. rewrite app_nil_r. repeat split.
Qed.

Lemma parse_byte_line_feed p :
  HTTPParser.state p = PARSING_HEADERS ->
  parse_byte [x0a] p =
  (finish_header (HTTPParser.parsing_header p ++ [x0a]) ;;
   modify (HTTPParser.set_parsing_header [])) p.
Proof.
  intros Hs. unfold parse_byte.
  erewrite bind_ok by reflexivity.
  change (bytes_eqb [x0a] (B ":")) with false.
  change (bytes_eqb [x0a] [x0a]) with true. cbv beta iota.
  erewrite bind_ok by reflexivity.
  erewrite bind_ok by reflexivity.
  rewrite Hs. reflexivity.
Qed.

Lemma header_line_not_blank h : bytes_eqb (header_line h) CRLF = false.
Proof.
  destruct h as [[name sp] value]. apply bytes_eqb_neq. cbn [header_line].
  unfold CRLF. destruct name as [| a [| b [| c name]]]; discriminate.
Qed.

(** One header line read between two lines: the line before it joins
    [headers], the line itself waits for the next line feed. *)
Lemma scan_header_line pending p h :
  awaiting pending p -> well_formed_header h = true ->
  exists p',
    scan (header_line h) p = (p', Ok tt) /\
    awaiting (Some h) p' /\
    HTTPParser.headers p' = HTTPParser.headers p ++ pending_headers pending /\
    request_fields p' = request_fields p.
Proof.
  intros (Hst & Hph & Hsep & Hnext) Hwf.
  destruct h as [[name sp] value].
  unfold well_formed_header in Hwf.
  apply andb_true_iff in Hwf. destruct Hwf as [Hwf Hvalue].
  apply andb_true_iff in Hwf. destruct Hwf as [Hwf Hsp].
  apply andb_true_iff in Hwf. destruct Hwf as [Hcolon Hfeed].
  set (p1 := HTTPParser.set_parsing_header name p).
  set (p2 := HTTPParser.set_parsing_header (name ++ [x3a])
               (HTTPParser.set_parsing_sep_pos (Some (len name + 1)%Z) p1)).
  set (p3 := HTTPParser.set_parsing_header
               (name ++ x3a :: sp :: value ++ [x0d]) p2).
  assert (H1 : scan name p = (p1, Ok tt)).
  { rewrite scan_plain by assumption. now rewrite Hph. }
  assert (H2 : scan [x3a] p1 = (p2, Ok tt)).
  { cbn [scan]. erewrite bind_ok; [reflexivity |].
    unfold parse_byte, bind, gets, modify, ret, Ok. cbv beta iota.
    change (bytes_eqb [x3a] (B ":")) with true.
    change (bytes_eqb [x3a] [x0a]) with false. cbv beta iota.
    subst p1. cbn [HTTPParser.parsing_sep_pos HTTPParser.state
                   HTTPParser.parsing_header HTTPParser.set_parsing_header].
    rewrite Hsep, Hst. cbn [is_none eqb negb andb]. cbv beta iota.
    subst p2. unfold len. rewrite length_app. cbn [List.length].
    replace (Z.of_nat (List.length name + 1)) with
      (Z.of_nat (List.length name) + 1)%Z by lia.
    reflexivity. }
  assert (H3 : scan (sp :: value ++ [x0d]) p2 = (p3, Ok tt)).
  { rewrite (scan_value _ p2 (len name + 1)%Z); [| reflexivity |].
    - subst p3 p2.
      cbn [HTTPParser.parsing_header HTTPParser.set_parsing_header].
      now rewrite <- app_assoc.
    - unfold free_of in *. cbn [forallb]. rewrite Hsp.
      rewrite forallb_app, Hvalue. reflexivity. }
  destruct (append_next_header_pending pending p3) as
    (p4 & Happ & Hhd & Hst4 & Hph4 & Hsep4 & Hnh4 & Hreq4).
  { destruct pending; exact Hnext. }
  pose (line := header_line (name, sp, value)).
  assert (Hnb : bytes_eqb line CRLF = false)
    by apply header_line_not_blank.
  exists (HTTPParser.set_parsing_header []
            (HTTPParser.set_parsing_sep_pos None
               (HTTPParser.set_next_header line
                  (HTTPParser.set_next_sep_pos (HTTPParser.parsing_sep_pos p4)
                     p4)))).
  assert (Hline : HTTPParser.parsing_header p3 ++ [x0a] = line).
  { subst p3 line. cbn [HTTPParser.parsing_header
                         HTTPParser.set_parsing_header header_line].
    rewrite <- app_assoc. cbn [app]. rewrite <- app_assoc. reflexivity. }
  split; [| split; [| split]].
  - replace (header_line (name, sp, value))
      with (name ++ [x3a] ++ (sp :: value ++ [x0d]) ++ [x0a])
      by (cbn [header_line app]; now rewrite <- app_assoc).
    rewrite scan_app. rewrite (bind_ok _ _ _ _ _ H1).
    rewrite scan_app. rewrite (bind_ok _ _ _ _ _ H2).
    rewrite scan_app. rewrite (bind_ok _ _ _ _ _ H3).
    cbn [scan].
    erewrite bind_ok; [reflexivity |].
    rewrite parse_byte_line_feed by exact Hst.
    rewrite Hline.
    erewrite bind_ok; [reflexivity |].
    unfold finish_header.
    rewrite (bind_ok _ _ _ _ _ Happ).
    rewrite Hnb. reflexivity.
  - unfold awaiting.
    cbn [HTTPParser.state HTTPParser.parsing_header
         HTTPParser.parsing_sep_pos HTTPParser.next_header
         HTTPParser.next_sep_pos HTTPParser.set_parsing_header
         HTTPParser.set_parsing_sep_pos HTTPParser.set_next_header
         HTTPParser.set_next_sep_pos fst].
    rewrite Hst4, Hsep4. repeat split. exact Hst.
  - cbn [HTTPParser.headers HTTPParser.set_parsing_header
         HTTPParser.set_parsing_sep_pos HTTPParser.set_next_header
         HTTPParser.set_next_sep_pos].
    exact Hhd.
  - transitivity (request_fields p4); [reflexivity |].
    rewrite Hreq4. reflexivity.
Qed.

(** The blank line: the line before it joins [headers] and the parser is
    complete. *)
Lemma scan_blank_line pending p :
  awaiting pending p ->
  exists p',
    scan CRLF p = (p', Ok tt) /\
    HTTPParser.state p' = PARSING_COMPLETE /\
    HTTPParser.headers p' = HTTPParser.headers p ++ pending_headers pending /\
    request_fields p' = request_fields p.
Proof.
  intros (Hst & Hph & Hsep & Hnext).
  set (p1 := HTTPParser.set_parsing_header [x0d] p).
  assert (H1 : parse_byte [x0d] p = (p1, Ok tt)).
  { rewrite parse_byte_plain by discriminate. now rewrite Hph. }
  destruct (append_next_header_pending pending p1) as
    (p2 & Happ & Hhd & Hst2 & Hph2 & Hsep2 & Hnh2 & Hreq2).
  { destruct pending; exact Hnext. }
  eexists. split; [| split; [| split]].
  - unfold CRLF. cbn [scan].
    rewrite (bind_ok _ _ _ _ _ H1).
    erewrite bind_ok; [reflexivity |].
    rewrite parse_byte_line_feed by exact Hst.
    erewrite bind_ok; [reflexivity |].
    unfold finish_header.
    rewrite (bind_ok _ _ _ _ _ Happ).
    change (HTTPParser.parsing_header p1 ++ [x0a]) with CRLF.
    rewrite bytes_eqb_refl. reflexivity.
  - reflexivity.
  - cbn. exact Hhd.
  - transitivity (request_fields p2); [reflexivity |].
    rewrite Hreq2. reflexivity.
Qed.

Lemma scan_header_block hs : forall pending p,
  awaiting pending p -> forallb well_formed_header hs = true ->
  exists p',
    scan (List.concat (map header_line hs) ++ CRLF) p = (p', Ok tt) /\
    HTTPParser.state p' = PARSING_COMPLETE /\
    HTTPParser.headers p' =
      HTTPParser.headers p ++ pending_headers pending ++ map header_of hs /\
    request_fields p' = request_fields p.
Proof.
  induction hs as [| h hs IH]; intros pending p Hp Hwf.
  - cbn [map List.concat app]. rewrite app_nil_r.
    apply scan_blank_line, Hp.
  - cbn [forallb] in Hwf. apply andb_true_iff in Hwf.
    destruct Hwf as [Hh Hhs].
    destruct (scan_header_line pending p h Hp Hh)
      as (p1 & Hrun1 & Hp1 & Hhd1 & Hreq1).
    destruct (IH (Some h) p1 Hp1 Hhs) as (p2 & Hrun2 & Hst2 & Hhd2 & Hreq2).
    exists p2. split; [| split; [| split]].
    + cbn [map List.concat]. rewrite <- app_assoc, scan_app.
      rewrite (bind_ok _ _ _ _ _ Hrun1). exact Hrun2.
    + exact Hst2.
    + rewrite Hhd2, Hhd1. cbn [pending_headers map app].
      now rewrite <- app_assoc.
    + congruence.
Qed.

Lemma free_of_not_in b l : free_of b l = true -> ~ In b l.
Proof.
  induction l as [| x l IH]; intros H; [intros [] |].
  apply free_of_cons in H. destruct H as [Hx Hl].
  intros [E | Hin]; [now apply Hx | now apply IH].
Qed.

(** A request line of three fields, read by a parser that has read
    nothing. *)
Lemma scan_request_line_fields line http_method path http_version
      parsed_path query p :
  HTTPParser.state p = PARSING_REQUEST ->
  HTTPParser.parsing_header p = [] ->
  HTTPParser.parsing_sep_pos p = None ->
  HTTPParser.next_header p = [] ->
  free_of x0a line = true ->
  forallb (fun x => Byte.to_N x <? 128) line = true ->
  str_split_space (str_strip (string_of_list_byte (line ++ [x0a])))
    = [http_method; path; http_version] ->
  urlparse path = Ok (parsed_path, query) ->
  exists p',
    scan (line ++ [x0a]) p = (p', Ok tt) /\
    awaiting None p' /\
    HTTPParser.headers p' = HTTPParser.headers p /\
    request_fields p' =
      (Some http_method, Some http_version, Some parsed_path, Some query).
Proof.
  intros Hst Hph Hsep Hnh Hfeed Hascii Hsplit Hurl.
  eexists. split; [| split; [| split]].
  - rewrite scan_app.
    erewrite bind_ok
      by (apply scan_request_line;
          [exact Hst | apply free_of_not_in, Hfeed]).
    cbn [scan]. erewrite bind_ok; [reflexivity |].
    unfold parse_byte, bind, gets, modify, ret, Ok. cbv beta iota.
    change (bytes_eqb [x0a] (B ":")) with false.
    change (bytes_eqb [x0a] [x0a]) with true. cbv beta iota.
    cbn [HTTPParser.state HTTPParser.parsing_header
         HTTPParser.set_parsing_header].
    rewrite Hst, Hph. cbn [eqb negb app].
    unfold parse_request_line, bind, lift, decode_ascii.
    rewrite forallb_app, Hascii. cbn [forallb andb].
    change (Byte.to_N x0a <? 128) with true. cbn [andb].
    unfold Ok. cbv beta iota. rewrite Hsplit.
    unfold modify, Ok. cbv beta iota. rewrite Hurl. unfold Ok.
    cbv beta iota. reflexivity.
  - unfold awaiting. cbn. rewrite Hsep, Hnh. repeat split.
  - reflexivity.
  - reflexivity.
Qed.

(** X12. A well-formed header block read by a fresh parser: a request line
    of three fields separated by single spaces, then header lines, each a
    name without colon, a colon, one byte, a value and CR LF, then the blank
    line.  The call returns, the parser is complete, the method, the version
    and the two parts of the target are those of the request line, and
    [headers] holds the name and the value of every line, in order and with
    the bytes as they came; the byte after the colon is dropped whatever it
    is. *)
Theorem header_block_parsed (line : bytes)
        (http_method path http_version parsed_path query : string)
        (hs : list (bytes * byte * bytes)) :
  free_of x0a line = true ->
  forallb (fun x => Byte.to_N x <? 128) line = true ->
  str_split_space (str_strip (string_of_list_byte (line ++ [x0a])))
    = [http_method; path; http_version] ->
  urlparse path = Ok (parsed_path, query) ->
  forallb well_formed_header hs = true ->
  let data :=
    (line ++ [x0a]) ++ List.concat (map header_line hs) ++ CRLF in
  let run := parse_headers data HTTPParser.init in
  snd run = Ok tt /\
  HTTPParser.is_complete (fst run) = true /\
  request_fields (fst run) =
    (Some http_method, Some http_version, Some parsed_path, Some query) /\
  HTTPParser.headers (fst run) = map header_of hs.
Proof.
  intros Hfeed Hascii Hsplit Hurl Hwf data run.
  set (p0 := HTTPParser.set_raw_headers
               (HTTPParser.raw_headers HTTPParser.init ++ data)
               HTTPParser.init).
  destruct (scan_request_line_fields line http_method path http_version
              parsed_path query p0)
    as (p1 & Hrun1 & Hp1 & Hhd1 & Hreq1);
    try assumption; try reflexivity.
  destruct (scan_header_block hs None p1 Hp1 Hwf)
    as (p2 & Hrun2 & Hst2 & Hhd2 & Hreq2).
  assert (Hrun : run = (p2, Ok tt)).
  { subst run. rewrite parse_headers_scan by reflexivity.
    fold p0. subst data. rewrite scan_app.
    rewrite (bind_ok _ _ _ _ _ Hrun1). exact Hrun2. }
  rewrite Hrun. cbn [fst snd]. repeat split.
  - unfold HTTPParser.is_complete. rewrite Hst2. reflexivity.
  - congruence.
  - rewrite Hhd2, Hhd1. reflexivity.
Qed.

Lemma parse_byte_no_feed b p :
  b <> x0a ->
  exists p',
    parse_byte [b] p = (p', Ok tt) /\
    HTTPParser.state p' = HTTPParser.state p /\
    HTTPParser.next_header p' = HTTPParser.next_header p /\
    HTTPParser.next_sep_pos p' = HTTPParser.next_sep_pos p.
Proof.
  intros Hn. unfold parse_byte, bind, gets, modify, ret, Ok.
  cbv beta iota. rewrite (bytes_eqb_single_false b x0a Hn).
  destruct (bytes_eqb [b] (B ":")); cbv beta iota.
  - destruct (is_none (HTTPParser.parsing_sep_pos p)
              && negb (eqb (HTTPParser.state p) PARSING_REQUEST));
      eexists; (split; [reflexivity |]); repeat split.
  - eexists; (split; [reflexivity |]); repeat split.
Qed.

Lemma scan_no_feed seg : forall p,
  free_of x0a seg = true ->
  exists p',
    scan seg p = (p', Ok tt) /\
    HTTPParser.state p' = HTTPParser.state p /\
    HTTPParser.next_header p' = HTTPParser.next_header p /\
    HTTPParser.next_sep_pos p' = HTTPParser.next_sep_pos p.
Proof.
  induction seg as [| b seg IH]; intros p Hn.
  - exists p. repeat split.
  - apply free_of_cons in Hn. destruct Hn as [Hb Hn].
    destruct (parse_byte_no_feed b p Hb) as (p1 & Hrun1 & Hs1 & Hh1 & Hp1).
    destruct (IH p1 Hn) as (p2 & Hrun2 & Hs2 & Hh2 & Hp2).
    exists p2. cbn [scan]. rewrite (bind_ok _ _ _ _ _ Hrun1).
    repeat split; congruence.
Qed.

Lemma append_next_header_no_colon p :
  HTTPParser.next_header p <> [] ->
  HTTPParser.next_sep_pos p = None ->
  append_next_header p = (p, Raise TypeError).
Proof.
  intros Hne Hsep. unfold append_next_header.
  erewrite bind_ok by reflexivity.
  rewrite (bytes_eqb_neq _ _ Hne). cbn [negb].
  erewrite bind_ok by reflexivity.
  rewrite Hsep. reflexivity.
Qed.

(** X13. A line of the header block that has no colon is not refused when
    it is read: it waits as the line to append, and the line feed of the line
    after it (the blank line included) raises [TypeError], from
    [_next_sep_pos - 1] on [None]. *)
Theorem header_without_colon_raises (line : bytes)
        (http_method path http_version parsed_path query : string)
        (junk next : bytes) :
  free_of x0a line = true ->
  forallb (fun x => Byte.to_N x <? 128) line = true ->
  str_split_space (str_strip (string_of_list_byte (line ++ [x0a])))
    = [http_method; path; http_version] ->
  urlparse path = Ok (parsed_path, query) ->
  free_of x3a junk = true -> free_of x0a junk = true -> junk <> [x0d] ->
  free_of x0a next = true ->
  snd (parse_headers ((line ++ [x0a]) ++ junk ++ [x0a]) HTTPParser.init)
    = Ok tt /\
  snd (parse_headers ((line ++ [x0a]) ++ (junk ++ [x0a]) ++ next ++ [x0a])
                     HTTPParser.init)
    = Raise TypeError.
Proof.
  intros Hfeed Hascii Hsplit Hurl Hjc Hjn Hjunk Hnext.
  assert (Hstart : forall data,
    exists p1,
      scan (line ++ [x0a])
           (HTTPParser.set_raw_headers
              (HTTPParser.raw_headers HTTPParser.init ++ data)
              HTTPParser.init) = (p1, Ok tt) /\
      awaiting None p1).
  { intros data.
    destruct (scan_request_line_fields line http_method path http_version
                parsed_path query
                (HTTPParser.set_raw_headers
                   (HTTPParser.raw_headers HTTPParser.init ++ data)
                   HTTPParser.init))
      as (p1 & Hrun1 & Hp1 & _); try assumption; try reflexivity.
    now exists p1. }
  assert (Hjunkline : forall p1, awaiting None p1 ->
    exists p3,
      scan (junk ++ [x0a]) p1 = (p3, Ok tt) /\
      HTTPParser.state p3 = PARSING_HEADERS /\
      HTTPParser.next_header p3 = junk ++ [x0a] /\
      HTTPParser.next_sep_pos p3 = None).
  { intros p1 (Hst & Hph & Hsep & Hnh).
    destruct (append_next_header_pending None
                (HTTPParser.set_parsing_header junk p1) Hnh)
      as (p2 & Happ & _ & Hst2 & Hph2 & Hsep2 & Hnh2 & _).
    eexists. split; [| split; [| split]].
    - rewrite scan_app.
      erewrite bind_ok by (apply scan_plain; assumption).
      rewrite Hph. cbn [scan app].
      erewrite bind_ok; [reflexivity |].
      rewrite parse_byte_line_feed by exact Hst.
      erewrite bind_ok; [reflexivity |].
      unfold finish_header.
      rewrite (bind_ok _ _ _ _ _ Happ).
      cbn [HTTPParser.parsing_header HTTPParser.set_parsing_header].
      rewrite bytes_eqb_neq; [reflexivity |].
      unfold CRLF. intros E.
      destruct junk as [| a [| b junk]].
      + discriminate E.
      + apply Hjunk. now injection E as ->.
      + cbn [app] in E. injection E as _ _ E. now destruct junk.
    - cbn. rewrite Hst2. exact Hst.
    - reflexivity.
    - cbn. rewrite Hsep2. exact Hsep. }
  split.
  - destruct (Hstart ((line ++ [x0a]) ++ junk ++ [x0a]))
      as (p1 & Hrun1 & Hp1).
    destruct (Hjunkline p1 Hp1) as (p3 & Hrun3 & _).
    rewrite parse_headers_scan by reflexivity.
    rewrite scan_app, (bind_ok _ _ _ _ _ Hrun1), Hrun3. reflexivity.
  - destruct (Hstart ((line ++ [x0a]) ++ (junk ++ [x0a]) ++ next ++ [x0a]))
      as (p1 & Hrun1 & Hp1).
    destruct (Hjunkline p1 Hp1) as (p3 & Hrun3 & Hst3 & Hnh3 & Hsep3).
    destruct (scan_no_feed next p3 Hnext)
      as (p4 & Hrun4 & Hst4 & Hnh4 & Hsep4).
    rewrite parse_headers_scan by reflexivity.
    rewrite scan_app, (bind_ok _ _ _ _ _ Hrun1).
    rewrite scan_app, (bind_ok _ _ _ _ _ Hrun3).
    rewrite scan_app, (bind_ok _ _ _ _ _ Hrun4).
    cbn [scan].
    erewrite bind_raise; [reflexivity |].
    rewrite parse_byte_line_feed by congruence.
    erewrite bind_raise; [reflexivity |].
    unfold finish_header.
    erewrite bind_raise; [reflexivity |].
    apply append_next_header_no_colon.
    + rewrite Hnh4, Hnh3. now destruct junk.
    + congruence.
Qed.

End Headers.

(** ** Instances on the requests of the examples *)

Lemma raw_headers_accumulate_witness :
  snd (feed (lib := example_lib)
         [B "GET / HT"; B "TP/1.1" ++ CRLF; B "Host: a" ++ CRLF]
         HTTPParser.init) = Ok tt /\
  HTTPParser.raw_headers
    (fst (feed (lib := example_lib)
            [B "GET / HT"; B "TP/1.1" ++ CRLF; B "Host: a" ++ CRLF]
            HTTPParser.init))
  = HTTPParser.raw_headers HTTPParser.init
    ++ List.concat [B "GET / HT"; B "TP/1.1" ++ CRLF; B "Host: a" ++ CRLF].
Proof.
  split; [reflexivity |].
  apply (proj2 (raw_headers_accumulate (lib := example_lib))
           [B "GET / HT"; B "TP/1.1" ++ CRLF; B "Host: a" ++ CRLF]
           HTTPParser.init).
  reflexivity.
Defined.

Lemma header_block_parsed_witness :
  let data :=
    (B "GET /a?b=1 HTTP/1.1" ++ [x0d; x0a])
    ++ List.concat
         (map header_line
              [(B "Host", x20, B "example.com"); (B "Accept", x2a, B "/*")])
    ++ CRLF in
  let run := parse_headers (lib := example_lib) data HTTPParser.init in
  snd run = Ok tt /\
  HTTPParser.is_complete (fst run) = true /\
  request_fields (fst run) =
    (Some "GET"%string, Some "HTTP/1.1"%string, Some "/a"%string,
     Some "b=1"%string) /\
  HTTPParser.headers (fst run) =
    [(B "Host", B "example.com"); (B "Accept", B "/*")].
Proof.
  apply (header_block_parsed (lib := example_lib)
           (B "GET /a?b=1 HTTP/1.1" ++ [x0d])
           "GET" "/a?b=1" "HTTP/1.1" "/a" "b=1"
           [(B "Host", x20, B "example.com"); (B "Accept", x2a, B "/*")]);
    reflexivity.
Defined.

Lemma header_without_colon_raises_witness :
  snd (parse_headers (lib := example_lib)
         ((B "GET / HTTP/1.1" ++ [x0d; x0a]) ++ (B "Host" ++ [x0d; x0a]))
         HTTPParser.init) = Ok tt /\
  snd (parse_headers (lib := example_lib)
         ((B "GET / HTTP/1.1" ++ [x0d; x0a]) ++ (B "Host" ++ [x0d; x0a])
            ++ [x0d; x0a])
         HTTPParser.init) = Raise TypeError.
Proof.
  apply (header_without_colon_raises (lib := example_lib)
           (B "GET / HTTP/1.1" ++ [x0d])
           "GET" "/" "HTTP/1.1" "/" ""
           (B "Host" ++ [x0d]) [x0d]);
    first [reflexivity | discriminate].
Defined.

(** ** Running a handler on a world *)

Section Running.
Context {lib : PyLib}.

Lemma store_split w c :
  (c < List.length (World.connections w))%nat ->
  exists pre post,
    World.connections w = pre ++ connection c w :: post /\
    List.length pre = c.
Proof.
  intros H. unfold connection.
  destruct (nth_split (World.connections w)
              (ASGIConnection.init ASGIConnection.HTTP) H)
    as (pre & post & Hsplit & Hlen).
  exists pre, post. split; assumption.
Qed.

Lemma list_update_at {A} (f : A -> A) (pre post : list A) x :
  list_update (List.length pre) f (pre ++ x :: post) = pre ++ f x :: post.
Proof.
  induction pre as [| a pre IH]; cbn [List.length app list_update].
  - reflexivity.
  - now rewrite IH.
Qed.

Lemma connection_at pr pre post x tr ts :
  connection (List.length pre) (World.mk pr (pre ++ x :: post) tr ts) = x.
Proof. unfold connection. cbn [World.connections]. apply nth_middle. Qed.

Lemma modify_connection_at f pr pre post x tr ts :
  modify_connection (List.length pre) f
    (World.mk pr (pre ++ x :: post) tr ts)
  = (World.mk pr (pre ++ f x :: post) tr ts, inr tt).
Proof.
  unfold modify_connection, modify.
  cbn [World.connections World.set_connections World.protocol
       World.transport World.tasks].
  now rewrite list_update_at.
Qed.

End Running.

(** The handlers are run on a world whose store is cut at the connection:
    the monad is unfolded and the reads and writes of the connection are
    rewritten with the two equations above. *)
Ltac run_world :=
  unfold the_protocol, modify_protocol, transport_write, transport_close,
         create_task;
  unfold bind, gets, ret, raise, lift, modify, Ok, Raise;
  repeat (progress (
    unfold Ok, Raise, World.set_protocol, World.set_connections,
           World.set_transport, World.set_tasks,
           ASGIConnection.set_state, ASGIConnection.set_app_queue,
           ASGIConnection.set_content_length, ASGIConnection.set_content;
    cbv beta iota;
    cbn [World.protocol World.connections World.transport World.tasks
         ASGIConnection.kind ASGIConnection.state ASGIConnection.app_queue
         ASGIConnection.content_length ASGIConnection.content
         HTTPWSProtocol.asgi_connection HTTPWSProtocol.state
         HTTPWSProtocol.parser HTTPWSProtocol.handshake_headers
         HTTPWSProtocol.scheme HTTPWSProtocol.server HTTPWSProtocol.client
         HTTPWSProtocol.buffer_data HTTPWSProtocol.write_paused
         HTTPWSProtocol.drain_waiter HTTPWSProtocol.scope
         HTTPWSProtocol.keep_alive HTTPWSProtocol.accepted
         HTTPWSProtocol.set_asgi_connection HTTPWSProtocol.set_state
         HTTPWSProtocol.set_parser HTTPWSProtocol.set_handshake_headers
         HTTPWSProtocol.set_scheme HTTPWSProtocol.set_server
         HTTPWSProtocol.set_client HTTPWSProtocol.set_buffer_data
         HTTPWSProtocol.set_write_paused HTTPWSProtocol.set_drain_waiter
         HTTPWSProtocol.set_scope HTTPWSProtocol.set_keep_alive
         HTTPWSProtocol.set_accepted
         ASGIConnectionState.eqb negb andb orb fst snd];
    rewrite ?connection_at, ?modify_connection_at;
    rewrite ?feed_data_eq by (cbn; assumption))).

(** The world is cut at connection [c]. *)
Ltac cut_world w c Hlt :=
  let pre := fresh "pre" in
  let post := fresh "post" in
  let Hcs := fresh "Hcs" in
  let Hlen := fresh "Hlen" in
  let conn := fresh "conn" in
  let Hconn := fresh "Hconn" in
  destruct (store_split w c Hlt) as (pre & post & Hcs & Hlen);
  remember (connection c w) as conn eqn:Hconn;
  clear Hconn Hlt;
  destruct w as [pr cs tr ts];
  cbn [World.connections World.protocol World.transport World.tasks] in *;
  subst cs c.

(** ** The HTTP connection *)

Section HTTPBridge.
Context {lib : PyLib}.
Import ASGIConnectionState.

(** X14. A response event in the wrong state raises the plain [Exception]
    of the handler and changes nothing: [http.response.start] on a
    connection that is not in REQUEST (a second start, say),
    [http.response.body] on a connection in REQUEST (no start yet) or
    CLOSED (after the last body). *)
Theorem response_event_in_wrong_state (w : World.t) (c : nat)
        (message : Message) :
  (ASGIConnection.state (connection c w) <> REQUEST ->
   on_http_response_start c message w =
   (w, Raise (PyException
     "Invalid `http.response.start` event: The response has already started.")))
  /\
  (ASGIConnection.state (connection c w) = REQUEST \/
   ASGIConnection.state (connection c w) = CLOSED ->
   on_http_response_body c message w =
   (w, Raise (PyException
     "Invalid `http.response.body` event: The response has not started."))).
Proof.
  split.
  - intros Hs. unfold on_http_response_start.
    erewrite bind_ok by reflexivity.
    destruct (ASGIConnection.state (connection c w));
      [contradiction | reflexivity ..].
  - intros Hs. unfold on_http_response_body.
    erewrite bind_ok by reflexivity.
    destruct Hs as [-> | ->]; reflexivity.
Qed.

(** X15. The first body event of a streamed response (more_body set, the
    connection in RESPONSE): one write holds the lines built by the start
    event, the header "transfer-encoding: chunked", the blank line and the
    body as a first chunk; the connection is then in STREAMING. *)
Theorem streaming_begins (w : World.t) (c : nat) (body : bytes)
        (content : list bytes) :
  (c < List.length (World.connections w))%nat ->
  ASGIConnection.state (connection c w) = RESPONSE ->
  ASGIConnection.content (connection c w) = Some content ->
  HTTPWSProtocol.state (World.protocol w) <> HTTPWSProtocolState.REQUEST ->
  HTTPWSProtocol.write_paused (World.protocol w) = false ->
  let run :=
    on_http_response_body c (http_response_body (Some body) (Some true)) w in
  snd run = Ok tt /\
  World.transport (fst run) =
    World.transport w
    ++ [Write (List.concat content
               ++ (B "transfer-encoding: chunked" ++ CRLF ++ CRLF)
               ++ chunk body)] /\
  ASGIConnection.state (connection c (fst run)) = STREAMING.
Proof.
  intros Hlt Hst Hct Hps Hwp run. subst run.
  cut_world w c Hlt.
  destruct conn as [k st q cl ct].
  cbn [ASGIConnection.state ASGIConnection.content] in Hst, Hct.
  subst st ct.
  unfold on_http_response_body, content_extend, content_joined,
         update_connection_state.
  cbn [message_body message_more_body].
  run_world. rewrite Hwp. run_world.
  repeat split.
  rewrite concat_app. unfold chunk. cbn [List.concat].
  now rewrite app_nil_r, <- !app_assoc.
Qed.

(** X16. A body event on a connection in STREAMING writes the body as one
    chunk, the length in hexadecimal, CR LF, the bytes, CR LF; when it is
    the last (more_body false) a second write holds the closing chunk
    "0" CR LF CR LF and the connection is CLOSED, otherwise it stays in
    STREAMING. *)
Theorem streaming_chunks (w : World.t) (c : nat) (body : bytes)
        (more_body : bool) :
  (c < List.length (World.connections w))%nat ->
  ASGIConnection.state (connection c w) = STREAMING ->
  HTTPWSProtocol.state (World.protocol w) <> HTTPWSProtocolState.REQUEST ->
  HTTPWSProtocol.write_paused (World.protocol w) = false ->
  let run :=
    on_http_response_body c
      (http_response_body (Some body) (Some more_body)) w in
  snd run = Ok tt /\
  World.transport (fst run) =
    World.transport w
    ++ Write (chunk body)
       :: (if more_body then [] else [Write (B "0" ++ CRLF ++ CRLF)]) /\
  ASGIConnection.state (connection c (fst run)) =
    (if more_body then STREAMING else CLOSED).
Proof.
  intros Hlt Hst Hps Hwp run. subst run.
  cut_world w c Hlt.
  destruct conn as [k st q cl ct].
  cbn [ASGIConnection.state] in Hst. subst st.
  unfold on_http_response_body, update_connection_state.
  cbn [message_body message_more_body].
  destruct more_body; run_world; rewrite Hwp; run_world.
  - repeat split. unfold chunk. cbn [List.concat].
    now rewrite app_nil_r, <- app_assoc.
  - repeat split. unfold chunk. cbn [List.concat].
    now rewrite app_nil_r, <- !app_assoc.
Qed.

(** X17. The only body event of a response that is not streamed (more_body
    false, the connection in RESPONSE): one write holds the lines built by
    the start event, then either the computed header "content-length: "
    with the length in hexadecimal and the blank line, or, when the
    application gave a content-length, the blank line alone; then the body
    and a CR LF that no length counts.  The connection is then CLOSED. *)
Theorem final_body_written (w : World.t) (c : nat) (body : bytes)
        (content : list bytes) :
  (c < List.length (World.connections w))%nat ->
  ASGIConnection.state (connection c w) = RESPONSE ->
  ASGIConnection.content (connection c w) = Some content ->
  HTTPWSProtocol.state (World.protocol w) <> HTTPWSProtocolState.REQUEST ->
  HTTPWSProtocol.write_paused (World.protocol w) = false ->
  let run :=
    on_http_response_body c (http_response_body (Some body) (Some false)) w in
  snd run = Ok tt /\
  World.transport (fst run) =
    World.transport w
    ++ [Write (List.concat content
               ++ match ASGIConnection.content_length (connection c w) with
                  | None => B "content-length: " ++ hex_of_len (len body)
                              ++ CRLF ++ CRLF
                  | Some _ => CRLF
                  end
               ++ body ++ CRLF)] /\
  ASGIConnection.state (connection c (fst run)) = CLOSED.
Proof.
  intros Hlt Hst Hct Hps Hwp run. subst run.
  cut_world w c Hlt.
  destruct conn as [k st q cl ct].
  cbn [ASGIConnection.state ASGIConnection.content
       ASGIConnection.content_length] in *.
  subst st ct.
  unfold on_http_response_body, content_append, content_extend,
         content_joined, update_connection_state.
  cbn [message_body message_more_body].
  destruct cl as [n |]; run_world; rewrite Hwp; run_world;
    repeat split;
    rewrite !concat_app; cbn [List.concat];
    now rewrite ?app_nil_r, <- ?app_assoc.
Qed.

(** The loop over the headers of the application, none of them named
    content-length. *)
Lemma response_headers_at headers :
  forall pr pre post k st q cl ct tr ts,
    forallb (fun h => negb (names_length h)) headers = true ->
    response_headers (List.length pre) headers
      (World.mk pr (pre ++ ASGIConnection.mk k st q cl (Some ct) :: post)
                tr ts)
    = (World.mk
         (HTTPWSProtocol.set_keep_alive
            (HTTPWSProtocol.keep_alive pr && negb (existsb closes headers))
            pr)
         (pre ++ ASGIConnection.mk k st q cl
                   (Some (ct ++ map response_line headers)) :: post)
         tr ts,
       Ok tt).
Proof.
  induction headers as [| [name value] headers IH];
    intros pr pre post k st q cl ct tr ts Hno.
  - cbn [response_headers existsb negb map]. rewrite app_nil_r, andb_true_r.
    now destruct pr.
  - cbn [forallb] in Hno. apply andb_true_iff in Hno.
    destruct Hno as [Hname Hno].
    unfold names_length in Hname. cbn [fst] in Hname.
    apply negb_true_iff in Hname.
    cbn [response_headers]. rewrite Hname.
    unfold content_append.
    cbn [existsb map]. unfold closes at 1. cbn [fst snd].
    destruct (bytes_eqb name (B "connection") && bytes_eqb value (B "close"));
      run_world; rewrite IH by exact Hno; unfold response_line at 2;
      cbn [fst snd orb negb]; rewrite <- app_assoc; cbn [app];
      destruct pr; cbn; rewrite ?andb_false_r; reflexivity.
Qed.

(** X18. The start event writes nothing.  On a connection in REQUEST, with
    headers none of which is named content-length, it stores the status
    line, the server and date lines and one line "name: value" per header,
    in order, for the body event to send; the connection is then in
    RESPONSE.  Keep-alive is given up exactly when a header is the pair
    (connection, close), both in lower case and byte for byte. *)
Theorem response_start_effect (w : World.t) (c : nat) (status : Z)
        (headers : list (bytes * bytes)) :
  (c < List.length (World.connections w))%nat ->
  ASGIConnection.state (connection c w) = REQUEST ->
  forallb (fun h => negb (names_length h)) headers = true ->
  let run :=
    on_http_response_start c (http_response_start status (Some headers)) w in
  snd run = Ok tt /\
  World.transport (fst run) = World.transport w /\
  ASGIConnection.content (connection c (fst run)) =
    Some (get_server_headers status ++ map response_line headers) /\
  ASGIConnection.state (connection c (fst run)) = RESPONSE /\
  HTTPWSProtocol.keep_alive (World.protocol (fst run)) =
    HTTPWSProtocol.keep_alive (World.protocol w)
    && negb (existsb closes headers).
Proof.
  intros Hlt Hst Hno run. subst run.
  cut_world w c Hlt.
  destruct conn as [k st q cl ct].
  cbn [ASGIConnection.state] in Hst. subst st.
  unfold on_http_response_start, update_connection_state.
  cbn [message_status message_headers].
  run_world. rewrite response_headers_at by exact Hno. run_world.
  repeat split.
Qed.

Lemma handler_of_body_event w c body more_body :
  ASGIConnection.kind (connection c w) = ASGIConnection.HTTP ->
  handler c
    ("on_" ++ replace_dots (message_type (http_response_body body more_body)))
    w = (w, Ok on_http_response_body).
Proof.
  intros Hk. unfold handler.
  erewrite bind_ok by reflexivity. rewrite Hk. reflexivity.
Qed.

(** X19. The last body event sent through [send] completes the response:
    after the write of X17 the transport is closed when keep-alive was given
    up, and otherwise the protocol is back in REQUEST with a fresh header
    parser, ready for the next request of the peer; the queue of the
    connection is as before (see C8). *)
Theorem response_completed (w : World.t) (c : nat) (body : bytes)
        (content : list bytes) :
  (c < List.length (World.connections w))%nat ->
  ASGIConnection.kind (connection c w) = ASGIConnection.HTTP ->
  ASGIConnection.state (connection c w) = RESPONSE ->
  ASGIConnection.content (connection c w) = Some content ->
  HTTPWSProtocol.state (World.protocol w) <> HTTPWSProtocolState.REQUEST ->
  HTTPWSProtocol.write_paused (World.protocol w) = false ->
  let run := send c (http_response_body (Some body) (Some false)) w in
  let written :=
    fst (on_http_response_body c
           (http_response_body (Some body) (Some false)) w) in
  snd run = Ok tt /\
  ASGIConnection.app_queue (connection c (fst run)) =
    ASGIConnection.app_queue (connection c w) /\
  if HTTPWSProtocol.keep_alive (World.protocol w)
  then
    World.transport (fst run) = World.transport written /\
    HTTPWSProtocol.state (World.protocol (fst run))
      = HTTPWSProtocolState.REQUEST /\
    HTTPWSProtocol.parser (World.protocol (fst run))
      = HTTP_parser HTTPParser.init
  else
    World.transport (fst run) = World.transport written ++ [Close] /\
    HTTPWSProtocol.state (World.protocol (fst run))
      = HTTPWSProtocol.state (World.protocol w).
Proof.
  intros Hlt Hk Hst Hct Hps Hwp run written. subst run written.
  unfold send. cbv zeta.
  rewrite (bind_ok _ _ _ _ _ (handler_of_body_event w c _ _ Hk)).
  cut_world w c Hlt.
  destruct conn as [k st q cl ct].
  cbn [ASGIConnection.state ASGIConnection.content ASGIConnection.kind] in *.
  subst k st ct.
  unfold on_connection_complete, put_message, on_response_complete,
         on_http_response_body, content_append, content_extend,
         content_joined, update_connection_state.
  cbn [message_body message_more_body].
  destruct cl as [n |]; run_world; rewrite Hwp; run_world;
    destruct (HTTPWSProtocol.keep_alive pr) eqn:Hka; run_world;
    repeat split.
Qed.

End HTTPBridge.

(** ** The WebSocket connection *)

Section WebSocketSend.
Context {lib : PyLib}.
Import ASGIConnectionState.

(** X20. The first message of the application on a WebSocket connection in
    REQUEST, when it is "websocket.accept" or "websocket.close" without
    text, bytes or subprotocol: the protocol writes the status line 101 with
    the server and date lines, the handshake headers kept by the upgrade and
    the blank line, in one write, and is marked accepted.  After an accept
    the connection is in RESPONSE.  A close does not refuse the handshake:
    the same bytes are written, the connection is then CLOSED, no Close
    frame is written and the transport is not closed. *)
Theorem handshake_accepted (w : World.t) (c : nat) (type : string)
        (handshake : bytes) (code : option Z) :
  (c < List.length (World.connections w))%nat ->
  ASGIConnection.state (connection c w) = REQUEST ->
  HTTPWSProtocol.accepted (World.protocol w) = false ->
  HTTPWSProtocol.handshake_headers (World.protocol w) = Some handshake ->
  type = "websocket.accept"%string \/ type = "websocket.close"%string ->
  let run :=
    ASGIWebSocketConnection_send c (mkWSMessage type None None None code) w in
  snd run = Ok tt /\
  World.transport (fst run) =
    World.transport w
    ++ [Write (List.concat (get_server_headers 101) ++ handshake ++ CRLF)] /\
  ASGIConnection.state (connection c (fst run)) =
    (if String.eqb type "websocket.close" then CLOSED else RESPONSE) /\
  HTTPWSProtocol.accepted (World.protocol (fst run)) = true.
Proof.
  intros Hlt Hst Hacc Hhs Htype run. subst run.
  cut_world w c Hlt.
  destruct conn as [k st q cl ct].
  cbn [ASGIConnection.state] in Hst. subst st.
  unfold ASGIWebSocketConnection_send, outgoing_payload, bytes_given,
         ws_handshake, ws_frame, accept, update_connection_state.
  destruct Htype as [-> | ->];
    cbn [ws_type ws_text ws_bytes ws_subprotocol String.eqb Ascii.eqb
         Bool.eqb orb andb];
    run_world; rewrite Hacc; run_world; rewrite Hhs; run_world;
    repeat split.
Qed.

(** X21. A first message of any type other than "websocket.accept" and
    "websocket.close" (a "websocket.send" before the accept, say) refuses
    the handshake: the protocol writes the status line 403 with the server
    and date lines and the blank line, closes the transport, and the
    connection is CLOSED. *)
Theorem handshake_refused (w : World.t) (c : nat) (type : string)
        (code : option Z) :
  (c < List.length (World.connections w))%nat ->
  ASGIConnection.state (connection c w) = REQUEST ->
  HTTPWSProtocol.accepted (World.protocol w) = false ->
  type <> "websocket.accept"%string ->
  type <> "websocket.close"%string ->
  let run :=
    ASGIWebSocketConnection_send c (mkWSMessage type None None None code) w in
  snd run = Ok tt /\
  World.transport (fst run) =
    World.transport w
    ++ [Write (List.concat (get_server_headers 403) ++ CRLF); Close] /\
  ASGIConnection.state (connection c (fst run)) = CLOSED.
Proof.
  intros Hlt Hst Hacc Ha Hc run. subst run.
  cut_world w c Hlt.
  destruct conn as [k st q cl ct].
  cbn [ASGIConnection.state] in Hst. subst st.
  apply String.eqb_neq in Ha, Hc.
  unfold ASGIWebSocketConnection_send, outgoing_payload, bytes_given,
         ws_handshake, ws_frame, reject, update_connection_state.
  cbn [ws_type ws_text ws_bytes ws_subprotocol].
  rewrite Ha, Hc. cbn [orb].
  run_world. rewrite Hacc. run_world.
  rewrite <- app_assoc. repeat split.
Qed.

Lemma text_frame_bytes payload :
  (List.length payload <= 255)%nat ->
  get_frame_content (PBytes payload) WebSocketOpcode.TEXT 1 0 0 0
  = Ok (x81 :: byte_of_N (N.of_nat (List.length payload)) :: payload).
Proof.
  intros H. rewrite get_frame_content_bytes.
  change (int_base2 _) with (Ok (A := N) 129). cbn [rbind Ok].
  cbn [bytes_of_ints]. change (Byte.of_N 129) with (Some x81).
  rewrite byte_of_N_small by lia. reflexivity.
Qed.

Lemma get_frame_content_str text payload opcode fin rsv1 rsv2 rsv3 :
  str_encode text = Ok payload ->
  get_frame_content (PStr text) opcode fin rsv1 rsv2 rsv3
  = get_frame_content (PBytes payload) opcode fin rsv1 rsv2 rsv3.
Proof. intros H. unfold get_frame_content. now rewrite H. Qed.

Lemma get_frame_content_str_raises text e opcode fin rsv1 rsv2 rsv3 :
  str_encode text = Raise e ->
  get_frame_content (PStr text) opcode fin rsv1 rsv2 rsv3 = Raise e.
Proof. intros H. unfold get_frame_content. now rewrite H. Qed.

(** The only exception of the encoding of a [str] is that of a lone
    surrogate. *)
Lemma utf8_raises c e :
  is_code_point c = true -> utf8 c = Raise e -> e = UnicodeEncodeError.
Proof.
  intros Hc. unfold utf8. rewrite Hc.
  repeat match goal with
         | |- context [if ?b then _ else _] => destruct b
         end;
    intros H; try discriminate H; now injection H as <-.
Qed.

Lemma str_encode_raises text e :
  is_str text = true -> str_encode text = Raise e -> e = UnicodeEncodeError.
Proof.
  unfold str_encode.
  assert (H : forall s, is_str s = true -> mapM utf8 s = Raise e ->
                        e = UnicodeEncodeError).
  { induction s as [| c s IH]; intros Hs; [discriminate |].
    cbn [is_str forallb] in Hs. apply andb_true_iff in Hs.
    destruct Hs as [Hc Hs]. cbn [mapM].
    destruct (utf8 c) as [e' | encoded] eqn:Ec.
    - intros [= ->]. now apply (utf8_raises c).
    - cbn [rbind]. destruct (mapM utf8 s) as [e' | rest] eqn:Es.
      + intros [= ->]. now apply IH.
      + discriminate. }
  intros Hs. destruct (mapM utf8 text) as [e' | encoded] eqn:E.
  - intros [= ->]. now apply (H text).
  - discriminate.
Qed.

(** The encoding on code points of one, two, three and four bytes (the
    dollar, the pound and the euro signs, U+10348), on the last code point,
    on an ASCII literal, and on a lone surrogate. *)
Example str_encode_vectors :
  str_encode [36; 163; 8364; 66376]
    = Ok [x24; xc2; xa3; xe2; x82; xac; xf0; x90; x8d; x88] /\
  str_encode [1114111] = Ok [xf4; x8f; xbf; xbf] /\
  str_encode (text_of "hi") = Ok (B "hi") /\
  str_encode [104; 55296] = Raise UnicodeEncodeError.
Proof. repeat split. Qed.

(** X22. A message with a text that is not empty, sent on a connection in
    RESPONSE while the protocol is framing.  The text is a sequence of
    code points, encoded in UTF-8 (one to four bytes each).  When the
    encoding has at most 255 bytes, one write holds the Text frame: the byte
    0x81, the length of the encoding as one byte, the encoding unmasked; the
    connection stays in RESPONSE, or is CLOSED when the type of the message
    is "websocket.close".  When the text holds a lone surrogate, [send]
    raises [UnicodeEncodeError], nothing is written and nothing changes. *)
Theorem text_message_sent (w : World.t) (c : nat) (type : string)
        (text : pystr) (bytes_ : option bytes)
        (state : WebSocketParserState.t) (code : option Z) :
  (c < List.length (World.connections w))%nat ->
  ASGIConnection.state (connection c w) = RESPONSE ->
  HTTPWSProtocol.state (World.protocol w) <> HTTPWSProtocolState.REQUEST ->
  HTTPWSProtocol.parser (World.protocol w) = WebSocket_parser state ->
  is_str text = true ->
  text <> [] ->
  let run :=
    ASGIWebSocketConnection_send c
      (mkWSMessage type (Some text) bytes_ None code) w in
  (forall payload,
     str_encode text = Ok payload ->
     (List.length payload <= 255)%nat ->
     snd run = Ok tt /\
     World.transport (fst run) =
       World.transport w
       ++ [Write (x81 :: byte_of_N (N.of_nat (List.length payload))
                      :: payload)] /\
     ASGIConnection.state (connection c (fst run)) =
       (if String.eqb type "websocket.close" then CLOSED else RESPONSE)) /\
  (forall e,
     str_encode text = Raise e ->
     run = (w, Raise UnicodeEncodeError)).
Proof.
  intros Hlt Hst Hps Hpa Hstr Htext run. subst run.
  destruct text as [| ch text]; [contradiction |].
  cut_world w c Hlt.
  destruct conn as [k st q cl ct].
  cbn [ASGIConnection.state] in Hst. subst st.
  unfold ASGIWebSocketConnection_send, outgoing_payload, ws_frame,
         update_connection_state.
  cbn [ws_type ws_text ws_bytes ws_subprotocol].
  split.
  - intros payload Henc Hlen.
    run_world. rewrite Hpa.
    rewrite (get_frame_content_str _ _ _ _ _ _ _ Henc).
    rewrite (text_frame_bytes _ Hlen).
    run_world.
    destruct (String.eqb type "websocket.close"); run_world; repeat split.
  - intros e Henc.
    pose proof (str_encode_raises _ _ Hstr Henc) as ->.
    run_world. rewrite Hpa.
    rewrite (get_frame_content_str_raises _ _ _ _ _ _ _ Henc).
    run_world. reflexivity.
Qed.

(** X23. What [send] does not support.  A message with bytes to send (and
    no text, or an empty one) raises [AttributeError] in every state, from
    the member [WebSocketOpcode.BYTES] that the enumeration does not have;
    a first message with a subprotocol raises [AttributeError] as well,
    from [append] on the handshake headers, which are bytes.  Nothing is
    written and nothing changes. *)
Theorem unsupported_messages_raise (w : World.t) (c : nat)
        (message : WSMessage) :
  (bytes_given message = true ->
   ws_text message = None \/ ws_text message = Some [] ->
   ASGIWebSocketConnection_send c message w = (w, Raise AttributeError)) /\
  (bytes_given message = false ->
   ASGIConnection.state (connection c w) = REQUEST ->
   ws_subprotocol message <> None ->
   ASGIWebSocketConnection_send c message w = (w, Raise AttributeError)).
Proof.
  split.
  - intros Hb Ht. unfold ASGIWebSocketConnection_send, outgoing_payload.
    destruct Ht as [-> | ->]; cbn [String.eqb negb]; rewrite Hb; reflexivity.
  - intros Hb Hst Hsub.
    unfold ASGIWebSocketConnection_send.
    assert (Hout : exists sending, outgoing_payload message = Ok sending).
    { unfold outgoing_payload. rewrite Hb.
      destruct (ws_text message) as [[| ch text] |]; now eexists. }
    destruct Hout as [sending ->].
    erewrite bind_ok by reflexivity.
    erewrite bind_ok by reflexivity.
    rewrite Hst. cbn [ASGIConnectionState.eqb].
    erewrite bind_ok by reflexivity.
    erewrite bind_ok by reflexivity.
    rewrite Hst. cbn [ASGIConnectionState.eqb].
    erewrite bind_raise; [reflexivity |].
    unfold ws_handshake.
    erewrite bind_raise; [reflexivity |].
    destruct (ws_subprotocol message); [reflexivity | contradiction].
Qed.

(** X24. The end of a WebSocket connection.  A message of type
    "websocket.close" without text on a connection in RESPONSE only moves
    the connection to CLOSED: no Close frame is written and the transport is
    not closed.  Any later message without bytes raises the plain
    [Exception] "Unexpected message" and changes nothing. *)
Theorem websocket_close_is_silent (w : World.t) (c : nat)
        (code : option Z) (later : WSMessage) :
  (c < List.length (World.connections w))%nat ->
  ASGIConnection.state (connection c w) = RESPONSE ->
  bytes_given later = false ->
  let run :=
    ASGIWebSocketConnection_send c
      (mkWSMessage "websocket.close" None None None code) w in
  snd run = Ok tt /\
  World.transport (fst run) = World.transport w /\
  World.protocol (fst run) = World.protocol w /\
  ASGIConnection.state (connection c (fst run)) = CLOSED /\
  ASGIWebSocketConnection_send c later (fst run) =
  (fst run,
   Raise (PyException
     "Unexpected message, ASGIConnection is ASGIConnectionState.CLOSED")).
Proof.
  intros Hlt Hst Hb run.
  assert (Hrun : snd run = Ok tt /\
                 World.transport (fst run) = World.transport w /\
                 World.protocol (fst run) = World.protocol w /\
                 ASGIConnection.state (connection c (fst run)) = CLOSED).
  { subst run. cut_world w c Hlt.
    destruct conn as [k st q cl ct].
    cbn [ASGIConnection.state] in Hst. subst st.
    unfold ASGIWebSocketConnection_send, outgoing_payload, bytes_given,
           ws_frame, update_connection_state.
    cbn [ws_type ws_text ws_bytes ws_subprotocol String.eqb Ascii.eqb
         Bool.eqb orb andb].
    run_world. repeat split. }
  destruct Hrun as (Hok & Htr & Hpr & Hcl).
  repeat split; try assumption.
  unfold ASGIWebSocketConnection_send.
  assert (Hout : exists sending, outgoing_payload later = Ok sending).
  { unfold outgoing_payload. rewrite Hb.
    destruct (ws_text later) as [[| ch text] |]; now eexists. }
  destruct Hout as [sending ->].
  erewrite bind_ok by reflexivity.
  erewrite bind_ok by reflexivity.
  rewrite Hcl. reflexivity.
Qed.

End WebSocketSend.

(** ** The end of the header block *)

Section HeadersComplete.
Context {lib : PyLib}.

Lemma upgrade_step_no_key headers : forall acc,
  forallb (fun h => negb (is_key_header h)) headers = true ->
  fst (fold_left upgrade_step headers acc) = fst acc.
Proof.
  induction headers as [| h headers IH]; intros [a s] Hno; [reflexivity |].
  cbn [forallb] in Hno. apply andb_true_iff in Hno. destruct Hno as [Hh Hno].
  cbn [fold_left]. rewrite IH by exact Hno.
  unfold upgrade_step. unfold is_key_header in Hh.
  apply negb_true_iff in Hh. now rewrite Hh.
Qed.

Lemma upgrade_step_last_key before value after : forall acc,
  forallb (fun h => negb (is_key_header h)) after = true ->
  fst (fold_left upgrade_step
         (before ++ (B "Sec-WebSocket-Key", value) :: after) acc)
  = Some (get_websocket_accept_key value).
Proof.
  intros acc Hno. rewrite fold_left_app. cbn [fold_left].
  rewrite upgrade_step_no_key by exact Hno.
  destruct (fold_left upgrade_step before acc) as [a s]. reflexivity.
Qed.

(** X25. An upgrade request whose headers do not hold the name
    "Sec-WebSocket-Key", written exactly so (the comparison is on the bytes
    as they came, a key header in lower case does not count): the protocol
    writes the status line 403 with the server and date lines and the blank
    line, closes the transport, and makes no connection. *)
Theorem upgrade_without_key (w : World.t) (p : HTTPParser.t) :
  HTTPWSProtocol.parser (World.protocol w) = HTTP_parser p ->
  forallb (fun h => negb (is_key_header h)) (HTTPParser.headers p) = true ->
  on_upgrade w =
  (World.set_transport
     (World.transport w
      ++ [Write (List.concat (get_server_headers 403) ++ CRLF); Close]) w,
   Ok tt).
Proof.
  intros Hp Hno. unfold on_upgrade.
  erewrite bind_ok by reflexivity. rewrite Hp.
  change (fold_left _ (HTTPParser.headers p) (None, None))
    with (fold_left upgrade_step (HTTPParser.headers p) (None, None)).
  rewrite upgrade_step_no_key by exact Hno. cbn [fst].
  destruct w as [pr cs tr ts]. run_world.
  now rewrite <- app_assoc.
Qed.

(** X26. A header block with the upgrade target "websocket" and a header
    named "Sec-WebSocket-Key": nothing is written yet.  The protocol keeps
    the handshake headers with the accept key of the last key header, makes
    a WebSocket connection whose queue holds "websocket.connect", hands its
    application to the event loop, and turns to FRAMING with a frame parser
    in INITIAL_BYTES.  The scheme becomes "wss" when it was "http", as it is
    on every fresh protocol, and "ws" otherwise. *)
Theorem upgrade_accepted (w : World.t) (p : HTTPParser.t)
        (target : bytes * bytes) (before after : list (bytes * bytes))
        (value : bytes) :
  HTTPWSProtocol.parser (World.protocol w) = HTTP_parser p ->
  HTTPParser.upgrade_header p = Some target ->
  snd target = B "websocket" ->
  HTTPParser.headers p
    = before ++ (B "Sec-WebSocket-Key", value) :: after ->
  forallb (fun h => negb (is_key_header h)) after = true ->
  let run := on_headers_complete w in
  let c := List.length (World.connections w) in
  snd run = Ok tt /\
  World.transport (fst run) = World.transport w /\
  World.connections (fst run) =
    World.connections w
    ++ [ASGIConnection.mk ASGIConnection.WebSocket ASGIConnectionState.REQUEST
          (Some [websocket_connect 0]) None None] /\
  World.tasks (fst run) = World.tasks w ++ [AppTask c] /\
  HTTPWSProtocol.asgi_connection (World.protocol (fst run)) = Some c /\
  HTTPWSProtocol.handshake_headers (World.protocol (fst run))
    = Some (handshake_of (get_websocket_accept_key value)) /\
  HTTPWSProtocol.state (World.protocol (fst run))
    = HTTPWSProtocolState.FRAMING /\
  HTTPWSProtocol.parser (World.protocol (fst run))
    = WebSocket_parser WebSocketParserState.INITIAL_BYTES /\
  HTTPWSProtocol.scheme (World.protocol (fst run))
    = (if String.eqb (HTTPWSProtocol.scheme (World.protocol w)) "http"
       then "wss" else "ws")%string.
Proof.
  intros Hp Hup Hws Hhd Hno run c. subst run c.
  destruct w as [[ac st pa hh sc sv cl buffer wp dw sp ka acd] cs tr ts].
  cbn [World.protocol HTTPWSProtocol.parser HTTPWSProtocol.scheme
       World.connections World.transport World.tasks] in *.
  subst pa.
  unfold on_headers_complete. run_world. rewrite Hup, Hws.
  rewrite bytes_eqb_refl. cbn [negb].
  unfold on_upgrade. run_world.
  change (fold_left _ (HTTPParser.headers p) (None, None))
    with (fold_left upgrade_step (HTTPParser.headers p) (None, None)).
  rewrite Hhd, upgrade_step_last_key by exact Hno. cbn [fst].
  unfold new_connection, ASGIWebSocketConnection_run_asgi,
         ASGIConnection_run_asgi, put_message.
  run_world. cbn [scope_scheme].
  unfold ASGIConnection.init. run_world.
  repeat split.
Qed.

(** X27. A header block whose upgrade target is anything but the bytes
    "websocket" (the comparison is exact, "WebSocket" is refused): the
    protocol writes the status line 500 with the server and date lines,
    then the line "Unsupported upgrade request." without a blank line
    before it, closes the transport, and makes no connection. *)
Theorem unsupported_upgrade (w : World.t) (p : HTTPParser.t)
        (target : bytes * bytes) :
  HTTPWSProtocol.parser (World.protocol w) = HTTP_parser p ->
  HTTPParser.upgrade_header p = Some target ->
  snd target <> B "websocket" ->
  let run := on_headers_complete w in
  snd run = Ok tt /\
  World.transport (fst run) =
    World.transport w
    ++ [Write (List.concat (get_server_headers 500)
               ++ B "Unsupported upgrade request." ++ CRLF);
        Close] /\
  World.connections (fst run) = World.connections w /\
  World.tasks (fst run) = World.tasks w /\
  HTTPWSProtocol.asgi_connection (World.protocol (fst run))
    = HTTPWSProtocol.asgi_connection (World.protocol w).
Proof.
  intros Hp Hup Hws run. subst run.
  destruct w as [[ac st pa hh sc sv cl buffer wp dw sp ka acd] cs tr ts].
  cbn [World.protocol HTTPWSProtocol.parser HTTPWSProtocol.asgi_connection
       World.connections World.transport World.tasks] in *.
  subst pa.
  unfold on_headers_complete. run_world. rewrite Hup.
  rewrite (bytes_eqb_neq _ _ Hws). cbn [negb].
  run_world. rewrite <- app_assoc. repeat split.
Qed.

(** X28. A header block without upgrade target: the protocol makes an HTTP
    connection whose queue holds one "http.request" with an empty body,
    hands its application to the event loop and writes nothing.  The scope
    carries the fields of the request line and the headers with their names
    in lower case and their values as they came. *)
Theorem plain_request_connected (w : World.t) (p : HTTPParser.t) :
  HTTPWSProtocol.parser (World.protocol w) = HTTP_parser p ->
  HTTPParser.upgrade_header p = None ->
  let run := on_headers_complete w in
  let c := List.length (World.connections w) in
  snd run = Ok tt /\
  World.transport (fst run) = World.transport w /\
  World.connections (fst run) =
    World.connections w
    ++ [ASGIConnection.mk ASGIConnection.HTTP ASGIConnectionState.REQUEST
          (Some [http_request []]) None None] /\
  World.tasks (fst run) = World.tasks w ++ [AppTask c] /\
  HTTPWSProtocol.asgi_connection (World.protocol (fst run)) = Some c /\
  HTTPWSProtocol.scope (World.protocol (fst run)) =
    Some (mkScope "http" (HTTPParser.http_version p)
            (HTTPWSProtocol.server (World.protocol w))
            (HTTPWSProtocol.client (World.protocol w))
            (HTTPWSProtocol.scheme (World.protocol w))
            (HTTPParser.http_method p) (HTTPParser.path p)
            (HTTPParser.query_string p)
            (map (fun h => (bytes_lower (fst h), snd h))
                 (HTTPParser.headers p))
            None).
Proof.
  intros Hp Hup run c. subst run c.
  destruct w as [[ac st pa hh sc sv cl buffer wp dw sp ka acd] cs tr ts].
  cbn [World.protocol HTTPWSProtocol.parser HTTPWSProtocol.scheme
       HTTPWSProtocol.server HTTPWSProtocol.client
       World.connections World.transport World.tasks] in *.
  subst pa.
  unfold on_headers_complete. run_world. rewrite Hup.
  unfold new_connection, ASGIHTTPConnection_run_asgi,
         ASGIConnection_run_asgi, put_message.
  run_world. unfold ASGIConnection.init. run_world.
  repeat split.
Qed.

End HeadersComplete.

(** ** The queue of a connection and the received bytes *)

Section Queue.
Context {lib : PyLib}.

Lemma put_messages_at messages :
  forall pr pre post k st q cl ct tr ts,
    st <> ASGIConnectionState.CLOSED ->
    put_messages (List.length pre) messages
      (World.mk pr (pre ++ ASGIConnection.mk k st (Some q) cl ct :: post)
                tr ts)
    = (World.mk pr
         (pre ++ ASGIConnection.mk k st (Some (q ++ messages)) cl ct :: post)
         tr ts,
       Ok tt).
Proof.
  induction messages as [| m messages IH];
    intros pr pre post k st q cl ct tr ts Hst.
  - cbn [put_messages]. now rewrite app_nil_r.
  - cbn [put_messages]. unfold put_message. run_world.
    destruct st; try contradiction; run_world;
      rewrite IH by assumption; now rewrite <- app_assoc.
Qed.

Lemma receive_n_at q :
  forall pr pre post k st rest cl ct tr ts,
    receive_n (List.length pre) (List.length q)
      (World.mk pr
         (pre ++ ASGIConnection.mk k st (Some (q ++ rest)) cl ct :: post)
         tr ts)
    = (World.mk pr
         (pre ++ ASGIConnection.mk k st (Some rest) cl ct :: post) tr ts,
       Ok (map Some q)).
Proof.
  induction q as [| m q IH]; intros pr pre post k st rest cl ct tr ts.
  - reflexivity.
  - cbn [List.length receive_n app map]. unfold receive. run_world.
    rewrite IH. reflexivity.
Qed.

(** X29. The queue of a connection is first in, first out.  On a
    connection that is not CLOSED, after messages are put in order, as many
    calls of [receive] as the queue holds return what it held and then the
    messages, in the order they were put; the queue is then empty and one
    more [receive] finds nothing to return (the application would wait). *)
Theorem queue_is_fifo (w : World.t) (c : nat)
        (queue messages : list Message) :
  (c < List.length (World.connections w))%nat ->
  ASGIConnection.state (connection c w) <> ASGIConnectionState.CLOSED ->
  ASGIConnection.app_queue (connection c w) = Some queue ->
  let put := put_messages c messages w in
  let got :=
    receive_n c (List.length (queue ++ messages)) (fst put) in
  snd put = Ok tt /\
  snd got = Ok (map Some (queue ++ messages)) /\
  ASGIConnection.app_queue (connection c (fst got)) = Some [] /\
  snd (receive c (fst got)) = Ok None.
Proof.
  intros Hlt Hst Hq put got. subst put got.
  cut_world w c Hlt.
  destruct conn as [k st q cl ct].
  cbn [ASGIConnection.state ASGIConnection.app_queue] in Hst, Hq.
  subst q.
  rewrite put_messages_at by exact Hst. cbn [fst snd].
  pose proof (receive_n_at (queue ++ messages) pr pre post k st [] cl ct
                tr ts) as Hgot.
  rewrite app_nil_r in Hgot. rewrite !Hgot. cbn [fst snd].
  unfold receive. run_world. repeat split.
Qed.

(** X30. Bytes received once the header block is complete.  While the
    protocol is in RESPONSE, STREAMING or CLOSED (a plain HTTP request is
    being answered, the bytes are its body or a next request),
    [buffer_updated] raises [AssertionError] and nothing is read; in
    FRAMING the first [nbytes] bytes of the buffer are handed to the event
    loop as one frame to decode, and nothing else changes. *)
Theorem received_bytes_dispatch (w : World.t) (nbytes : Z) :
  (HTTPWSProtocol.state (World.protocol w) = HTTPWSProtocolState.RESPONSE \/
   HTTPWSProtocol.state (World.protocol w) = HTTPWSProtocolState.STREAMING \/
   HTTPWSProtocol.state (World.protocol w) = HTTPWSProtocolState.CLOSED ->
   buffer_updated nbytes false w = (w, Raise AssertionError)) /\
  (forall state,
     HTTPWSProtocol.state (World.protocol w) = HTTPWSProtocolState.FRAMING ->
     HTTPWSProtocol.parser (World.protocol w) = WebSocket_parser state ->
     buffer_updated nbytes false w =
     (World.set_tasks
        (World.tasks w
         ++ [FrameTask
               (pyslice (HTTPWSProtocol.buffer_data (World.protocol w))
                        None (Some nbytes))]) w,
      Ok tt)).
Proof.
  split.
  - intros Hs. unfold buffer_updated, on_frame.
    erewrite bind_ok by reflexivity.
    destruct Hs as [Hs | [Hs | Hs]]; rewrite Hs;
      cbn [HTTPWSProtocolState.eqb];
      (erewrite bind_ok by reflexivity); rewrite Hs; reflexivity.
  - intros state Hs Hp. unfold buffer_updated, on_frame.
    erewrite bind_ok by reflexivity. rewrite Hs.
    cbn [HTTPWSProtocolState.eqb].
    erewrite bind_ok by reflexivity. rewrite Hs, Hp. reflexivity.
Qed.

End Queue.

(** ** Instances on the worlds of the examples *)

Ltac closed_world_fact :=
  first [ reflexivity
        | vm_compute; reflexivity
        | apply Nat.ltb_lt; reflexivity
        | apply Nat.leb_le; reflexivity
        | discriminate
        | left; reflexivity
        | right; reflexivity ].

Lemma response_event_in_wrong_state_witness :
  on_http_response_start (lib := example_lib) 0 example_start started_world =
  (started_world,
   Raise (PyException
     "Invalid `http.response.start` event: The response has already started."))
  /\
  on_http_response_body (lib := example_lib) 0 example_body http_world =
  (http_world,
   Raise (PyException
     "Invalid `http.response.body` event: The response has not started.")).
Proof.
  split.
  - apply (proj1 (response_event_in_wrong_state (lib := example_lib)
                    started_world 0 example_start)).
    discriminate.
  - apply (proj2 (response_event_in_wrong_state (lib := example_lib)
                    http_world 0 example_body)).
    left. reflexivity.
Defined.

Lemma streaming_begins_witness :
  let run :=
    on_http_response_body (lib := example_lib) 0
      (http_response_body (Some (B "hello")) (Some true)) started_world in
  snd run = Ok tt /\
  World.transport (fst run) =
    World.transport started_world
    ++ [Write (List.concat
                 (get_server_headers (lib := example_lib) 200
                  ++ [response_line (B "content-type", B "text/html")])
               ++ (B "transfer-encoding: chunked" ++ CRLF ++ CRLF)
               ++ chunk (B "hello"))] /\
  ASGIConnection.state (connection 0 (fst run))
    = ASGIConnectionState.STREAMING.
Proof.
  apply (streaming_begins (lib := example_lib) started_world 0 (B "hello")
           (get_server_headers (lib := example_lib) 200
            ++ [response_line (B "content-type", B "text/html")]));
    closed_world_fact.
Defined.

Lemma streaming_chunks_witness :
  let run :=
    on_http_response_body (lib := example_lib) 0
      (http_response_body (Some (B "world")) (Some false)) streaming_world in
  snd run = Ok tt /\
  World.transport (fst run) =
    World.transport streaming_world
    ++ [Write (chunk (B "world")); Write (B "0" ++ CRLF ++ CRLF)] /\
  ASGIConnection.state (connection 0 (fst run))
    = ASGIConnectionState.CLOSED.
Proof.
  apply (streaming_chunks (lib := example_lib) streaming_world 0 (B "world")
           false); closed_world_fact.
Defined.

Lemma final_body_written_witness :
  let run :=
    on_http_response_body (lib := example_lib) 0
      (http_response_body (Some (B "0123456789abcdef")) (Some false))
      started_world in
  snd run = Ok tt /\
  World.transport (fst run) =
    World.transport started_world
    ++ [Write (List.concat
                 (get_server_headers (lib := example_lib) 200
                  ++ [response_line (B "content-type", B "text/html")])
               ++ match ASGIConnection.content_length
                          (connection 0 started_world) with
                  | None => B "content-length: "
                              ++ hex_of_len (len (B "0123456789abcdef"))
                              ++ CRLF ++ CRLF
                  | Some _ => CRLF
                  end
               ++ B "0123456789abcdef" ++ CRLF)] /\
  ASGIConnection.state (connection 0 (fst run))
    = ASGIConnectionState.CLOSED.
Proof.
  apply (final_body_written (lib := example_lib) started_world 0
           (B "0123456789abcdef")
           (get_server_headers (lib := example_lib) 200
            ++ [response_line (B "content-type", B "text/html")]));
    closed_world_fact.
Defined.

Lemma response_start_effect_witness :
  let headers :=
    [(B "content-type", B "text/html"); (B "connection", B "close")] in
  let run :=
    on_http_response_start (lib := example_lib) 0
      (http_response_start 200 (Some headers)) http_world in
  snd run = Ok tt /\
  World.transport (fst run) = World.transport http_world /\
  ASGIConnection.content (connection 0 (fst run)) =
    Some (get_server_headers (lib := example_lib) 200
          ++ map response_line headers) /\
  ASGIConnection.state (connection 0 (fst run))
    = ASGIConnectionState.RESPONSE /\
  HTTPWSProtocol.keep_alive (World.protocol (fst run)) =
    HTTPWSProtocol.keep_alive (World.protocol http_world)
    && negb (existsb closes headers).
Proof.
  apply (response_start_effect (lib := example_lib) http_world 0 200
           [(B "content-type", B "text/html"); (B "connection", B "close")]);
    closed_world_fact.
Defined.

Lemma response_completed_witness :
  let run :=
    send (lib := example_lib) 0
      (http_response_body (Some (B "0123456789abcdef")) (Some false))
      started_world in
  snd run = Ok tt /\
  HTTPWSProtocol.state (World.protocol (fst run))
    = HTTPWSProtocolState.REQUEST /\
  HTTPWSProtocol.parser (World.protocol (fst run))
    = HTTP_parser HTTPParser.init.
Proof.
  destruct (response_completed (lib := example_lib) started_world 0
              (B "0123456789abcdef")
              (get_server_headers (lib := example_lib) 200
               ++ [response_line (B "content-type", B "text/html")])
              ltac:(closed_world_fact) ltac:(closed_world_fact)
              ltac:(closed_world_fact) ltac:(closed_world_fact)
              ltac:(closed_world_fact) ltac:(closed_world_fact))
    as (Hok & _ & Hkeep).
  change (HTTPWSProtocol.keep_alive (World.protocol started_world))
    with true in Hkeep.
  exact (conj Hok (proj2 Hkeep)).
Defined.

Lemma handshake_accepted_witness :
  let run :=
    ASGIWebSocketConnection_send (lib := example_lib) 0
      (mkWSMessage "websocket.close" None None None None) framing_world in
  snd run = Ok tt /\
  World.transport (fst run) =
    World.transport framing_world
    ++ [Write (List.concat (get_server_headers (lib := example_lib) 101)
               ++ handshake_of (B "J9R6HjgRj5VpgXEFRYnNh9igw2o=")
               ++ CRLF)] /\
  ASGIConnection.state (connection 0 (fst run)) =
    (if String.eqb "websocket.close" "websocket.close"
     then ASGIConnectionState.CLOSED else ASGIConnectionState.RESPONSE) /\
  HTTPWSProtocol.accepted (World.protocol (fst run)) = true.
Proof.
  apply (handshake_accepted (lib := example_lib) framing_world 0
           "websocket.close"
           (handshake_of (B "J9R6HjgRj5VpgXEFRYnNh9igw2o=")) None);
    closed_world_fact.
Defined.

Lemma handshake_refused_witness :
  let run :=
    ASGIWebSocketConnection_send (lib := example_lib) 0
      (mkWSMessage "websocket.send" None None None None) framing_world in
  snd run = Ok tt /\
  World.transport (fst run) =
    World.transport framing_world
    ++ [Write (List.concat (get_server_headers (lib := example_lib) 403)
               ++ CRLF);
        Close] /\
  ASGIConnection.state (connection 0 (fst run)) = ASGIConnectionState.CLOSED.
Proof.
  apply (handshake_refused (lib := example_lib) framing_world 0
           "websocket.send" None); closed_world_fact.
Defined.

(** The text is the euro sign, U+20AC, three bytes in UTF-8; then a lone
    surrogate. *)
Lemma text_message_sent_witness :
  (let run :=
     ASGIWebSocketConnection_send (lib := example_lib) 0
       (mkWSMessage "websocket.send" (Some [8364]) None None None)
       accepted_world in
   snd run = Ok tt /\
   World.transport (fst run) =
     World.transport accepted_world ++ [Write [x81; x03; xe2; x82; xac]] /\
   ASGIConnection.state (connection 0 (fst run))
     = ASGIConnectionState.RESPONSE) /\
  ASGIWebSocketConnection_send (lib := example_lib) 0
    (mkWSMessage "websocket.send" (Some [104; 55357]) None None None)
    accepted_world
  = (accepted_world, Raise UnicodeEncodeError).
Proof.
  split.
  - apply (proj1 (text_message_sent (lib := example_lib) accepted_world 0
                    "websocket.send" [8364] None
                    WebSocketParserState.INITIAL_BYTES None
                    ltac:(closed_world_fact) ltac:(closed_world_fact)
                    ltac:(closed_world_fact) ltac:(closed_world_fact)
                    ltac:(closed_world_fact) ltac:(closed_world_fact))
             [xe2; x82; xac]);
      closed_world_fact.
  - apply (proj2 (text_message_sent (lib := example_lib) accepted_world 0
                    "websocket.send" [104; 55357] None
                    WebSocketParserState.INITIAL_BYTES None
                    ltac:(closed_world_fact) ltac:(closed_world_fact)
                    ltac:(closed_world_fact) ltac:(closed_world_fact)
                    ltac:(closed_world_fact) ltac:(closed_world_fact))
             UnicodeEncodeError).
    reflexivity.
Defined.

Lemma unsupported_messages_raise_witness :
  ASGIWebSocketConnection_send (lib := example_lib) 0
    (mkWSMessage "websocket.send" None (Some (B "hi")) None None)
    accepted_world
  = (accepted_world, Raise AttributeError) /\
  ASGIWebSocketConnection_send (lib := example_lib) 0
    (mkWSMessage "websocket.accept" None None (Some (text_of "chat")) None)
    framing_world
  = (framing_world, Raise AttributeError).
Proof.
  split.
  - apply (proj1 (unsupported_messages_raise (lib := example_lib)
                    accepted_world 0
                    (mkWSMessage "websocket.send" None (Some (B "hi"))
                                 None None)));
      closed_world_fact.
  - apply (proj2 (unsupported_messages_raise (lib := example_lib)
                    framing_world 0
                    (mkWSMessage "websocket.accept" None None
                                 (Some (text_of "chat")) None)));
      closed_world_fact.
Defined.

Lemma websocket_close_is_silent_witness :
  let run :=
    ASGIWebSocketConnection_send (lib := example_lib) 0
      (mkWSMessage "websocket.close" None None None (Some 1000%Z))
      accepted_world in
  snd run = Ok tt /\
  World.transport (fst run) = World.transport accepted_world /\
  World.protocol (fst run) = World.protocol accepted_world /\
  ASGIConnection.state (connection 0 (fst run)) = ASGIConnectionState.CLOSED /\
  ASGIWebSocketConnection_send (lib := example_lib) 0
    (mkWSMessage "websocket.send" (Some (text_of "hi")) None None None)
    (fst run) =
  (fst run,
   Raise (PyException
     "Unexpected message, ASGIConnection is ASGIConnectionState.CLOSED")).
Proof.
  apply (websocket_close_is_silent (lib := example_lib) accepted_world 0
           (Some 1000%Z)
           (mkWSMessage "websocket.send" (Some (text_of "hi")) None None None));
    closed_world_fact.
Defined.

Lemma upgrade_without_key_witness :
  on_upgrade (lib := example_lib)
    (headers_read LOWER_KEY_UPGRADE_REQUEST_HEADERS) =
  (World.set_transport
     (World.transport (headers_read LOWER_KEY_UPGRADE_REQUEST_HEADERS)
      ++ [Write (List.concat (get_server_headers (lib := example_lib) 403)
                 ++ CRLF);
          Close])
     (headers_read LOWER_KEY_UPGRADE_REQUEST_HEADERS),
   Ok tt).
Proof.
  apply (upgrade_without_key (lib := example_lib)
           (headers_read LOWER_KEY_UPGRADE_REQUEST_HEADERS)
           (fst (parse_headers (lib := example_lib)
                   LOWER_KEY_UPGRADE_REQUEST_HEADERS HTTPParser.init)));
    closed_world_fact.
Defined.

Lemma upgrade_accepted_witness :
  let run :=
    on_headers_complete (lib := example_lib)
      (headers_read UPGRADE_REQUEST_HEADERS) in
  snd run = Ok tt /\
  World.transport (fst run) = [] /\
  World.connections (fst run) =
    [ASGIConnection.mk ASGIConnection.WebSocket ASGIConnectionState.REQUEST
       (Some [websocket_connect 0]) None None] /\
  World.tasks (fst run) = [AppTask 0] /\
  HTTPWSProtocol.asgi_connection (World.protocol (fst run)) = Some 0%nat /\
  HTTPWSProtocol.handshake_headers (World.protocol (fst run))
    = Some (handshake_of
              (get_websocket_accept_key (B "Y56tJpDd+hCW+vDb0qdekQ=="))) /\
  HTTPWSProtocol.state (World.protocol (fst run))
    = HTTPWSProtocolState.FRAMING /\
  HTTPWSProtocol.parser (World.protocol (fst run))
    = WebSocket_parser WebSocketParserState.INITIAL_BYTES /\
  HTTPWSProtocol.scheme (World.protocol (fst run)) = "wss"%string.
Proof.
  apply (upgrade_accepted (lib := example_lib)
           (headers_read UPGRADE_REQUEST_HEADERS)
           (fst (parse_headers (lib := example_lib)
                   UPGRADE_REQUEST_HEADERS HTTPParser.init))
           (B "Upgrade", B "websocket")
           [(B "Connection", B "keep-alive, upgrade");
            (B "Upgrade", B "websocket")]
           [(B "Sec-WebSocket-Version", B "13")]
           (B "Y56tJpDd+hCW+vDb0qdekQ=="));
    closed_world_fact.
Defined.

Lemma unsupported_upgrade_witness :
  let run :=
    on_headers_complete (lib := example_lib)
      (headers_read CAPITALS_UPGRADE_REQUEST_HEADERS) in
  snd run = Ok tt /\
  World.transport (fst run) =
    World.transport (headers_read CAPITALS_UPGRADE_REQUEST_HEADERS)
    ++ [Write (List.concat (get_server_headers (lib := example_lib) 500)
               ++ B "Unsupported upgrade request." ++ CRLF);
        Close] /\
  World.connections (fst run) =
    World.connections (headers_read CAPITALS_UPGRADE_REQUEST_HEADERS) /\
  World.tasks (fst run) =
    World.tasks (headers_read CAPITALS_UPGRADE_REQUEST_HEADERS) /\
  HTTPWSProtocol.asgi_connection (World.protocol (fst run)) =
    HTTPWSProtocol.asgi_connection
      (World.protocol (headers_read CAPITALS_UPGRADE_REQUEST_HEADERS)).
Proof.
  apply (unsupported_upgrade (lib := example_lib)
           (headers_read CAPITALS_UPGRADE_REQUEST_HEADERS)
           (fst (parse_headers (lib := example_lib)
                   CAPITALS_UPGRADE_REQUEST_HEADERS HTTPParser.init))
           (B "Upgrade", B "WebSocket"));
    closed_world_fact.
Defined.

Lemma plain_request_connected_witness :
  let run :=
    on_headers_complete (lib := example_lib) (headers_read REQUEST_HEADERS) in
  snd run = Ok tt /\
  World.transport (fst run) = [] /\
  World.connections (fst run) =
    [ASGIConnection.mk ASGIConnection.HTTP ASGIConnectionState.REQUEST
       (Some [http_request []]) None None] /\
  World.tasks (fst run) = [AppTask 0] /\
  HTTPWSProtocol.asgi_connection (World.protocol (fst run)) = Some 0%nat /\
  HTTPWSProtocol.scope (World.protocol (fst run)) =
    Some (mkScope "http" (Some "HTTP/1.1"%string) None None "http"
            (Some "GET"%string) (Some "/"%string) (Some ""%string)
            [(B "host", B "localhost:8000");
             (B "connection", B "keep-alive")]
            None).
Proof.
  apply (plain_request_connected (lib := example_lib)
           (headers_read REQUEST_HEADERS)
           (fst (parse_headers (lib := example_lib)
                   REQUEST_HEADERS HTTPParser.init)));
    closed_world_fact.
Defined.

Lemma queue_is_fifo_witness :
  let put :=
    put_messages 0 [http_request (B "a"); http_disconnect] http_world in
  let got := receive_n 0 3 (fst put) in
  snd put = Ok tt /\
  snd got =
    Ok [Some (http_request []); Some (http_request (B "a"));
        Some http_disconnect] /\
  ASGIConnection.app_queue (connection 0 (fst got)) = Some [] /\
  snd (receive 0 (fst got)) = Ok None.
Proof.
  apply (queue_is_fifo http_world 0 [http_request []]
           [http_request (B "a"); http_disconnect]);
    closed_world_fact.
Defined.

Lemma received_bytes_dispatch_witness :
  buffer_updated (lib := example_lib) 5 false http_world
    = (http_world, Raise AssertionError) /\
  buffer_updated (lib := example_lib) 2 false framing_world
    = (World.set_tasks
         (World.tasks framing_world
          ++ [FrameTask
                (pyslice (HTTPWSProtocol.buffer_data
                            (World.protocol framing_world))
                         None (Some 2%Z))])
         framing_world,
       Ok tt).
Proof.
  split.
  - apply (proj1 (received_bytes_dispatch (lib := example_lib)
                    http_world 5)).
    left. reflexivity.
  - apply (proj2 (received_bytes_dispatch (lib := example_lib)
                    framing_world 2)
             WebSocketParserState.INITIAL_BYTES); reflexivity.
Defined.
